(** * Sema Chat: session store, backend manager and chat orchestrator

    A shallow embedding of the chat service of [backend/sema-chat/app]:

    - [models/schemas.py]            the message, chunk and history records;
    - [core/config.py]               the settings the services read;
    - [services/model_backends]      the backend base class and the OpenAI
                                     variant ([base.py], [openai_api.py]);
    - [services/session_manager.py]  the session store (memory storage);
    - [services/model_manager.py]    the backend manager;
    - [services/chat_manager.py]     the orchestrator.

    The three module-level singletons of the Python code ([session_manager],
    [model_manager], [chat_manager]) and [settings] are the fields of one
    [World]; methods are computations in a state-and-exception monad over
    it.  What the outside world decides (connectivity probes, provider
    responses, uuids) is an explicit argument of the method that asks. *)

From Stdlib Require Import ZArith List Bool Lia Ascii String DecimalString Floats.
From stdpp Require Import base option list gmap.

Set Default Proof Using "Type".
Set Warnings "-inexact-float".
Open Scope Z_scope.

(** ** Python values *)

(** A Python [str] is a sequence of code points. *)
Definition pystr := list N.

(** An ASCII literal of the source. *)
Definition lit (s : string) : pystr :=
  map N_of_ascii (list_ascii_of_string s).

(** Truthiness of a [str]: the empty string is falsy. *)
Definition str_truthy (s : pystr) : bool :=
  match s with [] => false | _ :: _ => true end.

(** Truthiness of an [Optional[str]]: [None] and [""] are falsy. *)
Definition opt_truthy (o : option pystr) : bool :=
  match o with None => false | Some s => str_truthy s end.

Definition str_eqb (a b : pystr) : bool := bool_decide (a = b).

(** [str.isspace] on one code point: the characters [str.strip()] removes. *)
Definition isspace (c : N) : bool :=
  (((9 <=? c) && (c <=? 13)) || ((28 <=? c) && (c <=? 32))
   || (c =? 133) || (c =? 160) || (c =? 5760)
   || ((8192 <=? c) && (c <=? 8202))
   || (c =? 8232) || (c =? 8233) || (c =? 8239) || (c =? 8287)
   || (c =? 12288))%N.

Fixpoint lstrip (s : pystr) : pystr :=
  match s with
  | [] => []
  | c :: s' => if isspace c then lstrip s' else s
  end.

Definition rstrip (s : pystr) : pystr := rev (lstrip (rev s)).

(** [s.strip()] *)
Definition strip (s : pystr) : pystr := rstrip (lstrip s).

(** [s.startswith(p)] *)
Fixpoint startswith (p s : pystr) : bool :=
  match p, s with
  | [], _ => true
  | _ :: _, [] => false
  | a :: p', b :: s' => (a =? b)%N && startswith p' s'
  end.

(** [l[n:]] for an [int] [n]: a negative index counts from the end, and
    an index outside the list is clipped. *)
Definition slice_from {A} (n : Z) (l : list A) : list A :=
  if n <? 0
  then drop (Z.to_nat (Z.max 0 (Z.of_nat (length l) + n))) l
  else drop (Z.to_nat n) l.

(** [len(l)] *)
Definition len {A} (l : list A) : Z := Z.of_nat (length l).

(** The [k] most recent elements of [l]. *)
Definition lastn {A} (k : nat) (l : list A) : list A :=
  drop (length l - k)%nat l.

(** ** Exceptions ([model_backends/base.py], and the built-in ones raised)

    [RuntimeError] keeps its message: the orchestrator raises it at two
    places that only the message tells apart.  The backend errors wrap a
    provider message that no caller inspects; they are kept as tags. *)

Inductive exn :=
| RuntimeError (msg : pystr)
| IndexError
| AttributeError
| ModelLoadError
| GenerationError
| ModelNotLoadedError.

(** [isinstance(e, ModelBackendError)] *)
Definition is_ModelBackendError (e : exn) : bool :=
  match e with
  | ModelLoadError | GenerationError | ModelNotLoadedError => true
  | _ => false
  end.

Definition is_RuntimeError (e : exn) : bool :=
  match e with RuntimeError _ => true | _ => false end.

(** [str(n)] for an [int]: its decimal rendering. *)
Definition str_int (n : Z) : pystr :=
  lit (NilZero.string_of_int (Z.to_int n)).

Inductive Result (A : Type) :=
| Ok (a : A)
| Raise (e : exn).
Arguments Ok {A} a.
Arguments Raise {A} e.

(** A finite Python generator seen from its consumer: what each resumption
    produces.  Closing it early discards the tail. *)
Inductive gen (Y : Type) :=
| GYield (y : Y) (k : gen Y)
| GReturn
| GRaise (e : exn).
Arguments GYield {Y} y k.
Arguments GReturn {Y}.
Arguments GRaise {Y} e.

(** The generator that yields [ys] and then ends as [k]. *)
Fixpoint yields {Y} (ys : list Y) (k : gen Y) : gen Y :=
  match ys with
  | [] => k
  | y :: ys' => GYield y (yields ys' k)
  end.

(** Number of values a generator still has to yield. *)
Fixpoint gen_length {Y} (g : gen Y) : nat :=
  match g with
  | GYield _ k => S (gen_length k)
  | _ => O
  end.

(** ** [models/schemas.py] *)

Inductive Role := user | assistant | system.

(** A metadata dict: keys are unique, values may be [None]. *)
Definition Metadata := list (pystr * option pystr).

(** [d.get(key, default)] *)
Fixpoint dict_get (d : Metadata) (key : pystr) (default : option pystr)
  : option pystr :=
  match d with
  | [] => default
  | (k, v) :: d' => if str_eqb k key then v else dict_get d' key default
  end.

Module ChatMessage.
Record t := mk {
  role : Role;
  content : pystr;
  timestamp : nat;
  metadata : option Metadata;
}.
End ChatMessage.

Module ChatRequest.
Record t := mk {
  message : pystr;
  session_id : pystr;
  system_prompt : option pystr;
  temperature : option float;
  max_tokens : option Z;
  stream : option bool;
}.
End ChatRequest.

Module ChatResponse.
Record t := mk {
  message : pystr;
  session_id : pystr;
  message_id : pystr;
  model_name : pystr;
  generation_time : float;
  token_count : option Z;
  finish_reason : option pystr;
}.
Definition set_session_id (v : pystr) (r : t) : t :=
  mk (message r) v (message_id r) (model_name r) (generation_time r)
     (token_count r) (finish_reason r).
End ChatResponse.

(** The [timestamp] default of a chunk is left out: nothing reads it. *)
Module StreamChunk.
Record t := mk {
  content : pystr;
  session_id : pystr;
  message_id : pystr;
  chunk_id : Z;
  is_final : bool;
}.
End StreamChunk.

Module ConversationHistory.
Record t := mk {
  session_id : pystr;
  messages : list ChatMessage.t;
  created_at : nat;
  updated_at : nat;
  message_count : Z;
}.
Definition set_messages (v : list ChatMessage.t) (h : t) : t :=
  mk (session_id h) v (created_at h) (updated_at h) (message_count h).
Definition set_message_count (v : Z) (h : t) : t :=
  mk (session_id h) (messages h) (created_at h) (updated_at h) v.
Definition set_updated_at (v : nat) (h : t) : t :=
  mk (session_id h) (messages h) (created_at h) v (message_count h).
End ConversationHistory.

Module SessionInfo.
Record t := mk {
  session_id : pystr;
  created_at : nat;
  updated_at : nat;
  message_count : Z;
  model_name : pystr;
  is_active : bool;
}.
End SessionInfo.

(** ** [core/config.py] *)

Module Settings.
Record t := mk {
  model_type : pystr;
  model_name : pystr;
  device : pystr;
  temperature : float;
  top_p : float;
  top_k : Z;
  max_new_tokens : Z;
  hf_api_token : option pystr;
  hf_inference_url : pystr;
  openai_api_key : option pystr;
  openai_org_id : option pystr;
  anthropic_api_key : option pystr;
  minimax_api_key : option pystr;
  minimax_api_url : option pystr;
  minimax_model_version : option pystr;
  google_api_key : option pystr;
  max_concurrent_streams : Z;
  session_timeout : Z;
  max_sessions_per_user : Z;
  max_messages_per_session : Z;
  system_prompt : pystr;
  system_prompt_chat : option pystr;
  system_prompt_code : option pystr;
  system_prompt_creative : option pystr;
}.

Definition get_system_prompt (self : t) (prompt_type : pystr) : pystr :=
  if str_eqb prompt_type (lit "chat") && opt_truthy (system_prompt_chat self)
  then default [] (system_prompt_chat self)
  else if str_eqb prompt_type (lit "code")
          && opt_truthy (system_prompt_code self)
  then default [] (system_prompt_code self)
  else if str_eqb prompt_type (lit "creative")
          && opt_truthy (system_prompt_creative self)
  then default [] (system_prompt_creative self)
  else system_prompt self.

Definition validate_model_config (self : t) : bool :=
  if str_eqb (model_type self) (lit "hf_api")
     && negb (opt_truthy (hf_api_token self)) then false
  else if str_eqb (model_type self) (lit "openai")
          && negb (opt_truthy (openai_api_key self)) then false
  else if str_eqb (model_type self) (lit "anthropic")
          && negb (opt_truthy (anthropic_api_key self)) then false
  else if str_eqb (model_type self) (lit "minimax")
          && (negb (opt_truthy (minimax_api_key self))
              || negb (opt_truthy (minimax_api_url self))) then false
  else if str_eqb (model_type self) (lit "google")
          && negb (opt_truthy (google_api_key self)) then false
  else true.
End Settings.

(** ** [services/model_backends/base.py] *)

(** The built-ins [min(a, b)] and [max(a, b)]: the first argument is kept
    unless the second compares strictly below (above) it.  On floats the
    comparison is the IEEE one, so a NaN second argument never wins. *)
Definition min_float (a b : float) : float := if (b <? a)%float then b else a.
Definition max_float (a b : float) : float := if (a <? b)%float then b else a.
Definition min_int (a b : Z) : Z := if b <? a then b else a.
Definition max_int (a b : Z) : Z := if a <? b then b else a.

(** The keyword arguments [validate_parameters] looks at; [None] is an
    absent key.  Values have the types of the signatures that pass them
    ([float] for temperature and top_p, [int] for max_tokens and top_k),
    on which [float(_)] and [int(_)] are the identity. *)
Module Kwargs.
Record t := mk {
  temperature : option float;
  max_tokens : option Z;
  top_p : option float;
  top_k : option Z;
}.
End Kwargs.

Module Params.
Record t := mk {
  temperature : float;
  max_tokens : Z;
  top_p : float;
  top_k : Z;
}.
End Params.

Inductive BackendClass :=
| LocalHuggingFaceBackend
| HuggingFaceAPIBackend
| OpenAIAPIBackend
| AnthropicAPIBackend
| MiniMaxAPIBackend
| GoogleAIBackend.

(** The backend objects.  The class hierarchy is flattened: [cls] is the
    concrete class, [api_key] is the credential passed at construction
    (the token of the HuggingFace API variant; [None] for the local one)
    and [api_url] the endpoint of the MiniMax variant. *)
Module ModelBackend.
Record t := mk {
  cls : BackendClass;
  model_name : pystr;
  is_loaded : bool;
  api_key : option pystr;
  api_url : option pystr;
}.

Definition set_is_loaded (v : bool) (self : t) : t :=
  mk (cls self) (model_name self) v (api_key self) (api_url self).

Definition is_model_loaded (self : t) : bool := is_loaded self.

Definition validate_parameters (kwargs : Kwargs.t) : Params.t :=
  let temperature := default 0.7%float (Kwargs.temperature kwargs) in
  let max_tokens := default 512 (Kwargs.max_tokens kwargs) in
  let top_p := default 0.9%float (Kwargs.top_p kwargs) in
  let top_k := default 50 (Kwargs.top_k kwargs) in
  Params.mk
    (max_float 0 (min_float 1 temperature))
    (max_int 1 (min_int 2048 max_tokens))
    (max_float 0 (min_float 1 top_p))
    (max_int 1 top_k).

(** The credential test every API variant makes first in [load_model]. *)
Definition credentials_missing (self : t) : bool :=
  match cls self with
  | LocalHuggingFaceBackend => false
  | MiniMaxAPIBackend =>
      negb (opt_truthy (api_key self)) || negb (opt_truthy (api_url self))
  | _ => negb (opt_truthy (api_key self))
  end.

(** [load_model]: every variant checks its credential, acquires its
    resource and probes it (a trial request, or loading the weights),
    sets [is_loaded] and returns [True]; any failure on the way is
    re-raised as [ModelLoadError].  [probe_ok] is the outcome of the
    probe. *)
Definition load_model (probe_ok : bool) (self : t) : Result bool * t :=
  if credentials_missing self then (Raise ModelLoadError, self)
  else if probe_ok then (Ok true, set_is_loaded true self)
  else (Raise ModelLoadError, self).

(** [unload_model]: releases the resource and clears [is_loaded];
    returns [False], leaving the flag, when the release fails
    ([close_ok] is its outcome). *)
Definition unload_model (close_ok : bool) (self : t) : bool * t :=
  if close_ok then (true, set_is_loaded false self) else (false, self).
End ModelBackend.

(** ** [services/model_backends/openai_api.py] *)

Module OpenAI.
(** One element of [chunk.choices] of a streamed completion. *)
Record Choice := mkChoice {
  delta_content : option pystr;
  finish_reason : option pystr;
}.

(** What the provider's stream does when iterated: it hands out a
    chunk (its [choices] list), ends, or raises. *)
Inductive upstream :=
| UpChunk (choices : list Choice) (rest : upstream)
| UpEnd
| UpFail.

(** The arguments of [client.chat.completions.create]. *)
Record ApiRequest := mkApiRequest {
  rq_model : pystr;
  rq_messages : list (Role * pystr);
  rq_max_tokens : Z;
  rq_temperature : float;
  rq_top_p : float;
  rq_stream : bool;
}.

(** The provider, for one streaming call: [create] either raises (a
    stream that fails at once) or returns the stream. *)
Definition client := ApiRequest -> upstream.

Definition _format_messages_for_api (messages : list ChatMessage.t)
  : list (Role * pystr) :=
  map (fun msg => (ChatMessage.role msg, ChatMessage.content msg)) messages.

(** [chunk.choices and chunk.choices[0].delta.content], as a truth value
    with the content it guards. *)
Definition chunk_content (choices : list Choice) : option pystr :=
  match choices with
  | [] => None
  | c :: _ => if opt_truthy (delta_content c) then delta_content c else None
  end.

(** [chunk.choices and chunk.choices[0].finish_reason] *)
Definition chunk_finished (choices : list Choice) : bool :=
  match choices with
  | [] => false
  | c :: _ => opt_truthy (finish_reason c)
  end.

(** [yield StreamChunk(...)] inside the [try]: the chunk model requires
    a [str] session id, and a failed construction is caught by the
    [except Exception] and re-raised as [GenerationError]. *)
Definition yield_chunk (content : pystr) (session_id : option pystr)
    (message_id : pystr) (chunk_id : Z) (is_final : bool)
    (k : gen StreamChunk.t) : gen StreamChunk.t :=
  match session_id with
  | None => GRaise GenerationError
  | Some sid =>
      GYield (StreamChunk.mk content sid message_id chunk_id is_final) k
  end.

(** The final chunk, sent after the loop. *)
Definition final_chunk (session_id : option pystr) (message_id : pystr)
    (chunk_id : Z) : gen StreamChunk.t :=
  yield_chunk [] session_id message_id chunk_id true GReturn.

(** [async for chunk in stream: ...] followed by the final chunk. *)
Fixpoint stream_loop (session_id : option pystr) (message_id : pystr)
    (chunk_id : Z) (stream : upstream) : gen StreamChunk.t :=
  match stream with
  | UpFail => GRaise GenerationError
  | UpEnd => final_chunk session_id message_id chunk_id
  | UpChunk choices rest =>
      match chunk_content choices with
      | Some content =>
          yield_chunk content session_id message_id chunk_id false
            (if chunk_finished choices
             then final_chunk session_id message_id (chunk_id + 1)
             else stream_loop session_id message_id (chunk_id + 1) rest)
      | None =>
          if chunk_finished choices
          then final_chunk session_id message_id chunk_id
          else stream_loop session_id message_id chunk_id rest
      end
  end.

(** [generate_stream]; [uuid4] is the value [str(uuid.uuid4())] takes
    and [kwargs] the extra keyword arguments ([top_p], [top_k]). *)
Definition generate_stream (api : client) (uuid4 : pystr)
    (self : ModelBackend.t) (messages : list ChatMessage.t)
    (temperature : float) (max_tokens : Z) (top_p : option float)
    (top_k : option Z) : gen StreamChunk.t :=
  if negb (ModelBackend.is_loaded self) then GRaise ModelNotLoadedError
  else
    let message_id := uuid4 in
    match last messages with
    | None => GRaise IndexError
    | Some m =>
        let session_id :=
          match ChatMessage.metadata m with
          | Some ((_ :: _) as md) =>
              dict_get md (lit "session_id") (Some (lit "unknown"))
          | _ => Some (lit "unknown")
          end in
        let chunk_id := 0 in
        let params :=
          ModelBackend.validate_parameters
            (Kwargs.mk (Some temperature) (Some max_tokens) top_p top_k) in
        let api_messages := _format_messages_for_api messages in
        let stream :=
          api (mkApiRequest (ModelBackend.model_name self) api_messages
                 (Params.max_tokens params) (Params.temperature params)
                 (Params.top_p params) true) in
        stream_loop session_id message_id chunk_id stream
    end.
End OpenAI.

(** ** The service objects and the world they live in *)

(** [SessionManager]: the memory storage ([settings.redis_url] unset, so
    [use_redis] is false); the Redis branches talk to an external store
    and are outside the model. *)
Module SessionManager.
Record t := mk {
  sessions : gmap pystr ConversationHistory.t;
  session_timeout : Z;
  max_sessions_per_user : Z;
  max_messages_per_session : Z;
}.
Definition set_sessions (v : gmap pystr ConversationHistory.t) (self : t)
  : t :=
  mk v (session_timeout self) (max_sessions_per_user self)
     (max_messages_per_session self).

Definition __init__ (settings : Settings.t) : t :=
  mk ∅ (Settings.session_timeout settings * 60)
     (Settings.max_sessions_per_user settings)
     (Settings.max_messages_per_session settings).
End SessionManager.

Module ModelManager.
Record t := mk {
  current_backend : option ModelBackend.t;
  backend_type : pystr;
  model_name : pystr;
  is_initialized : bool;
}.
Definition set_current_backend (v : option ModelBackend.t) (self : t) : t :=
  mk v (backend_type self) (model_name self) (is_initialized self).
Definition set_backend_type (v : pystr) (self : t) : t :=
  mk (current_backend self) v (model_name self) (is_initialized self).
Definition set_model_name (v : pystr) (self : t) : t :=
  mk (current_backend self) (backend_type self) v (is_initialized self).
Definition set_is_initialized (v : bool) (self : t) : t :=
  mk (current_backend self) (backend_type self) (model_name self) v.

(** [_create_backend]: the constructor of the configured class, with
    the credentials of the settings; [None] for an unknown type. *)
Definition _create_backend (settings : Settings.t) (self : t)
  : option ModelBackend.t :=
  let new cls api_key api_url :=
    Some (ModelBackend.mk cls (model_name self) false api_key api_url) in
  if str_eqb (backend_type self) (lit "local")
  then new LocalHuggingFaceBackend None None
  else if str_eqb (backend_type self) (lit "hf_api")
  then new HuggingFaceAPIBackend (Settings.hf_api_token settings) None
  else if str_eqb (backend_type self) (lit "openai")
  then new OpenAIAPIBackend (Settings.openai_api_key settings) None
  else if str_eqb (backend_type self) (lit "anthropic")
  then new AnthropicAPIBackend (Settings.anthropic_api_key settings) None
  else if str_eqb (backend_type self) (lit "minimax")
  then new MiniMaxAPIBackend (Settings.minimax_api_key settings)
           (Settings.minimax_api_url settings)
  else if str_eqb (backend_type self) (lit "google")
  then new GoogleAIBackend (Settings.google_api_key settings) None
  else None.

(** [initialize]; [probe_ok] is the outcome of the backend's probe,
    should [load_model] get to it. *)
Definition initialize (settings : Settings.t) (probe_ok : bool) (self : t)
  : bool * t :=
  if negb (Settings.validate_model_config settings) then (false, self)
  else
    match _create_backend settings self with
    | None => (false, self)
    | Some backend =>
        match ModelBackend.load_model probe_ok backend with
        | (Ok true, backend) =>
            (true,
             set_is_initialized true
               (set_current_backend (Some backend) self))
        | (Ok false, _) => (false, self)
        | (Raise _, _) => (false, self)
        end
    end.

(** [shutdown]; [close_ok] is the outcome of releasing the backend. *)
Definition shutdown (close_ok : bool) (self : t) : bool * t :=
  match current_backend self with
  | Some backend =>
      let success := (ModelBackend.unload_model close_ok backend).1 in
      (success, set_is_initialized false (set_current_backend None self))
  | None => (true, self)
  end.

Definition get_backend (self : t) : option ModelBackend.t :=
  current_backend self.

Definition is_ready (self : t) : bool :=
  is_initialized self
  && match current_backend self with
     | Some backend => ModelBackend.is_model_loaded backend
     | None => false
     end.

Section Lower.
(** [str.lower], the library function. *)
Variable str_lower : pystr -> pystr.

Definition __init__ (settings : Settings.t) : t :=
  mk None (str_lower (Settings.model_type settings))
     (Settings.model_name settings) false.

(** The first half of [switch_model]: the current backend is
    unloaded and dropped, and the configuration is overwritten. *)
Definition retarget (close_ok : bool) (new_model_name : pystr)
    (new_backend_type : option pystr) (self : t) : t :=
  let self :=
    match current_backend self with
    | Some backend =>
        let _ := ModelBackend.unload_model close_ok backend in
        set_current_backend None self
    | None => self
    end in
  let self := set_model_name new_model_name self in
  if opt_truthy new_backend_type
  then set_backend_type (str_lower (default [] new_backend_type)) self
  else self.

(** [switch_model]; [probe_new] and [probe_old] are the outcomes of
    the probe of the new backend and, on rollback, of the one built
    again from the previous configuration. *)
Definition switch_model (settings : Settings.t)
    (close_ok probe_new probe_old : bool) (new_model_name : pystr)
    (new_backend_type : option pystr) (self : t) : bool * t :=
  let old_model_name := model_name self in
  let old_backend_type := backend_type self in
  let self := retarget close_ok new_model_name new_backend_type self in
  let '(success, self) := initialize settings probe_new self in
  if negb success
  then
    let self := set_model_name old_model_name self in
    let self := set_backend_type old_backend_type self in
    let '(_, self) := initialize settings probe_old self in
    (false, self)
  else (true, self).
End Lower.
End ModelManager.

Module ChatManager.
Record t := mk {
  is_initialized : bool;
  active_streams : Z;
  max_concurrent_streams : Z;
}.
Definition set_is_initialized (v : bool) (self : t) : t :=
  mk v (active_streams self) (max_concurrent_streams self).
Definition set_active_streams (v : Z) (self : t) : t :=
  mk (is_initialized self) v (max_concurrent_streams self).

Definition __init__ (settings : Settings.t) : t :=
  mk false 0 (Settings.max_concurrent_streams settings).
End ChatManager.

(** The process state: the settings, the three singletons, and the clock
    that [datetime.utcnow()] reads. *)
Record World := mkWorld {
  clock : nat;
  settings : Settings.t;
  session_manager : SessionManager.t;
  model_manager : ModelManager.t;
  chat_manager : ChatManager.t;
}.

Definition set_clock (v : nat) (w : World) : World :=
  mkWorld v (settings w) (session_manager w) (model_manager w)
          (chat_manager w).
Definition set_session_manager (v : SessionManager.t) (w : World) : World :=
  mkWorld (clock w) (settings w) v (model_manager w) (chat_manager w).
Definition set_model_manager (v : ModelManager.t) (w : World) : World :=
  mkWorld (clock w) (settings w) (session_manager w) v (chat_manager w).
Definition set_chat_manager (v : ChatManager.t) (w : World) : World :=
  mkWorld (clock w) (settings w) (session_manager w) (model_manager w) v.

(** ** The monad of methods: state, and exceptions that keep the state *)

Definition M (A : Type) : Type := World -> Result A * World.

Definition ret {A} (a : A) : M A := fun w => (Ok a, w).

Definition bind {A B} (c : M A) (k : A -> M B) : M B :=
  fun w =>
    match c w with
    | (Ok a, w') => k a w'
    | (Raise e, w') => (Raise e, w')
    end.

Definition raise {A} (e : exn) : M A := fun w => (Raise e, w).

Definition gets {A} (f : World -> A) : M A := fun w => (Ok (f w), w).

Definition modify (f : World -> World) : M unit := fun w => (Ok tt, f w).

(** [try: body  except Exception as e: handler e] *)
Definition try_except {A} (body : M A) (handler : exn -> M A) : M A :=
  fun w =>
    match body w with
    | (Ok a, w') => (Ok a, w')
    | (Raise e, w') => handler e w'
    end.

(** [try: body  finally: cleanup] *)
Definition try_finally {A} (body : M A) (cleanup : M unit) : M A :=
  fun w =>
    match body w with
    | (r, w') =>
        match cleanup w' with
        | (Ok _, w'') => (r, w'')
        | (Raise e, w'') => (Raise e, w'')
        end
    end.

Notation "x <- c ;; k" := (bind c (fun x => k))
  (at level 100, c at next level, right associativity).
Notation "c ;;; k" := (bind c (fun _ => k))
  (at level 100, right associativity).

(** [datetime.utcnow()]: the clock is read and moves on (no property
    below depends on two readings being different). *)
Definition utcnow : M nat :=
  fun w => (Ok (clock w), set_clock (S (clock w)) w).

(** ** [services/session_manager.py] *)

Definition get_session (session_id : pystr)
  : M (option ConversationHistory.t) :=
  try_except
    (gets (fun w =>
       SessionManager.sessions (session_manager w) !! session_id))
    (fun _ => ret None).

Definition session_exists (session_id : pystr) : M bool :=
  session <- get_session session_id ;;
  ret (bool_decide (session ≠ None)).

Definition _store_session (session : ConversationHistory.t) : M unit :=
  modify (fun w =>
    set_session_manager
      (SessionManager.set_sessions
         (<[ConversationHistory.session_id session := session]>
            (SessionManager.sessions (session_manager w)))
         (session_manager w)) w).

Definition _session_to_info (settings : Settings.t)
    (session : ConversationHistory.t) : SessionInfo.t :=
  SessionInfo.mk (ConversationHistory.session_id session)
    (ConversationHistory.created_at session)
    (ConversationHistory.updated_at session)
    (ConversationHistory.message_count session)
    (Settings.model_name settings) true.

(** [get_active_sessions]: one entry per stored session (in the map's
    order of keys, where the dict has insertion order). *)
Definition get_active_sessions : M (list SessionInfo.t) :=
  try_except
    (gets (fun w =>
       map (fun kv : pystr * ConversationHistory.t =>
              _session_to_info (settings w) kv.2)
           (map_to_list (SessionManager.sessions (session_manager w)))))
    (fun _ => ret []).

Definition get_user_sessions (user_id : pystr) : M (list SessionInfo.t) :=
  all_sessions <- get_active_sessions ;;
  ret (List.filter
         (fun s => startswith (user_id ++ lit "-") (SessionInfo.session_id s))
         all_sessions).

Definition create_session (session_id : pystr) (user_id : option pystr)
  : M bool :=
  try_except
    (already <- session_exists session_id ;;
     if already then ret true
     else
       self <- gets session_manager ;;
       over_limit <-
         (if opt_truthy user_id
             && (0 <? SessionManager.max_sessions_per_user self)
          then
            user_sessions <- get_user_sessions (default [] user_id) ;;
            ret (SessionManager.max_sessions_per_user self
                 <=? len user_sessions)
          else ret false) ;;
       if over_limit then ret false
       else
         created_at <- utcnow ;;
         updated_at <- utcnow ;;
         _store_session
           (ConversationHistory.mk session_id [] created_at updated_at 0) ;;;
         ret true)
    (fun _ => ret false).

Definition add_message (session_id : pystr) (message : ChatMessage.t)
  : M bool :=
  try_except
    (session <- get_session session_id ;;
     session <-
       (match session with
        | None =>
            create_session session_id None ;;;
            get_session session_id
        | Some _ => ret session
        end) ;;
     match session with
     | None => ret false
     | Some session =>
         self <- gets session_manager ;;
         let max_messages := SessionManager.max_messages_per_session self in
         let messages := ConversationHistory.messages session in
         let messages :=
           if (0 <? max_messages) && (max_messages <=? len messages)
           then
             let messages_to_remove := len messages - max_messages + 1 in
             slice_from messages_to_remove messages
           else messages in
         let messages := messages ++ [message] in
         let session := ConversationHistory.set_messages messages session in
         let session :=
           ConversationHistory.set_message_count (len messages) session in
         now <- utcnow ;;
         let session := ConversationHistory.set_updated_at now session in
         _store_session session ;;;
         ret true
     end)
    (fun _ => ret false).

(** [self.sessions.pop(session_id, None)], then [return True]. *)
Definition delete_session (session_id : pystr) : M bool :=
  try_except
    (modify (fun w =>
       set_session_manager
         (SessionManager.set_sessions
            (delete session_id (SessionManager.sessions (session_manager w)))
            (session_manager w)) w) ;;;
     ret true)
    (fun _ => ret false).

Definition get_session_messages (session_id : pystr) (limit : option Z)
  : M (list ChatMessage.t) :=
  session <- get_session session_id ;;
  match session with
  | None => ret []
  | Some session =>
      let messages := ConversationHistory.messages session in
      match limit with
      | Some limit =>
          if negb (limit =? 0) && (0 <? limit)
          then ret (slice_from (- limit) messages)
          else ret messages
      | None => ret messages
      end
  end.

(** ** [services/chat_manager.py] *)

(** What one resumption of a streaming request hands to its consumer. *)
Inductive step_result :=
| Yielded (chunk : StreamChunk.t)
| Stopped
| Raised (e : exn).

(** The generator object of [process_streaming_chat_request]: not yet
    started, suspended at [yield chunk] inside the loop over the backend
    generator [rest], or finished. *)
Inductive stream_state :=
| Created (request : ChatRequest.t)
| Suspended (request : ChatRequest.t) (full_response : pystr)
            (message_id : option pystr) (rest : gen StreamChunk.t)
| Closed.

(** How a consumer's loop over the generator ended. *)
Inductive stream_end :=
| Exhausted
| Aborted (e : exn).

(** [a or b] on an [Optional[float]] and on an [Optional[int]]: [None]
    and zero are falsy. *)
Definition float_or (a : option float) (b : float) : float :=
  match a with
  | Some x => if (x =? 0)%float then b else x
  | None => b
  end.

Definition int_or (a : option Z) (b : Z) : Z :=
  match a with
  | Some x => if x =? 0 then b else x
  | None => b
  end.

Definition lift {A} (r : Result A) : M A := fun w => (r, w).

Section Orchestrator.
(** The abstract methods of the active backend. *)
Variable generate_response :
  ModelBackend.t -> list ChatMessage.t -> float -> Z ->
  Result ChatResponse.t.
Variable generate_stream :
  ModelBackend.t -> list ChatMessage.t -> float -> Z -> gen StreamChunk.t.

Definition _prepare_messages_for_model (session_id : pystr)
    (custom_system_prompt : option pystr) : M (list ChatMessage.t) :=
  history_messages <- get_session_messages session_id None ;;
  settings <- gets settings ;;
  let system_prompt :=
    if opt_truthy custom_system_prompt
    then default [] custom_system_prompt
    else Settings.get_system_prompt settings (lit "default") in
  if str_truthy system_prompt
  then
    now <- utcnow ;;
    ret (ChatMessage.mk system system_prompt now None :: history_messages)
  else ret history_messages.

(** The user turn of a request, stamped [now]. *)
Definition user_message (request : ChatRequest.t) (now : nat)
  : ChatMessage.t :=
  ChatMessage.mk user (ChatRequest.message request) now
    (Some [(lit "session_id", Some (ChatRequest.session_id request))]).

Definition assistant_message (request : ChatRequest.t) (content : pystr)
    (message_id : option pystr) (now : nat) : ChatMessage.t :=
  ChatMessage.mk assistant content now
    (Some [(lit "session_id", Some (ChatRequest.session_id request));
           (lit "message_id", message_id)]).

(** The steps both paths share, from the readiness test to the backend
    reference: the session is ensured, the user turn appended and the
    model input assembled. *)
Definition accept_turn (request : ChatRequest.t)
  : M (ModelBackend.t * list ChatMessage.t) :=
  model_manager <- gets model_manager ;;
  if negb (ModelManager.is_ready model_manager)
  then raise ModelNotLoadedError
  else
    create_session (ChatRequest.session_id request) None ;;;
    now <- utcnow ;;
    add_message (ChatRequest.session_id request)
                (user_message request now) ;;;
    messages <-
      _prepare_messages_for_model (ChatRequest.session_id request)
                                  (ChatRequest.system_prompt request) ;;
    match ModelManager.get_backend model_manager with
    | None => raise AttributeError
    | Some backend => ret (backend, messages)
    end.

Definition process_chat_request (request : ChatRequest.t)
  : M ChatResponse.t :=
  chat <- gets chat_manager ;;
  if negb (ChatManager.is_initialized chat)
  then raise (RuntimeError (lit "Chat manager not initialized"))
  else
    try_except
      (turn <- accept_turn request ;;
       let '(backend, messages) := turn in
       settings <- gets settings ;;
       response <-
         lift (generate_response backend messages
                 (float_or (ChatRequest.temperature request)
                           (Settings.temperature settings))
                 (int_or (ChatRequest.max_tokens request)
                         (Settings.max_new_tokens settings))) ;;
       now <- utcnow ;;
       add_message (ChatRequest.session_id request)
         (assistant_message request (ChatResponse.message response)
            (Some (ChatResponse.message_id response)) now) ;;;
       ret (ChatResponse.set_session_id
              (ChatRequest.session_id request) response))
      (fun e => raise e).

(** [self.active_streams += 1] and [self.active_streams -= 1] *)
Definition acquire : M unit :=
  modify (fun w =>
    set_chat_manager
      (ChatManager.set_active_streams
         (ChatManager.active_streams (chat_manager w) + 1)
         (chat_manager w)) w).

Definition release : M unit :=
  modify (fun w =>
    set_chat_manager
      (ChatManager.set_active_streams
         (ChatManager.active_streams (chat_manager w) - 1)
         (chat_manager w)) w).

(** The body leaves the [try]: [body] is what remains of it, both
    [except] clauses re-raise, and the [finally] releases the slot. *)
Definition leave (body : M unit)
  : World -> step_result * stream_state * World :=
  fun w =>
    match try_finally (try_except body (fun e => raise e)) release w with
    | (Ok _, w') => (Stopped, Closed, w')
    | (Raise e, w') => (Raised e, Closed, w')
    end.

(** The code after the loop: the accumulated text is stored as the
    assistant turn unless it strips to the empty string. *)
Definition persist_response (request : ChatRequest.t)
    (full_response : pystr) (message_id : option pystr) : M unit :=
  if str_truthy (strip full_response)
  then
    now <- utcnow ;;
    add_message (ChatRequest.session_id request)
      (assistant_message request (strip full_response) message_id now) ;;;
    ret tt
  else ret tt.

(** One turn of [async for chunk in backend.generate_stream(...)]: the
    backend generator is resumed; a chunk is accumulated and yielded,
    the end of the stream runs the rest of the body, an exception
    leaves it. *)
Definition resume (request : ChatRequest.t) (full_response : pystr)
    (message_id : option pystr) (rest : gen StreamChunk.t)
  : World -> step_result * stream_state * World :=
  fun w =>
    match rest with
    | GYield chunk rest' =>
        let message_id :=
          match message_id with
          | None => Some (StreamChunk.message_id chunk)
          | Some _ => message_id
          end in
        let full_response := full_response ++ StreamChunk.content chunk in
        (Yielded chunk, Suspended request full_response message_id rest', w)
    | GReturn => leave (persist_response request full_response message_id) w
    | GRaise e => leave (raise e) w
    end.

(** The start of the [try] body, up to the backend generator. *)
Definition open_stream (request : ChatRequest.t)
  : M (gen StreamChunk.t) :=
  turn <- accept_turn request ;;
  let '(backend, messages) := turn in
  settings <- gets settings ;;
  ret (generate_stream backend messages
         (float_or (ChatRequest.temperature request)
                   (Settings.temperature settings))
         (int_or (ChatRequest.max_tokens request)
                 (Settings.max_new_tokens settings))).

(** The first resumption: the two guards, the counter, and the body up
    to its first [yield] or its exit. *)
Definition start (request : ChatRequest.t)
  : World -> step_result * stream_state * World :=
  fun w =>
    let chat := chat_manager w in
    if negb (ChatManager.is_initialized chat)
    then (Raised (RuntimeError (lit "Chat manager not initialized")),
          Closed, w)
    else if ChatManager.max_concurrent_streams chat
            <=? ChatManager.active_streams chat
    then (Raised (RuntimeError
                    (lit "Maximum concurrent streams ("
                     ++ str_int (ChatManager.max_concurrent_streams chat)
                     ++ lit ") exceeded")),
          Closed, w)
    else
      match acquire w with
      | (_, w) =>
          match open_stream request w with
          | (Ok stream, w) => resume request [] None stream w
          | (Raise e, w) => leave (raise e) w
          end
      end.

(** [await gen.__anext__()] *)
Definition anext (st : stream_state)
  : World -> step_result * stream_state * World :=
  fun w =>
    match st with
    | Created request => start request w
    | Suspended request full_response message_id rest =>
        resume request full_response message_id rest w
    | Closed => (Stopped, Closed, w)
    end.

(** [await gen.aclose()], also what disconnecting or dropping the
    generator amounts to: [GeneratorExit] is raised at the [yield]; it
    is no [Exception], so only the [finally] runs. *)
Definition aclose (st : stream_state) : World -> stream_state * World :=
  fun w =>
    match st with
    | Created _ => (Closed, w)
    | Suspended _ _ _ _ => (Closed, (release w).2)
    | Closed => (Closed, w)
    end.

(** [async for chunk in gen: ...] with a body that keeps the chunks,
    for at most [fuel] resumptions. *)
Fixpoint consume (fuel : nat) (st : stream_state) (w : World)
  : list StreamChunk.t * option stream_end * stream_state * World :=
  match fuel with
  | O => ([], None, st, w)
  | S fuel' =>
      match anext st w with
      | (Yielded chunk, st', w') =>
          match consume fuel' st' w' with
          | (chunks, e, st'', w'') => (chunk :: chunks, e, st'', w'')
          end
      | (Stopped, st', w') => ([], Some Exhausted, st', w')
      | (Raised e, st', w') => ([], Some (Aborted e), st', w')
      end
  end.

(** *** Concurrent streams

    The event loop interleaves the generators of the requests in
    flight.  A generator is created for a new request, one is resumed
    (the first resumption runs [start]), or one is closed by its
    consumer.  The guards and the increment of
    [start], and the decrement of the [finally], contain no [await]:
    each is one uninterrupted step of the loop. *)
Inductive event :=
| Spawn (request : ChatRequest.t)
| Next (i : nat)
| Close (i : nat).

Record System := mkSystem {
  world : World;
  streams : list stream_state;
}.

Definition is_active (st : stream_state) : bool :=
  match st with Suspended _ _ _ _ => true | _ => false end.

(** Number of streams between their start and their exit. *)
Definition active_count (sts : list stream_state) : Z :=
  len (List.filter is_active sts).

Definition sys_step (s : System) (ev : event) : System :=
  match ev with
  | Spawn request => mkSystem (world s) (streams s ++ [Created request])
  | Next i =>
      match streams s !! i with
      | Some st =>
          match anext st (world s) with
          | (_, st', w) => mkSystem w (<[i := st']> (streams s))
          end
      | None => s
      end
  | Close i =>
      match streams s !! i with
      | Some st =>
          match aclose st (world s) with
          | (st', w) => mkSystem w (<[i := st']> (streams s))
          end
      | None => s
      end
  end.

Definition sys_run (s : System) (evs : list event) : System :=
  fold_left sys_step evs s.
End Orchestrator.

(** ** Vocabulary of the properties *)

Definition sessions_of (w : World) : gmap pystr ConversationHistory.t :=
  SessionManager.sessions (session_manager w).

(** The stored messages of a session; none for an unknown id. *)
Definition history (w : World) (session_id : pystr) : list ChatMessage.t :=
  match sessions_of w !! session_id with
  | Some h => ConversationHistory.messages h
  | None => []
  end.

Definition cap_of (w : World) : Z :=
  SessionManager.max_messages_per_session (session_manager w).

(** Every session is stored under its own id, and its [message_count]
    is the length of its message list. *)
Definition store_wf (w : World) : Prop :=
  forall k h, sessions_of w !! k = Some h ->
    ConversationHistory.session_id h = k
    /\ ConversationHistory.message_count h
       = len (ConversationHistory.messages h).

(** What the session store never touches: the settings, the other two
    singletons, and its own message cap. *)
Definition frame (w w' : World) : Prop :=
  settings w' = settings w
  /\ model_manager w' = model_manager w
  /\ chat_manager w' = chat_manager w
  /\ cap_of w' = cap_of w.


(** The world after a session record is written under [session_id] at
    clock reading [now]. *)
Definition written (session_id : pystr) (session : ConversationHistory.t)
    (now : nat) (w : World) : World :=
  mkWorld now (settings w)
    (SessionManager.set_sessions
       (<[session_id := session]> (sessions_of w))
       (session_manager w))
    (model_manager w) (chat_manager w).

(** A run of successive appends to one session. *)
Fixpoint add_messages (session_id : pystr) (ms : list ChatMessage.t)
    (w : World) : World :=
  match ms with
  | [] => w
  | m :: ms' => add_messages session_id ms' (add_message session_id m w).2
  end.

(** The history an append leaves: the trim of [add_message] followed by
    the new message. *)
Definition appended (cap : Z) (old : list ChatMessage.t) (m : ChatMessage.t)
  : list ChatMessage.t :=
  (if (0 <? cap) && (cap <=? len old)
   then slice_from (len old - cap + 1) old
   else old) ++ [m].

(** The bound the store keeps on a history: the [cap] most recent
    messages when the cap is positive, all of them otherwise. *)
Definition bounded (cap : Z) (l : list ChatMessage.t) : list ChatMessage.t :=
  if 0 <? cap then lastn (Z.to_nat cap) l else l.


(** What a generator yields when run to its end, and how it ends
    ([None]: it returns). *)
Fixpoint gen_chunks {Y} (g : gen Y) : list Y :=
  match g with
  | GYield y k => y :: gen_chunks k
  | _ => []
  end.

Fixpoint gen_end {Y} (g : gen Y) : option exn :=
  match g with
  | GYield _ k => gen_end k
  | GReturn => None
  | GRaise e => Some e
  end.

(** A complete chunk sequence of one message: the i-th chunk has
    [chunk_id] [first + i], all carry the message id, and the sequence
    is a body of non-final chunks followed by one final, empty chunk. *)
Definition complete_stream (first : Z) (message_id : pystr)
    (chunks : list StreamChunk.t) : Prop :=
  (forall (i : nat) c, chunks !! i = Some c ->
     StreamChunk.chunk_id c = first + Z.of_nat i
     /\ StreamChunk.message_id c = message_id)
  /\ exists body final,
       chunks = body ++ [final]
       /\ StreamChunk.is_final final = true
       /\ StreamChunk.content final = []
       /\ Forall (fun c => StreamChunk.is_final c = false) body.

(** The backend generator a streaming request iterates: the one
    [open_stream] obtains once the slot is taken. *)
Definition backend_stream
    (generate_stream :
       ModelBackend.t -> list ChatMessage.t -> float -> Z ->
       gen StreamChunk.t)
    (request : ChatRequest.t) (w : World) : gen StreamChunk.t :=
  match open_stream generate_stream request (acquire w).2 with
  | (Ok stream, _) => stream
  | (Raise e, _) => GRaise e
  end.

(** The text a stream amounts to: the contents of its chunks, joined. *)
Definition full_text (chunks : list StreamChunk.t) : pystr :=
  concat (map StreamChunk.content chunks).

(** The message id the orchestrator records: that of the first chunk. *)
Definition first_message_id (chunks : list StreamChunk.t) : option pystr :=
  match chunks with
  | [] => None
  | c :: _ => Some (StreamChunk.message_id c)
  end.

Definition active_streams_of (w : World) : Z :=
  ChatManager.active_streams (chat_manager w).


(** The rest of the [try] body once the backend generator has ended:
    the code after the loop when it returned, the exception when it
    raised. *)
Definition finish (request : ChatRequest.t) (full_response : pystr)
    (message_id : option pystr) (ending : option exn) : M unit :=
  match ending with
  | None => persist_response request full_response message_id
  | Some e => raise e
  end.

Definition or_else {A} (a b : option A) : option A :=
  match a with Some _ => a | None => b end.

Definition stream_end_of (r : step_result) : stream_end :=
  match r with Raised e => Aborted e | _ => Exhausted end.


(** The streaming method of an active OpenAI backend, as the
    orchestrator calls it (no extra keyword arguments); [api] is the
    provider and [uuid4] the message id drawn for the call. *)
Definition openai_backend (api : OpenAI.client) (uuid4 : pystr)
  : ModelBackend.t -> list ChatMessage.t -> float -> Z -> gen StreamChunk.t :=
  fun self messages temperature max_tokens =>
    OpenAI.generate_stream api uuid4 self messages temperature max_tokens
      None None.


(** The slot a generator holds: one while it is between its start and
    its exit. *)
Definition slot (st : stream_state) : Z := if is_active st then 1 else 0.

Definition max_streams_of (w : World) : Z :=
  ChatManager.max_concurrent_streams (chat_manager w).

(** The message of the error raised at capacity. *)
Definition capacity_error (cap : Z) : exn :=
  RuntimeError
    (lit "Maximum concurrent streams (" ++ str_int cap ++ lit ") exceeded").


(** The counter is the number of streams in flight, and stays within the
    cap. *)
Definition sys_inv (cap : Z) (s : System) : Prop :=
  active_count (streams s) = active_streams_of (world s)
  /\ active_streams_of (world s) <= Z.max 0 cap
  /\ max_streams_of (world s) = cap.


(** The calls that change the backend manager, and the states they lead
    to from the freshly constructed one. *)
Inductive manager_call :=
| CallInitialize (probe_ok : bool)
| CallShutdown (close_ok : bool)
| CallSwitch (close_ok probe_new probe_old : bool) (new_model_name : pystr)
             (new_backend_type : option pystr).

Definition manager_step (str_lower : pystr -> pystr) (settings : Settings.t)
    (m : ModelManager.t) (c : manager_call) : ModelManager.t :=
  match c with
  | CallInitialize probe_ok => (ModelManager.initialize settings probe_ok m).2
  | CallShutdown close_ok => (ModelManager.shutdown close_ok m).2
  | CallSwitch close_ok probe_new probe_old name type =>
      (ModelManager.switch_model str_lower settings close_ok probe_new
         probe_old name type m).2
  end.

Definition manager_reachable (str_lower : pystr -> pystr)
    (settings : Settings.t) (m : ModelManager.t) : Prop :=
  exists calls,
    m = fold_left (manager_step str_lower settings) calls
          (ModelManager.__init__ str_lower settings).

(** What the manager knows of its active backend: it was built from the
    manager's present configuration under valid settings, and loaded. *)
Definition manager_inv (settings : Settings.t) (m : ModelManager.t) : Prop :=
  match ModelManager.current_backend m with
  | Some b =>
      ModelManager.is_initialized m = true
      /\ Settings.validate_model_config settings = true
      /\ ModelManager._create_backend settings m
         = Some (ModelBackend.set_is_loaded false b)
      /\ ModelBackend.credentials_missing b = false
      /\ ModelBackend.is_loaded b = true
  | None => True
  end.


(** ** Sample inputs *)

(** [str.lower] restricted to ASCII letters. *)
Definition ascii_lower (s : pystr) : pystr :=
  map (fun c => if ((65 <=? c) && (c <=? 90))%N then (c + 32)%N else c) s.

(** Settings with the OpenAI backend selected, at most two messages per
    session and at most two concurrent streams. *)
Definition sample_settings : Settings.t :=
  Settings.mk (lit "openai") (lit "gpt-4") (lit "auto") 0.7%float 0.9%float
    50 512 None (lit "https://api-inference.huggingface.co/models/")
    (Some (lit "sk-test")) None None None None None None
    2 30 5 2 (lit "You are a helpful assistant.") None None None.

(** The process right after the three singletons are constructed. *)
Definition boot (settings : Settings.t) : World :=
  mkWorld 0 settings (SessionManager.__init__ settings)
    (ModelManager.__init__ ascii_lower settings)
    (ChatManager.__init__ settings).

Definition sample_world : World := boot sample_settings.

Definition msg (r : Role) (text : string) : ChatMessage.t :=
  ChatMessage.mk r (lit text) 0 None.

(** The manager of [sample_settings] after a successful [initialize]. *)
Definition sample_manager : ModelManager.t :=
  (ModelManager.initialize sample_settings true
     (ModelManager.__init__ ascii_lower sample_settings)).2.


(** The process of [sample_settings] once [initialize] has succeeded:
    the orchestrator is initialized and the OpenAI backend loaded. *)
Definition sample_ready_world : World :=
  mkWorld 0 sample_settings (SessionManager.__init__ sample_settings)
    sample_manager
    (ChatManager.set_is_initialized true (ChatManager.__init__ sample_settings)).

Definition sample_request : ChatRequest.t :=
  ChatRequest.mk (lit "hi") (lit "s1") None None None (Some true).

Definition delta (text : string) : OpenAI.Choice :=
  OpenAI.mkChoice (Some (lit text)) None.

(** A provider that streams "Hel", "lo " and stops. *)
Definition sample_api : OpenAI.client :=
  fun _ =>
    OpenAI.UpChunk [delta "Hel"]
      (OpenAI.UpChunk [delta "lo "]
         (OpenAI.UpChunk [OpenAI.mkChoice None (Some (lit "stop"))]
            OpenAI.UpEnd)).

(** A provider whose stream breaks after two chunks. *)
Definition failing_api : OpenAI.client :=
  fun _ =>
    OpenAI.UpChunk [delta "Hel"] (OpenAI.UpChunk [delta "lo "] OpenAI.UpFail).

(** A provider that streams blanks only. *)
Definition blank_api : OpenAI.client :=
  fun _ => OpenAI.UpChunk [delta "  "] OpenAI.UpEnd.

(** A backend whose [generate_response] fails. *)
Definition failing_response
  : ModelBackend.t -> list ChatMessage.t -> float -> Z ->
    Result ChatResponse.t :=
  fun _ _ _ _ => Raise GenerationError.


(** The first sentence of the eviction rule: after the appends the
    session holds the [cap] most recent messages, in order. *)
Definition keeps_most_recent (w : World) (session_id : pystr)
    (ms : list ChatMessage.t) : Prop :=
  history (add_messages session_id ms w) session_id
  = lastn (Z.to_nat (cap_of w)) (history w session_id ++ ms).

(** The second sentence: no system message is ever dropped. *)
Definition keeps_system_messages (w : World) (session_id : pystr)
    (ms : list ChatMessage.t) : Prop :=
  forall m, ChatMessage.role m = system ->
    m ∈ history w session_id ++ ms ->
    m ∈ history (add_messages session_id ms w) session_id.

(** The rollback rule as the specification words it: from a manager
    that is ready with a backend, a switch whose new backend fails to
    initialize returns [False] and leaves the manager ready with the
    backend it had. *)
Definition rollback_restores (str_lower : pystr -> pystr)
    (settings : Settings.t) (close_ok probe_new probe_old : bool)
    (new_model_name : pystr) (new_backend_type : option pystr)
    (m : ModelManager.t) : Prop :=
  ModelManager.is_ready m = true ->
  (ModelManager.initialize settings probe_new
     (ModelManager.retarget str_lower close_ok new_model_name
        new_backend_type m)).1 = false ->
  let r := ModelManager.switch_model str_lower settings close_ok probe_new
             probe_old new_model_name new_backend_type m in
  r.1 = false
  /\ ModelManager.is_ready r.2 = true
  /\ ModelManager.get_backend r.2 = ModelManager.get_backend m.

(** ** Vocabulary of the further properties *)

(** The sessions [get_user_sessions] counts for a user: the stored ones
    whose id starts with the user id and a hyphen. *)
Definition user_sessions (user_id : pystr) (w : World) : list SessionInfo.t :=
  match get_user_sessions user_id w with
  | (Ok l, _) => l
  | (Raise _, _) => []
  end.

(** The test [create_session] makes before creating: a user id is given,
    the limit is positive, and the user has reached it. *)
Definition over_limit (user_id : option pystr) (w : World) : bool :=
  opt_truthy user_id
  && (0 <? SessionManager.max_sessions_per_user (session_manager w))
  && (SessionManager.max_sessions_per_user (session_manager w)
      <=? len (user_sessions (default [] user_id) w)).

(** The calls that change the session store. *)
Inductive store_call :=
| CallCreate (session_id : pystr) (user_id : option pystr)
| CallAdd (session_id : pystr) (message : ChatMessage.t)
| CallDelete (session_id : pystr).

Definition store_step (w : World) (c : store_call) : World :=
  match c with
  | CallCreate sid uid => (create_session sid uid w).2
  | CallAdd sid m => (add_message sid m w).2
  | CallDelete sid => (delete_session sid w).2
  end.

(** Every stored history is within the cap, when there is one. *)
Definition store_bounded (w : World) : Prop :=
  0 < cap_of w ->
  forall k h, sessions_of w !! k = Some h ->
    len (ConversationHistory.messages h) <= cap_of w.


(** The backend types [_create_backend] knows. *)
Definition supported_backend_types : list pystr :=
  [lit "local"; lit "hf_api"; lit "openai"; lit "anthropic"; lit "minimax";
   lit "google"].


(** ** More of [services/chat_manager.py] and [services/session_manager.py] *)

(** A method of the backend manager, run on the singleton. *)
Definition on_model_manager {A}
    (f : Settings.t -> ModelManager.t -> A * ModelManager.t) : M A :=
  fun w =>
    match f (settings w) (model_manager w) with
    | (a, m) => (Ok a, set_model_manager m w)
    end.

(** [SessionManager.initialize] and [shutdown] on the memory storage:
    they start and cancel the cleanup task, which is no part of the
    state, and touch nothing else. *)
Definition session_initialize : M bool :=
  try_except (ret true) (fun _ => ret false).

Definition session_shutdown : M unit :=
  try_except (ret tt) (fun _ => ret tt).

(** [ChatManager.initialize]; [probe_ok] is the outcome of the backend's
    probe. *)
Definition chat_initialize (probe_ok : bool) : M bool :=
  try_except
    (ok <- on_model_manager
             (fun settings m => ModelManager.initialize settings probe_ok m) ;;
     if negb ok then ret false
     else
       ok <- session_initialize ;;
       if negb ok then ret false
       else
         modify (fun w =>
           set_chat_manager
             (ChatManager.set_is_initialized true (chat_manager w)) w) ;;;
         ret true)
    (fun _ => ret false).

(** [ChatManager.shutdown]; [close_ok] is the outcome of releasing the
    backend. *)
Definition chat_shutdown (close_ok : bool) : M unit :=
  try_except
    (on_model_manager (fun _ m => ModelManager.shutdown close_ok m) ;;;
     session_shutdown ;;;
     modify (fun w =>
       set_chat_manager
         (ChatManager.set_is_initialized false (chat_manager w)) w))
    (fun _ => ret tt).

Definition get_conversation_history (session_id : pystr)
  : M (option ConversationHistory.t) :=
  try_except (get_session session_id) (fun _ => ret None).

Definition clear_conversation (session_id : pystr) : M bool :=
  try_except (delete_session session_id) (fun _ => ret false).

(** The reply the backend gives to a non-streaming request: that of
    [generate_response] on the model input the request leads to. *)
Definition backend_reply
    (generate_response :
       ModelBackend.t -> list ChatMessage.t -> float -> Z ->
       Result ChatResponse.t)
    (request : ChatRequest.t) (w : World) : Result ChatResponse.t :=
  match accept_turn request w with
  | (Ok (backend, messages), w1) =>
      generate_response backend messages
        (float_or (ChatRequest.temperature request)
                  (Settings.temperature (settings w1)))
        (int_or (ChatRequest.max_tokens request)
                (Settings.max_new_tokens (settings w1)))
  | (Raise e, _) => Raise e
  end.

(** The system prompt a request is answered under: its own when it has
    a non-empty one, the configured default otherwise. *)
Definition effective_prompt (custom : option pystr) (w : World) : pystr :=
  if opt_truthy custom then default [] custom
  else Settings.get_system_prompt (settings w) (lit "default").


(** ** The streaming loops of [api/v1/endpoints.py] *)

Section Endpoints.
Variable generate_stream :
  ModelBackend.t -> list ChatMessage.t -> float -> Z -> gen StreamChunk.t.

(** [async for chunk in chat_manager.process_streaming_chat_request(..)]
    as the SSE and the WebSocket endpoint write it: each chunk is sent
    on, and the loop is left at the first final chunk ([None]: by that
    [break], or out of fuel). *)
Fixpoint relay (fuel : nat) (st : stream_state) (w : World)
  : list StreamChunk.t * option stream_end * stream_state * World :=
  match fuel with
  | O => ([], None, st, w)
  | S fuel' =>
      match anext generate_stream st w with
      | (Yielded chunk, st', w') =>
          if StreamChunk.is_final chunk then ([chunk], None, st', w')
          else
            match relay fuel' st' w' with
            | (chunks, e, st'', w'') => (chunk :: chunks, e, st'', w'')
            end
      | (Stopped, st', w') => ([], Some Exhausted, st', w')
      | (Raised e, st', w') => ([], Some (Aborted e), st', w')
      end
  end.

(** A streaming endpoint serving one request: the loop, after which the
    generator is dropped and finalized. *)
Definition stream_endpoint (fuel : nat) (request : ChatRequest.t) (w : World)
  : list StreamChunk.t * option stream_end * World :=
  match relay fuel (Created request) w with
  | (chunks, e, st, w') => (chunks, e, (aclose st w').2)
  end.
End Endpoints.


(** A provider stream that hands out the given chunks and goes on as
    [rest]. *)
Fixpoint upstream_of (chunks : list (list OpenAI.Choice))
    (rest : OpenAI.upstream) : OpenAI.upstream :=
  match chunks with
  | [] => rest
  | c :: chunks' => OpenAI.UpChunk c (upstream_of chunks' rest)
  end.


(** ** [OpenAIAPIBackend.generate_response] *)

Module OpenAIComplete.
(** What [client.chat.completions.create(..., stream=False)] does: it
    raises, or returns a completion with its [choices] (the [content]
    and the [finish_reason] of each) and, when [usage] is present, its
    [completion_tokens]. *)
Inductive completion :=
| ApiRaises
| ApiCompletion (choices : list (option pystr * option pystr))
                (completion_tokens : option Z).

Definition client := OpenAI.ApiRequest -> completion.

(** [generate_response]; [uuid4] is the message id drawn for the call
    and [generation_time] the time measured.  Everything after the
    loaded test runs inside the [try], whose [except Exception] turns
    any failure into [GenerationError]: a failing call, an empty
    [choices], a [content] of [None] (which has no [strip]), an empty
    message list, and a session id that is no string. *)
Definition generate_response (api : client) (uuid4 : pystr)
    (generation_time : float) (self : ModelBackend.t)
    (messages : list ChatMessage.t) (temperature : float) (max_tokens : Z)
    (top_p : option float) (top_k : option Z) : Result ChatResponse.t :=
  if negb (ModelBackend.is_loaded self) then Raise ModelNotLoadedError
  else
    let message_id := uuid4 in
    let params :=
      ModelBackend.validate_parameters
        (Kwargs.mk (Some temperature) (Some max_tokens) top_p top_k) in
    let api_messages := OpenAI._format_messages_for_api messages in
    match api (OpenAI.mkApiRequest (ModelBackend.model_name self)
                 api_messages (Params.max_tokens params)
                 (Params.temperature params) (Params.top_p params) false) with
    | ApiRaises => Raise GenerationError
    | ApiCompletion [] _ => Raise GenerationError
    | ApiCompletion ((content, finish_reason) :: _) token_count =>
        match content with
        | None => Raise GenerationError
        | Some response_text =>
            match last messages with
            | None => Raise GenerationError
            | Some m =>
                let session_id :=
                  match ChatMessage.metadata m with
                  | Some ((_ :: _) as md) =>
                      dict_get md (lit "session_id") (Some (lit "unknown"))
                  | _ => Some (lit "unknown")
                  end in
                match session_id with
                | None => Raise GenerationError
                | Some session_id =>
                    Ok (ChatResponse.mk (strip response_text) session_id
                          message_id (ModelBackend.model_name self)
                          generation_time token_count finish_reason)
                end
            end
        end
    end.
End OpenAIComplete.

(** A text that neither starts nor ends with a whitespace character. *)
Definition trimmed (s : pystr) : Prop :=
  match s with
  | [] => True
  | c :: _ => isspace c = false
  end
  /\ match last s with
     | None => True
     | Some c => isspace c = false
     end.


(** ** [utils/helpers.py] *)

(** A message as the helpers take it: a dict from keys to strings. *)
Definition StrDict := list (pystr * pystr).

(** [d.get(key)] and [d.get(key, default)] on such a dict. *)
Fixpoint str_dict_get (d : StrDict) (key : pystr) : option pystr :=
  match d with
  | [] => None
  | (k, v) :: d' => if str_eqb k key then Some v else str_dict_get d' key
  end.

(** [max(1, len(text) // 4)] *)
Definition estimate_tokens (text : pystr) : Z := max_int 1 (len text / 4).

(** [msg.get("role") == "system"] *)
Definition is_system_message (m : StrDict) : bool :=
  match str_dict_get m (lit "role") with
  | Some r => str_eqb r (lit "system")
  | None => false
  end.

(** [estimate_tokens(msg.get("content", ""))] *)
Definition message_tokens (m : StrDict) : Z :=
  estimate_tokens (default [] (str_dict_get m (lit "content"))).

(** [sum(... for msg in messages)] *)
Definition total_tokens (messages : list StrDict) : Z :=
  fold_right Z.add 0 (map message_tokens messages).

(** The loop over [reversed(other_messages)]: a message that fits is
    put in front of the selection, the first that does not ends the
    loop. *)
Fixpoint select_recent (reversed : list StrDict) (available_tokens : Z)
    (current_tokens : Z) (selected_messages : list StrDict) : list StrDict :=
  match reversed with
  | [] => selected_messages
  | m :: rest =>
      let msg_tokens := message_tokens m in
      if current_tokens + msg_tokens <=? available_tokens
      then select_recent rest available_tokens (current_tokens + msg_tokens)
             (m :: selected_messages)
      else selected_messages
  end.

Definition truncate_conversation_history (messages : list StrDict)
    (max_tokens : Z) : list StrDict :=
  match messages with
  | [] => messages
  | _ :: _ =>
      let system_messages := List.filter is_system_message messages in
      let other_messages :=
        List.filter (fun m => negb (is_system_message m)) messages in
      let system_tokens := total_tokens system_messages in
      let available_tokens := max_tokens - system_tokens in
      if available_tokens <=? 0 then system_messages
      else system_messages
           ++ select_recent (rev other_messages) available_tokens 0 []
  end.

(** A character of the class [[a-zA-Z0-9_-]]. *)
Definition id_char (c : N) : bool :=
  (((97 <=? c) && (c <=? 122)) || ((65 <=? c) && (c <=? 90))
   || ((48 <=? c) && (c <=? 57)) || (c =? 95) || (c =? 45))%N.

Fixpoint drop_id_chars (s : pystr) : pystr :=
  match s with
  | [] => []
  | c :: s' => if id_char c then drop_id_chars s' else s
  end.

(** [bool(re.match(r'^[a-zA-Z0-9_-]+$', s))]: at least one character of
    the class, then the end of the string; without the MULTILINE flag
    [$] also matches just before a newline that ends the string. *)
Definition matches_id_pattern (s : pystr) : bool :=
  let rest := drop_id_chars s in
  negb (bool_decide (rest = s))
  && (bool_decide (rest = []) || bool_decide (rest = [10%N])).

Definition validate_session_id (session_id : pystr) : bool :=
  if negb (str_truthy session_id) || (len session_id <? 5)
     || (100 <? len session_id)
  then false
  else matches_id_pattern session_id.

(** ** The session routes of [api/v1/endpoints.py] *)

(** What a route gives back: a response body, or an [HTTPException]
    with its status code. *)
Inductive http (A : Type) :=
| Respond (body : A)
| HTTPException (status_code : Z).
Arguments Respond {A} body.
Arguments HTTPException {A} status_code.

(** [GET /sessions/{session_id}] *)
Definition route_get_session (session_id : pystr)
  : World -> http ConversationHistory.t * World :=
  fun w =>
    match get_conversation_history session_id w with
    | (Ok None, w') => (HTTPException 404, w')
    | (Ok (Some history), w') => (Respond history, w')
    | (Raise _, w') => (HTTPException 500, w')
    end.

(** [DELETE /sessions/{session_id}]; the body of its success response
    is a fixed message. *)
Definition route_clear_session (session_id : pystr)
  : World -> http unit * World :=
  fun w =>
    match clear_conversation session_id w with
    | (Ok success, w') =>
        if negb success then (HTTPException 404, w') else (Respond tt, w')
    | (Raise _, w') => (HTTPException 500, w')
    end.


(** ** More sample inputs *)

(** Settings that select the OpenAI backend without its key. *)
Definition keyless_settings : Settings.t :=
  Settings.mk (lit "openai") (lit "gpt-4") (lit "auto") 0.7%float 0.9%float
    50 512 None (lit "https://api-inference.huggingface.co/models/")
    None None None None None None None
    2 30 5 2 (lit "You are a helpful assistant.") None None None.

(** An initialized orchestrator whose backend manager never loaded. *)
Definition unready_world : World :=
  mkWorld 0 sample_settings (SessionManager.__init__ sample_settings)
    (ModelManager.__init__ ascii_lower sample_settings)
    (ChatManager.set_is_initialized true (ChatManager.__init__ sample_settings)).

(** A backend that answers every request with "Hello". *)
Definition sample_response
  : ModelBackend.t -> list ChatMessage.t -> float -> Z ->
    Result ChatResponse.t :=
  fun self _ _ _ =>
    Ok (ChatResponse.mk (lit "Hello") (lit "unknown") (lit "m-1")
          (ModelBackend.model_name self) 0.5%float (Some 1)
          (Some (lit "stop"))).

(** A provider like [sample_api] that fails after its finish chunk. *)
Definition late_failing_api : OpenAI.client :=
  fun _ =>
    OpenAI.UpChunk [delta "Hel"]
      (OpenAI.UpChunk [delta "lo "]
         (OpenAI.UpChunk [OpenAI.mkChoice None (Some (lit "stop"))]
            OpenAI.UpFail)).


(** * Properties *)

(** ** Lists and slices *)

Lemma slice_from_nonneg {A} (n : Z) (l : list A) :
  0 <= n -> slice_from n l = drop (Z.to_nat n) l.
Proof.
  intros Hn. unfold slice_from.
  destruct (Z.ltb_spec n 0); [lia | reflexivity].
Qed.

Lemma lastn_all {A} (k : nat) (l : list A) :
  (length l <= k)%nat -> lastn k l = l.
Proof.
  intros H. unfold lastn.
  replace (length l - k)%nat with 0%nat by lia. reflexivity.
Qed.

Lemma lastn_length {A} (k : nat) (l : list A) :
  length (lastn k l) = Nat.min k (length l).
Proof. unfold lastn. rewrite length_drop. lia. Qed.

Lemma lastn_snoc {A} (k : nat) (l : list A) (x : A) :
  lastn (S k) (l ++ [x]) = lastn k l ++ [x].
Proof.
  unfold lastn. rewrite length_app. simpl.
  replace (length l + 1 - S k)%nat with (length l - k)%nat by lia.
  rewrite drop_app_le by lia. reflexivity.
Qed.

Lemma lastn_lastn {A} (j k : nat) (l : list A) :
  (j <= k)%nat -> lastn j (lastn k l) = lastn j l.
Proof.
  intros H. unfold lastn. rewrite length_drop, drop_drop.
  f_equal. lia.
Qed.

Lemma lastn_suffix {A} (k : nat) (l : list A) : lastn k l `suffix_of` l.
Proof. exists (take (length l - k) l). unfold lastn. by rewrite take_drop. Qed.

Lemma appended_bounded cap old m :
  appended cap old m = bounded cap (old ++ [m]).
Proof.
  unfold appended, bounded, len.
  destruct (Z.ltb_spec 0 cap) as [Hcap|Hcap]; simpl.
  - destruct (Z.leb_spec cap (Z.of_nat (length old))) as [Hfull|Hroom].
    + rewrite slice_from_nonneg by lia.
      destruct (Z.to_nat cap) as [|k] eqn:Hk; [lia|].
      rewrite lastn_snoc. unfold lastn. do 2 f_equal. lia.
    + rewrite lastn_all; [done|]. rewrite length_app. simpl. lia.
  - reflexivity.
Qed.

Lemma bounded_length cap l :
  0 < cap -> len (bounded cap l) <= cap.
Proof.
  intros H. unfold bounded, len.
  destruct (Z.ltb_spec 0 cap); [|lia]. rewrite lastn_length. lia.
Qed.

Lemma bounded_snoc cap l m :
  bounded cap (bounded cap l ++ [m]) = bounded cap (l ++ [m]).
Proof.
  unfold bounded. destruct (Z.ltb_spec 0 cap) as [H|H]; [|done].
  destruct (Z.to_nat cap) as [|k] eqn:Hk; [lia|].
  rewrite !lastn_snoc. f_equal. apply lastn_lastn. lia.
Qed.

Lemma bounded_app cap l ms :
  fold_left (fun acc m => bounded cap (acc ++ [m])) ms (bounded cap l)
  = bounded cap (l ++ ms).
Proof.
  revert l. induction ms as [|m ms IH]; intros l; simpl.
  - by rewrite app_nil_r.
  - rewrite bounded_snoc, IH. by rewrite <- app_assoc.
Qed.

Lemma bounded_suffix cap l : bounded cap l `suffix_of` l.
Proof.
  unfold bounded. destruct (0 <? cap); [apply lastn_suffix | done].
Qed.

(** ** The session store *)

Lemma add_message_run sid m w :
  (forall h, sessions_of w !! sid = Some h ->
             ConversationHistory.session_id h = sid) ->
  exists h' now,
    add_message sid m w = (Ok true, written sid h' now w)
    /\ ConversationHistory.session_id h' = sid
    /\ ConversationHistory.messages h' = appended (cap_of w) (history w sid) m
    /\ ConversationHistory.message_count h'
       = len (ConversationHistory.messages h')
    /\ (clock w < now)%nat.
Proof.
  intros Hkey.
  unfold add_message, history, cap_of, try_except, bind, get_session,
    try_except, gets.
  destruct (sessions_of w !! sid) as [h|] eqn:Hh.
  - unfold sessions_of in Hh. rewrite Hh. simpl.
    rewrite (Hkey h eq_refl).
    eexists _, _. split; [reflexivity|]. simpl.
    repeat split; [by apply Hkey | lia].
  - unfold sessions_of in Hh. rewrite Hh. simpl.
    unfold create_session, try_except, bind, session_exists, get_session,
      try_except, gets, bind. rewrite Hh. simpl.
    rewrite lookup_insert_eq. simpl.
    eexists _, _. split.
    + unfold written, sessions_of. simpl.
      rewrite insert_insert_eq. reflexivity.
    + simpl. repeat split. lia.
Qed.

Lemma history_written sid h now w :
  history (written sid h now w) sid = ConversationHistory.messages h.
Proof.
  unfold history, written, sessions_of. simpl. by rewrite lookup_insert_eq.
Qed.

Lemma history_written_ne sid sid' h now w :
  sid <> sid' -> history (written sid h now w) sid' = history w sid'.
Proof.
  intros Hne. unfold history, written, sessions_of. simpl.
  by rewrite lookup_insert_ne.
Qed.

Lemma cap_of_written sid h now w : cap_of (written sid h now w) = cap_of w.
Proof. reflexivity. Qed.

Lemma store_wf_written sid h now w :
  store_wf w ->
  ConversationHistory.session_id h = sid ->
  ConversationHistory.message_count h = len (ConversationHistory.messages h) ->
  store_wf (written sid h now w).
Proof.
  intros Hwf Hid Hcount k h'. unfold written, sessions_of. simpl.
  destruct (decide (sid = k)) as [->|Hne].
  - rewrite lookup_insert_eq. intros [= <-]. done.
  - rewrite lookup_insert_ne by done. apply Hwf.
Qed.

Lemma store_wf_key w sid h :
  store_wf w -> sessions_of w !! sid = Some h ->
  ConversationHistory.session_id h = sid.
Proof. intros Hwf Hh. by destruct (Hwf _ _ Hh). Qed.

(** One append: the call succeeds, the session holds the trimmed history
    followed by the message, and the store stays well formed. *)
Lemma add_message_history sid m w :
  store_wf w ->
  (add_message sid m w).1 = Ok true
  /\ history (add_message sid m w).2 sid
     = bounded (cap_of w) (history w sid ++ [m])
  /\ cap_of (add_message sid m w).2 = cap_of w
  /\ store_wf (add_message sid m w).2.
Proof.
  intros Hwf.
  destruct (add_message_run sid m w) as (h' & now & Hrun & Hid & Hms & Hcnt & _).
  { intros h Hh. by eapply store_wf_key. }
  rewrite Hrun. simpl. rewrite history_written, Hms, appended_bounded.
  split; [done|]. split; [done|]. split; [done|]. by apply store_wf_written.
Qed.

Lemma add_messages_history sid ms w :
  store_wf w ->
  history (add_messages sid ms w) sid
  = fold_left (fun acc m => bounded (cap_of w) (acc ++ [m])) ms (history w sid)
  /\ cap_of (add_messages sid ms w) = cap_of w
  /\ store_wf (add_messages sid ms w).
Proof.
  revert w. induction ms as [|m ms IH]; intros w Hwf; simpl; [done|].
  destruct (add_message_history sid m w Hwf) as (_ & Hh & Hcap & Hwf').
  destruct (IH _ Hwf') as (IH1 & IH2 & IH3).
  rewrite IH1, Hh, IH2, Hcap. done.
Qed.

Lemma add_messages_bounded sid ms w :
  store_wf w -> ms <> [] ->
  history (add_messages sid ms w) sid
  = bounded (cap_of w) (history w sid ++ ms).
Proof.
  intros Hwf Hne. destruct ms as [|m ms]; [done|].
  destruct (add_messages_history sid (m :: ms) w Hwf) as (-> & _ & _).
  simpl. rewrite bounded_app. by rewrite <- app_assoc.
Qed.

Lemma get_session_messages_all sid w :
  get_session_messages sid None w = (Ok (history w sid), w).
Proof.
  unfold get_session_messages, bind, get_session, try_except, gets, history,
    sessions_of.
  by destruct (SessionManager.sessions (session_manager w) !! sid).
Qed.

Lemma store_wf_boot settings : store_wf (boot settings).
Proof. intros k h. unfold boot, sessions_of. simpl. by rewrite lookup_empty. Qed.

(** C1 (as amended). With a positive cap, after every run of appends to
    a session the stored messages are exactly the cap most recent ones of
    the history followed by the appended messages, in their original
    order; eviction is by age alone, whatever the role of a message. *)
Theorem add_messages_keeps_most_recent w sid ms :
  store_wf w -> 0 < cap_of w -> ms <> [] ->
  keeps_most_recent w sid ms.
Proof.
  intros Hwf Hcap Hne. unfold keeps_most_recent.
  rewrite add_messages_bounded by done. unfold bounded.
  by destruct (Z.ltb_spec 0 (cap_of w)); [|lia].
Qed.

Lemma add_messages_keeps_most_recent_witness :
  keeps_most_recent sample_world (lit "s1")
    [msg system "be brief"; msg user "hi"; msg assistant "hello"].
Proof.
  apply add_messages_keeps_most_recent.
  - apply store_wf_boot.
  - reflexivity.
  - discriminate.
Defined.

(** C1 (as stated) fails: with a cap of two, a system message followed by
    a user and an assistant message is evicted by the third append. *)
Lemma system_message_evicted :
  ~ (keeps_most_recent sample_world (lit "s1")
       [msg system "be brief"; msg user "hi"; msg assistant "hello"]
     /\ keeps_system_messages sample_world (lit "s1")
          [msg system "be brief"; msg user "hi"; msg assistant "hello"]).
Proof.
  intros [_ H]. specialize (H (msg system "be brief") eq_refl).
  assert (Hin : msg system "be brief"
                ∈ history sample_world (lit "s1")
                  ++ [msg system "be brief"; msg user "hi";
                      msg assistant "hello"]).
  { apply list_elem_of_In. vm_compute. by left. }
  specialize (H Hin). apply list_elem_of_In in H.
  vm_compute in H. intuition discriminate.
Qed.

Example eviction_sample :
  history (add_messages (lit "s1")
             [msg system "be brief"; msg user "hi"; msg assistant "hello"]
             sample_world) (lit "s1")
  = [msg user "hi"; msg assistant "hello"].
Proof. vm_compute. reflexivity. Qed.

(** C5. [delete_session] removes the session, but its result does not
    tell whether there was one: it is [True] for every id, also for an id
    that was never stored. *)
Theorem delete_session_returns_true sid w :
  (delete_session sid w).1 = Ok true
  /\ sessions_of (delete_session sid w).2 !! sid = None.
Proof.
  unfold delete_session, try_except, bind, modify, ret, sessions_of. simpl.
  split; [reflexivity | apply lookup_delete_eq].
Qed.

Example delete_session_unknown_id :
  sessions_of sample_world !! lit "nope" = None
  /\ (delete_session (lit "nope") sample_world).1 = Ok true.
Proof. split; vm_compute; reflexivity. Qed.

Lemma create_session_wf sid uid w :
  store_wf w -> store_wf (create_session sid uid w).2.
Proof.
  intros Hwf.
  unfold create_session, try_except, bind, session_exists, get_session,
    try_except, gets. simpl.
  fold (sessions_of w).
  destruct (sessions_of w !! sid) as [h|] eqn:Hh; simpl; [done|].
  destruct (opt_truthy uid
            && (0 <? SessionManager.max_sessions_per_user (session_manager w)));
    simpl.
  - unfold get_user_sessions, bind, get_active_sessions, try_except, gets.
    simpl.
    match goal with |- context [if ?c then _ else _] => destruct c end;
      simpl; [done|].
    apply (store_wf_written sid _ (S (S (clock w))) w); done.
  - apply (store_wf_written sid _ (S (S (clock w))) w); done.
Qed.

Lemma delete_session_wf sid w :
  store_wf w -> store_wf (delete_session sid w).2.
Proof.
  intros Hwf k h.
  unfold delete_session, try_except, bind, modify, ret, sessions_of. simpl.
  intros Hk. apply lookup_delete_Some in Hk as [_ Hk]. by apply Hwf.
Qed.

(** C7. After any run of appends to a session, reading the session
    returns what is stored, the stored messages are the tail of the
    history followed by the appended messages in call order, and every
    stored session has [message_count] equal to the length of its
    message list. *)
Theorem add_messages_order_and_count w sid ms :
  store_wf w ->
  let w' := add_messages sid ms w in
  (get_session_messages sid None w').1 = Ok (history w' sid)
  /\ history w' sid `suffix_of` history w sid ++ ms
  /\ (ms <> [] -> history w' sid = bounded (cap_of w) (history w sid ++ ms))
  /\ (forall k h, sessions_of w' !! k = Some h ->
        ConversationHistory.message_count h
        = len (ConversationHistory.messages h)).
Proof.
  intros Hwf w'. subst w'.
  split; [by rewrite get_session_messages_all|].
  assert (Hb : ms <> [] ->
          history (add_messages sid ms w) sid
          = bounded (cap_of w) (history w sid ++ ms))
    by (intros; by apply add_messages_bounded).
  split; [|split; [done|]].
  - destruct ms as [|m ms].
    + simpl. rewrite app_nil_r. done.
    + rewrite Hb by done. apply bounded_suffix.
  - intros k h Hk.
    destruct (add_messages_history sid ms w Hwf) as (_ & _ & Hwf').
    by destruct (Hwf' k h Hk).
Qed.

Lemma add_messages_order_and_count_witness :
  let w' := add_messages (lit "s1")
              [msg user "a"; msg assistant "b"; msg user "c"] sample_world in
  (get_session_messages (lit "s1") None w').1 = Ok (history w' (lit "s1"))
  /\ history w' (lit "s1")
     `suffix_of` history sample_world (lit "s1")
                 ++ [msg user "a"; msg assistant "b"; msg user "c"]
  /\ ([msg user "a"; msg assistant "b"; msg user "c"] <> [] ->
      history w' (lit "s1")
      = bounded (cap_of sample_world)
          (history sample_world (lit "s1")
           ++ [msg user "a"; msg assistant "b"; msg user "c"]))
  /\ (forall k h, sessions_of w' !! k = Some h ->
        ConversationHistory.message_count h
        = len (ConversationHistory.messages h)).
Proof.
  apply (add_messages_order_and_count sample_world (lit "s1")
           [msg user "a"; msg assistant "b"; msg user "c"]).
  apply store_wf_boot.
Defined.

(** ** Parameter validation *)

Lemma Prim2SF_one : exists m e, Prim2SF 1 = S754_finite false m e.
Proof. eexists _, _. vm_compute. reflexivity. Qed.

Lemma float_ltb_leb x y : (x <? y)%float = true -> (x <=? y)%float = true.
Proof.
  rewrite FloatAxioms.ltb_spec, FloatAxioms.leb_spec. unfold SFltb, SFleb.
  destruct (SFcompare _ _) as [[]|]; congruence.
Qed.

Lemma clamp_float_range x :
  (0 <=? max_float 0 (min_float 1 x))%float = true
  /\ (max_float 0 (min_float 1 x) <=? 1)%float = true.
Proof.
  unfold max_float, min_float.
  destruct (x <? 1)%float eqn:H1.
  - destruct (0 <? x)%float eqn:H0.
    + split; apply float_ltb_leb; assumption.
    + split; reflexivity.
  - split; reflexivity.
Qed.

Lemma clamp_float_below x :
  (x <? 0)%float = true -> max_float 0 (min_float 1 x) = 0%float.
Proof.
  intros H. unfold max_float, min_float.
  assert (H1 : (x <? 1)%float = true /\ (0 <? x)%float = false).
  { revert H. rewrite !FloatAxioms.ltb_spec. unfold SFltb.
    change (Prim2SF 0) with (S754_zero false).
    destruct Prim2SF_one as (m & e & ->).
    destruct (Prim2SF x) as [s|s| |s m' e']; simpl; try discriminate;
      destruct s; simpl; try discriminate; auto. }
  destruct H1 as [-> ->]. reflexivity.
Qed.

Lemma clamp_float_above x :
  (1 <? x)%float = true -> max_float 0 (min_float 1 x) = 1%float.
Proof.
  intros H. unfold max_float, min_float.
  assert (H1 : (x <? 1)%float = false).
  { revert H. rewrite !FloatAxioms.ltb_spec. unfold SFltb.
    destruct Prim2SF_one as (m & e & ->).
    destruct (Prim2SF x) as [s|s| |s m' e']; simpl; try discriminate;
      destruct s; simpl; try discriminate; auto.
    rewrite (Z.compare_antisym e e').
    destruct (e ?= e') eqn:He; simpl; try discriminate; auto.
    pose proof (Pos.compare_cont_antisym m m' Eq) as Hm. simpl in Hm.
    rewrite <- Hm.
    destruct (Pos.compare_cont Eq m m'); simpl; try discriminate; auto. }
  rewrite H1. reflexivity.
Qed.

Lemma SFcompare_refl X : X <> S754_nan -> SFcompare X X = Some Eq.
Proof.
  destruct X as [s|s| |s m e]; simpl; try congruence; intros _.
  - destruct s; reflexivity.
  - rewrite Z.compare_refl, Pos.compare_cont_refl. destruct s; reflexivity.
Qed.

Lemma SFcompare_Eq_sym X Y :
  SFcompare X Y = Some Eq -> SFcompare Y X = Some Eq.
Proof.
  destruct X as [s|s| |s m e], Y as [s'|s'| |s' m' e']; simpl;
    try discriminate; try reflexivity;
    try (destruct s; discriminate); try (destruct s'; discriminate).
  - destruct s, s'; try discriminate; reflexivity.
  - pose proof (Pos.compare_cont_antisym m m' Eq) as Hm. simpl in Hm.
    rewrite (Z.compare_antisym e e'), <- Hm.
    destruct s, s'; try discriminate;
      destruct (e ?= e'); simpl; try discriminate;
      destruct (Pos.compare_cont Eq m m'); simpl; try discriminate;
      reflexivity.
Qed.

Lemma clamp_float_inside x :
  (0 <=? x)%float = true -> (x <=? 1)%float = true ->
  (max_float 0 (min_float 1 x) =? x)%float = true.
Proof.
  intros H0 H1. unfold max_float, min_float.
  destruct (x <? 1)%float eqn:L1.
  - destruct (0 <? x)%float eqn:L0.
    + rewrite FloatAxioms.eqb_spec. unfold SFeqb.
      rewrite SFcompare_refl; [reflexivity|].
      intros Hnan. rewrite FloatAxioms.leb_spec, Hnan in H0. discriminate.
    + revert H0 L0.
      rewrite FloatAxioms.leb_spec, FloatAxioms.ltb_spec, FloatAxioms.eqb_spec.
      unfold SFleb, SFltb, SFeqb.
      destruct (SFcompare _ _) as [[]|]; congruence.
  - change (if (0 <? 1)%float then 1%float else 0%float) with 1%float.
    revert H1 L1.
    rewrite FloatAxioms.leb_spec, FloatAxioms.ltb_spec, FloatAxioms.eqb_spec.
    unfold SFleb, SFltb, SFeqb.
    destruct (SFcompare (Prim2SF x) _) as [[]|] eqn:Hc; try congruence.
    intros _ _. rewrite (SFcompare_Eq_sym _ _ Hc). reflexivity.
Qed.

Lemma clamp_int lo hi x :
  lo <= hi -> max_int lo (min_int hi x) = Z.max lo (Z.min hi x).
Proof.
  intros H. unfold max_int, min_int.
  destruct (Z.ltb_spec x hi); destruct (Z.ltb_spec lo x);
    try destruct (Z.ltb_spec lo hi); lia.
Qed.

Lemma floor_int lo x : max_int lo x = Z.max lo x.
Proof. unfold max_int. destruct (Z.ltb_spec lo x); lia. Qed.

(** C9. [validate_parameters] returns for every input: the temperature
    and top_p it returns lie in [0,1], max_tokens in [1,2048], top_k is at
    least 1; a value below its range is replaced by the lower bound, one
    above by the upper bound, and one inside is returned unchanged. *)
Theorem validate_parameters_clamps (kwargs : Kwargs.t) :
  let p := ModelBackend.validate_parameters kwargs in
  let temperature := default 0.7%float (Kwargs.temperature kwargs) in
  let max_tokens := default 512 (Kwargs.max_tokens kwargs) in
  let top_p := default 0.9%float (Kwargs.top_p kwargs) in
  let top_k := default 50 (Kwargs.top_k kwargs) in
  ((0 <=? Params.temperature p)%float = true
   /\ (Params.temperature p <=? 1)%float = true
   /\ ((temperature <? 0)%float = true -> Params.temperature p = 0%float)
   /\ ((1 <? temperature)%float = true -> Params.temperature p = 1%float)
   /\ ((0 <=? temperature)%float = true -> (temperature <=? 1)%float = true ->
       (Params.temperature p =? temperature)%float = true))
  /\ (1 <= Params.max_tokens p <= 2048
      /\ Params.max_tokens p = Z.max 1 (Z.min 2048 max_tokens))
  /\ ((0 <=? Params.top_p p)%float = true
      /\ (Params.top_p p <=? 1)%float = true
      /\ ((top_p <? 0)%float = true -> Params.top_p p = 0%float)
      /\ ((1 <? top_p)%float = true -> Params.top_p p = 1%float)
      /\ ((0 <=? top_p)%float = true -> (top_p <=? 1)%float = true ->
          (Params.top_p p =? top_p)%float = true))
  /\ (1 <= Params.top_k p /\ Params.top_k p = Z.max 1 top_k).
Proof.
  intros p temperature max_tokens top_p top_k. subst p. simpl.
  fold temperature max_tokens top_p top_k.
  rewrite clamp_int, floor_int by lia.
  repeat split;
    first [ apply clamp_float_range | apply clamp_float_below
          | apply clamp_float_above | apply clamp_float_inside | lia ].
Qed.

Lemma validate_parameters_clamps_witness :
  let p := ModelBackend.validate_parameters
             (Kwargs.mk (Some 1.5%float) (Some 5000) (Some (-0.25)%float)
                        (Some 0)) in
  Params.temperature p = 1%float /\ Params.max_tokens p = 2048
  /\ Params.top_p p = 0%float /\ Params.top_k p = 1.
Proof.
  pose proof (validate_parameters_clamps
                (Kwargs.mk (Some 1.5%float) (Some 5000) (Some (-0.25)%float)
                           (Some 0))) as H.
  simpl in H.
  destruct H as ((_ & _ & _ & Ht & _) & (_ & Hm) & (_ & _ & Hp & _) & (_ & Hk)).
  split; [apply Ht; reflexivity|]. split; [exact Hm|].
  split; [apply Hp; reflexivity | exact Hk].
Defined.

(** ** The OpenAI stream *)

Lemma gen_yields {Y} (g : gen Y) :
  g = yields (gen_chunks g)
        (match gen_end g with None => GReturn | Some e => GRaise e end).
Proof. induction g as [y k IH| |e]; simpl; [by rewrite <- IH|done|done]. Qed.

Lemma gen_chunks_yields {Y} (ys : list Y) (k : gen Y) :
  gen_chunks (yields ys k) = ys ++ gen_chunks k.
Proof. induction ys as [|y ys IH]; simpl; [done | by rewrite IH]. Qed.

Lemma gen_end_yields {Y} (ys : list Y) (k : gen Y) :
  gen_end (yields ys k) = gen_end k.
Proof. induction ys as [|y ys IH]; simpl; done. Qed.

Lemma complete_stream_final first sid mid :
  complete_stream first mid [StreamChunk.mk [] sid mid first true].
Proof.
  split.
  - intros [|i] c; simpl; [|done]. intros [= <-]. simpl. split; [lia|done].
  - exists [], (StreamChunk.mk [] sid mid first true). by repeat split.
Qed.

Lemma complete_stream_cons first mid c chunks :
  StreamChunk.chunk_id c = first ->
  StreamChunk.message_id c = mid ->
  StreamChunk.is_final c = false ->
  complete_stream (first + 1) mid chunks ->
  complete_stream first mid (c :: chunks).
Proof.
  intros Hid Hmid Hfin [Hids (body & final & -> & Hf & Hc & Hbody)]. split.
  - intros [|i] c'; simpl.
    + intros [= <-]. split; [lia|done].
    + intros Hi. destruct (Hids i c' Hi) as [-> ->]. split; [lia|done].
  - exists (c :: body), final. repeat split; try done. by constructor.
Qed.

Lemma final_chunk_complete sid mid n :
  gen_end (OpenAI.final_chunk sid mid n) = None ->
  complete_stream n mid (gen_chunks (OpenAI.final_chunk sid mid n)).
Proof.
  unfold OpenAI.final_chunk, OpenAI.yield_chunk.
  destruct sid as [sid|]; simpl; [|done]. intros _.
  apply complete_stream_final.
Qed.

Lemma stream_loop_complete sid mid stream : forall n,
  gen_end (OpenAI.stream_loop sid mid n stream) = None ->
  complete_stream n mid (gen_chunks (OpenAI.stream_loop sid mid n stream)).
Proof.
  induction stream as [choices rest IH| |]; intros n; simpl.
  - destruct (OpenAI.chunk_content choices) as [content|].
    + unfold OpenAI.yield_chunk. destruct sid as [s|]; simpl; [|done].
      intros Hend. apply complete_stream_cons; try done.
      destruct (OpenAI.chunk_finished choices).
      * by apply (final_chunk_complete (Some s)).
      * by apply IH.
    + destruct (OpenAI.chunk_finished choices).
      * apply final_chunk_complete.
      * apply IH.
  - apply final_chunk_complete.
  - done.
Qed.

(** C8. When [generate_stream] of the OpenAI backend runs to its end
    without raising, the chunks it yielded are numbered 0, 1, 2, ... in
    the order of generation and carry one message id; the last chunk is
    final and empty, and no other chunk is final. *)
Theorem generate_stream_complete api uuid4 self messages temperature
    max_tokens top_p top_k :
  let g := OpenAI.generate_stream api uuid4 self messages temperature
             max_tokens top_p top_k in
  gen_end g = None ->
  complete_stream 0 uuid4 (gen_chunks g).
Proof.
  intros g. subst g. unfold OpenAI.generate_stream.
  destruct (negb (ModelBackend.is_loaded self)); [done|].
  destruct (last messages) as [m|]; [|done].
  apply stream_loop_complete.
Qed.

(** ** The backend manager *)

Lemma initialize_cases settings probe_ok m :
  (exists b,
     ModelManager.initialize settings probe_ok m
     = (true, ModelManager.set_is_initialized true
                (ModelManager.set_current_backend
                   (Some (ModelBackend.set_is_loaded true b)) m))
     /\ Settings.validate_model_config settings = true
     /\ ModelManager._create_backend settings m = Some b
     /\ ModelBackend.credentials_missing b = false
     /\ probe_ok = true)
  \/ (ModelManager.initialize settings probe_ok m = (false, m)
      /\ (Settings.validate_model_config settings = false
          \/ ModelManager._create_backend settings m = None
          \/ (exists b, ModelManager._create_backend settings m = Some b
                        /\ ModelBackend.credentials_missing b = true)
          \/ probe_ok = false)).
Proof.
  unfold ModelManager.initialize.
  destruct (Settings.validate_model_config settings); simpl;
    [|right; split; [done | by left]].
  destruct (ModelManager._create_backend settings m) as [b|] eqn:Hb;
    [|right; split; [done | right; by left]].
  unfold ModelBackend.load_model.
  destruct (ModelBackend.credentials_missing b) eqn:Hc.
  { right. split; [done|]. right. right. left. by exists b. }
  destruct probe_ok.
  - left. exists b. by repeat split.
  - right. split; [done|]. by repeat right.
Qed.

Lemma create_backend_fresh settings m b :
  ModelManager._create_backend settings m = Some b ->
  ModelBackend.is_loaded b = false.
Proof.
  unfold ModelManager._create_backend.
  repeat (match goal with |- context [if ?c then _ else _] => destruct c end;
          [intros [= <-]; reflexivity|]).
  discriminate.
Qed.

Lemma set_is_loaded_back b :
  ModelBackend.is_loaded b = false ->
  ModelBackend.set_is_loaded false (ModelBackend.set_is_loaded true b) = b.
Proof. destruct b; simpl; intros ->; reflexivity. Qed.

Lemma set_is_loaded_again b :
  ModelBackend.is_loaded b = true ->
  ModelBackend.set_is_loaded true (ModelBackend.set_is_loaded false b) = b.
Proof. destruct b; simpl; intros ->; reflexivity. Qed.

Lemma initialize_inv settings probe_ok m :
  manager_inv settings m ->
  manager_inv settings (ModelManager.initialize settings probe_ok m).2.
Proof.
  intros Hinv.
  destruct (initialize_cases settings probe_ok m)
    as [(b & -> & Hv & Hb & Hc & _) | [-> _]]; [|done].
  unfold manager_inv. simpl. repeat split; try done.
  rewrite set_is_loaded_back; [done|]. by eapply create_backend_fresh.
Qed.

Lemma manager_inv_no_backend settings m :
  ModelManager.current_backend m = None -> manager_inv settings m.
Proof. unfold manager_inv. by intros ->. Qed.

Lemma retarget_no_backend lower close_ok name type m :
  ModelManager.current_backend
    (ModelManager.retarget lower close_ok name type m) = None.
Proof.
  unfold ModelManager.retarget.
  destruct (ModelManager.current_backend m) eqn:Hb;
    destruct (opt_truthy type); simpl; done.
Qed.

Lemma initialize_failed_same settings probe_ok m :
  (ModelManager.initialize settings probe_ok m).1 = false ->
  (ModelManager.initialize settings probe_ok m).2 = m.
Proof.
  destruct (initialize_cases settings probe_ok m)
    as [(b & -> & _) | [-> _]]; [discriminate | done].
Qed.

Lemma switch_model_inv lower settings close_ok probe_new probe_old name type m :
  manager_inv settings
    (ModelManager.switch_model lower settings close_ok probe_new probe_old
       name type m).2.
Proof.
  unfold ModelManager.switch_model.
  pose proof (retarget_no_backend lower close_ok name type m) as Hnone.
  pose proof (initialize_inv settings probe_new _
                (manager_inv_no_backend settings _ Hnone)) as Hinv.
  destruct (ModelManager.initialize settings probe_new
              (ModelManager.retarget lower close_ok name type m))
    as [success m1] eqn:Hinit.
  destruct success; simpl; [done|].
  pose proof (initialize_failed_same settings probe_new
                (ModelManager.retarget lower close_ok name type m)) as Hsame.
  rewrite Hinit in Hsame. simpl in Hsame. specialize (Hsame eq_refl). subst m1.
  match goal with
  | |- context [ModelManager.initialize settings probe_old ?m0] =>
      pose proof (initialize_inv settings probe_old m0) as H0;
      destruct (ModelManager.initialize settings probe_old m0) as [r m2]
  end.
  simpl in *. apply H0. apply manager_inv_no_backend. simpl. exact Hnone.
Qed.

Lemma manager_reachable_inv lower settings m :
  manager_reachable lower settings m -> manager_inv settings m.
Proof.
  intros [calls ->].
  assert (Hinit : manager_inv settings (ModelManager.__init__ lower settings))
    by done.
  revert Hinit. generalize (ModelManager.__init__ lower settings).
  induction calls as [|c calls IH]; intros m Hm; simpl; [done|].
  apply IH. destruct c as [p|c|c pn po name type]; simpl.
  - by apply initialize_inv.
  - unfold ModelManager.shutdown.
    destruct (ModelManager.current_backend m); [|done].
    by apply manager_inv_no_backend.
  - apply switch_model_inv.
Qed.

(** C3. From a reachable manager state that is ready with backend A, a
    [switch_model] whose initialization of the new backend fails returns
    [False] and puts back the previous model name and backend type.  It
    then initializes once more and discards the outcome: when A's probe
    succeeds the manager is ready with a loaded backend equal to A; when
    it fails the manager holds no backend and is not ready, since A was
    unloaded before the new backend was tried. *)
Theorem switch_model_rollback_outcome lower settings close_ok probe_new
    probe_old name type m :
  manager_reachable lower settings m ->
  ModelManager.is_ready m = true ->
  (ModelManager.initialize settings probe_new
     (ModelManager.retarget lower close_ok name type m)).1 = false ->
  let r := ModelManager.switch_model lower settings close_ok probe_new
             probe_old name type m in
  r.1 = false
  /\ ModelManager.model_name r.2 = ModelManager.model_name m
  /\ ModelManager.backend_type r.2 = ModelManager.backend_type m
  /\ (if probe_old
      then ModelManager.is_ready r.2 = true
           /\ ModelManager.current_backend r.2
              = ModelManager.current_backend m
      else ModelManager.is_ready r.2 = false
           /\ ModelManager.get_backend r.2 = None).
Proof.
  intros Hreach Hready Hfail r. subst r.
  apply manager_reachable_inv in Hreach. unfold manager_inv in Hreach.
  unfold ModelManager.is_ready in Hready.
  destruct (ModelManager.current_backend m) as [b|] eqn:Hb;
    [|by rewrite andb_false_r in Hready].
  destruct Hreach as (Hinit & Hvalid & Hcreate & Hcred & Hloaded).
  unfold ModelManager.switch_model.
  pose proof (initialize_failed_same settings probe_new _ Hfail) as Hsame.
  destruct (ModelManager.initialize settings probe_new
              (ModelManager.retarget lower close_ok name type m))
    as [success m1] eqn:Hnew.
  simpl in Hfail, Hsame. subst success m1. simpl.
  set (m0 := ModelManager.set_backend_type _ _).
  assert (Hcreate0 : ModelManager._create_backend settings m0
                     = Some (ModelBackend.set_is_loaded false b)).
  { rewrite <- Hcreate. reflexivity. }
  assert (Hnone : ModelManager.current_backend m0 = None).
  { apply (retarget_no_backend lower close_ok name type m). }
  destruct probe_old.
  - destruct (initialize_cases settings true m0)
      as [(b' & -> & _ & Hb' & _) | (_ & [Hv | [Hc | [(b' & Hb' & Hc) | Hp]]])].
    + rewrite Hcreate0 in Hb'. injection Hb' as <-.
      rewrite set_is_loaded_again by done.
      simpl. unfold ModelManager.is_ready, ModelBackend.is_model_loaded.
      simpl. by repeat split.
    + congruence.
    + congruence.
    + rewrite Hcreate0 in Hb'. injection Hb' as <-.
      destruct b; simpl in *. unfold ModelBackend.credentials_missing in *.
      simpl in *. congruence.
    + discriminate.
  - destruct (initialize_cases settings false m0)
      as [(b' & _ & _ & _ & _ & Hp) | (-> & _)]; [discriminate|].
    simpl. unfold ModelManager.is_ready, ModelManager.get_backend.
    rewrite Hnone, andb_false_r. by repeat split.
Qed.

Lemma switch_model_rollback_outcome_witness :
  let r := ModelManager.switch_model ascii_lower sample_settings true true
             true (lit "claude-3-haiku") (Some (lit "Anthropic"))
             sample_manager in
  r.1 = false
  /\ ModelManager.model_name r.2 = ModelManager.model_name sample_manager
  /\ ModelManager.backend_type r.2 = ModelManager.backend_type sample_manager
  /\ ModelManager.is_ready r.2 = true
  /\ ModelManager.current_backend r.2
     = ModelManager.current_backend sample_manager.
Proof.
  apply (switch_model_rollback_outcome ascii_lower sample_settings true true
           true (lit "claude-3-haiku") (Some (lit "Anthropic"))
           sample_manager).
  - exists [CallInitialize true]. reflexivity.
  - vm_compute. reflexivity.
  - vm_compute. reflexivity.
Defined.

(** C3 (as stated) fails: the manager that a successful [initialize]
    left ready with the OpenAI backend is asked to switch to another
    model while the provider does not answer.  The new backend fails to
    load, and so does the previous one when it is built again: the call
    returns [False] and the manager is not ready. *)
Lemma switch_model_leaves_no_backend :
  manager_reachable ascii_lower sample_settings sample_manager
  /\ ~ rollback_restores ascii_lower sample_settings true false false
        (lit "gpt-5") None sample_manager.
Proof.
  split; [by exists [CallInitialize true]|].
  intros H. destruct (H eq_refl eq_refl) as (_ & Hready & _).
  vm_compute in Hready. discriminate.
Qed.

(** The state that switch ends in: the previous model name is back, and
    no backend is held. *)
Example rollback_failure_sample :
  let r := ModelManager.switch_model ascii_lower sample_settings true false
             false (lit "gpt-5") None sample_manager in
  ModelManager.is_ready sample_manager = true
  /\ r.1 = false
  /\ ModelManager.model_name r.2 = lit "gpt-4"
  /\ ModelManager.get_backend r.2 = None
  /\ ModelManager.is_ready r.2 = false.
Proof. vm_compute. repeat split. Qed.

(** ** Frame conditions of the session store *)

Ltac unfold_monad :=
  unfold try_except, try_finally, bind, ret, raise, gets, modify, lift,
    utcnow in *.

Ltac case_branches :=
  repeat match goal with
         | |- context [match ?x with _ => _ end] => destruct x eqn:?; simpl
         end.

Lemma frame_refl w : frame w w.
Proof. by repeat split. Qed.

Lemma frame_trans w1 w2 w3 : frame w1 w2 -> frame w2 w3 -> frame w1 w3.
Proof.
  intros (? & ? & ? & ?) (? & ? & ? & ?). repeat split; congruence.
Qed.

Lemma frame_written sid h now w : frame w (written sid h now w).
Proof. by repeat split. Qed.

Lemma frame_set_clock n w : frame w (set_clock n w).
Proof. by repeat split. Qed.

Lemma create_session_frame sid uid w : frame w (create_session sid uid w).2.
Proof.
  unfold create_session, session_exists, get_session. unfold_monad. simpl.
  destruct (bool_decide _); simpl; [apply frame_refl|].
  destruct (opt_truthy uid && _); simpl; [|by repeat split].
  unfold get_user_sessions, get_active_sessions. unfold_monad. simpl.
  destruct (_ <=? _); simpl; [apply frame_refl | by repeat split].
Qed.

Lemma add_message_frame sid m w : frame w (add_message sid m w).2.
Proof.
  unfold add_message, get_session. unfold_monad. simpl.
  destruct (SessionManager.sessions (session_manager w) !! sid) eqn:Hs; simpl.
  - by repeat split.
  - pose proof (create_session_frame sid None w) as Hc.
    destruct (create_session sid None w) as [[r|e] w1]; simpl in *.
    + destruct (SessionManager.sessions (session_manager w1) !! sid); simpl.
      * unfold _store_session. unfold_monad. simpl.
        eapply frame_trans; [exact Hc|]. by repeat split.
      * exact Hc.
    + exact Hc.
Qed.

Lemma create_session_ensures sid w :
  store_wf w ->
  (create_session sid None w).1 = Ok true
  /\ (forall k, history (create_session sid None w).2 k = history w k)
  /\ store_wf (create_session sid None w).2.
Proof.
  intros Hwf. split; [|split; [|by apply create_session_wf]].
  - unfold create_session, session_exists, get_session. unfold_monad. simpl.
    by destruct (bool_decide _).
  - intros k.
    unfold create_session, session_exists, get_session, _store_session.
    unfold_monad. simpl.
    destruct (SessionManager.sessions (session_manager w) !! sid) eqn:Hs;
      simpl; [done|].
    unfold history, sessions_of. simpl.
    destruct (decide (sid = k)) as [<-|Hne].
    + by rewrite lookup_insert_eq, Hs.
    + by rewrite lookup_insert_ne.
Qed.

Section OrchestratorFacts.
Variable generate_response :
  ModelBackend.t -> list ChatMessage.t -> float -> Z ->
  Result ChatResponse.t.
Variable generate_stream :
  ModelBackend.t -> list ChatMessage.t -> float -> Z -> gen StreamChunk.t.

Lemma prepare_messages_run sid prompt w :
  exists msgs now,
    _prepare_messages_for_model sid prompt w = (Ok msgs, set_clock now w).
Proof.
  unfold _prepare_messages_for_model. unfold_monad.
  rewrite get_session_messages_all. simpl.
  destruct (str_truthy _); simpl.
  - by eexists _, _.
  - exists (history w sid), (clock w). by destruct w.
Qed.

(** The shared first half of both paths, on a ready manager: the user
    turn is stored and the backend reference obtained. *)
Lemma accept_turn_run request w :
  store_wf w ->
  ModelManager.is_ready (model_manager w) = true ->
  exists backend messages w1 now,
    accept_turn request w = (Ok (backend, messages), w1)
    /\ ModelManager.current_backend (model_manager w) = Some backend
    /\ history w1 (ChatRequest.session_id request)
       = bounded (cap_of w)
           (history w (ChatRequest.session_id request)
            ++ [user_message request now])
    /\ store_wf w1
    /\ frame w w1.
Proof.
  intros Hwf Hready. unfold accept_turn. unfold_monad. rewrite Hready.
  simpl.
  destruct (create_session_ensures (ChatRequest.session_id request) w Hwf)
    as (Hok & Hhist & Hwf1).
  pose proof (create_session_frame (ChatRequest.session_id request) None w)
    as Hf1.
  destruct (create_session (ChatRequest.session_id request) None w)
    as [r1 w1]. simpl in *. subst r1.
  set (w2 := set_clock (S (clock w1)) w1).
  set (now := clock w1).
  assert (Hwf2 : store_wf w2) by exact Hwf1.
  destruct (add_message_history (ChatRequest.session_id request)
              (user_message request now) w2 Hwf2)
    as (Hok3 & Hhist3 & Hcap3 & Hwf3).
  pose proof (add_message_frame (ChatRequest.session_id request)
                (user_message request now) w2) as Hf3.
  destruct (add_message (ChatRequest.session_id request)
              (user_message request now) w2) as [r3 w3].
  simpl in *. subst r3.
  destruct (prepare_messages_run (ChatRequest.session_id request)
              (ChatRequest.system_prompt request) w3)
    as (msgs & now4 & ->).
  unfold ModelManager.is_ready in Hready.
  unfold ModelManager.get_backend.
  destruct (ModelManager.current_backend (model_manager w)) as [b|];
    [|by rewrite andb_false_r in Hready].
  exists b, msgs, (set_clock now4 w3), now.
  split; [done|]. split; [done|]. split.
  { change (history (set_clock now4 w3) (ChatRequest.session_id request))
      with (history w3 (ChatRequest.session_id request)).
    rewrite Hhist3.
    change (history w2 (ChatRequest.session_id request))
      with (history w1 (ChatRequest.session_id request)).
    rewrite Hhist. f_equal.
    destruct Hf1 as (_ & _ & _ & Hc). exact Hc. }
  split; [exact Hwf3|].
  eapply frame_trans; [exact Hf1|].
  eapply frame_trans; [apply (frame_set_clock (S (clock w1)))|].
  eapply frame_trans; [exact Hf3|]. apply frame_set_clock.
Qed.

Lemma last_bounded cap l m : last (bounded cap (l ++ [m])) = Some m.
Proof.
  unfold bounded. destruct (Z.ltb_spec 0 cap) as [H|H]; [|apply last_snoc].
  destruct (Z.to_nat cap) as [|k] eqn:Hk; [lia|].
  rewrite lastn_snoc. apply last_snoc.
Qed.

(** C6. On an initialized orchestrator with a ready backend manager,
    whenever [process_chat_request] raises, the session holds the
    user turn of the request as its most recent message. *)
Theorem user_turn_survives_failure request w e w' :
  store_wf w ->
  ChatManager.is_initialized (chat_manager w) = true ->
  ModelManager.is_ready (model_manager w) = true ->
  process_chat_request generate_response request w = (Raise e, w') ->
  exists now,
    history w' (ChatRequest.session_id request)
    = bounded (cap_of w)
        (history w (ChatRequest.session_id request)
         ++ [user_message request now])
    /\ last (history w' (ChatRequest.session_id request))
       = Some (user_message request now).
Proof.
  intros Hwf Hinit Hready.
  destruct (accept_turn_run request w Hwf Hready)
    as (b & msgs & w1 & now & Hrun & _ & Hhist & Hwf1 & _).
  unfold process_chat_request. unfold_monad. rewrite Hinit. simpl.
  rewrite Hrun. simpl.
  destruct (generate_response b msgs _ _) as [response|e0]; simpl.
  - match goal with
    | |- context [add_message ?s ?m ?w0] =>
        destruct (add_message_history s m w0) as (Hok & _);
        [exact Hwf1|];
        destruct (add_message s m w0) as [r w2]; simpl in Hok; subst r
    end.
    simpl. discriminate.
  - intros [= <- <-]. exists now. split; [exact Hhist|].
    rewrite Hhist. apply last_bounded.
Qed.


(** *** One streaming request, run to its end *)

Lemma leave_run body w :
  leave body w
  = match body w with
    | (Ok _, w') => (Stopped, Closed, (release w').2)
    | (Raise e, w') => (Raised e, Closed, (release w').2)
    end.
Proof.
  unfold leave, release. unfold_monad. by destruct (body w) as [[]].
Qed.

Lemma consume_S fuel st w :
  consume generate_stream (S fuel) st w
  = match anext generate_stream st w with
    | (Yielded chunk, st', w') =>
        match consume generate_stream fuel st' w' with
        | (chunks, e, st'', w'') => (chunk :: chunks, e, st'', w'')
        end
    | (Stopped, st', w') => ([], Some Exhausted, st', w')
    | (Raised e, st', w') => ([], Some (Aborted e), st', w')
    end.
Proof. reflexivity. Qed.

Lemma resume_consume request : forall g full_response message_id w,
  consume generate_stream (S (gen_length g))
    (Suspended request full_response message_id g) w
  = match leave (finish request (full_response ++ full_text (gen_chunks g))
                   (or_else message_id (first_message_id (gen_chunks g)))
                   (gen_end g)) w with
    | (r, st, w') => (gen_chunks g, Some (stream_end_of r), st, w')
    end.
Proof.
  induction g as [c k IH| |e]; intros full mid w.
  - change (gen_length (GYield c k)) with (S (gen_length k)).
    rewrite (consume_S (S (gen_length k))). cbn [anext resume].
    rewrite IH. cbn [gen_chunks gen_end].
    unfold full_text. cbn [map concat]. rewrite <- app_assoc.
    replace (or_else match mid with
                     | Some _ => mid
                     | None => Some (StreamChunk.message_id c)
                     end (first_message_id (gen_chunks k)))
      with (or_else mid (first_message_id (c :: gen_chunks k)))
      by (by destruct mid).
    by destruct (leave _ w) as [[r st] w'].
  - rewrite consume_S. cbn [anext resume gen_chunks gen_end gen_length].
    unfold full_text. cbn [map concat]. rewrite app_nil_r.
    replace (or_else mid (first_message_id [])) with mid
      by (by destruct mid).
    cbn [finish]. rewrite leave_run.
    by destruct (persist_response request full mid w) as [[] w'].
  - rewrite consume_S. cbn [anext resume gen_chunks gen_end gen_length].
    cbn [finish]. rewrite leave_run. reflexivity.
Qed.

Lemma store_wf_acquire w : store_wf w -> store_wf (acquire w).2.
Proof. done. Qed.

(** The first resumption of an accepted request on a ready manager:
    the slot is taken, the user turn stored, and the loop over the
    backend generator entered. *)
Lemma start_run request w :
  store_wf w ->
  ChatManager.is_initialized (chat_manager w) = true ->
  active_streams_of w < ChatManager.max_concurrent_streams (chat_manager w) ->
  ModelManager.is_ready (model_manager w) = true ->
  exists w1 now,
    start generate_stream request w
    = resume request [] None (backend_stream generate_stream request w) w1
    /\ history w1 (ChatRequest.session_id request)
       = bounded (cap_of w)
           (history w (ChatRequest.session_id request)
            ++ [user_message request now])
    /\ store_wf w1
    /\ cap_of w1 = cap_of w
    /\ active_streams_of w1 = active_streams_of w + 1.
Proof.
  intros Hwf Hinit Hroom Hready.
  destruct (accept_turn_run request (acquire w).2 (store_wf_acquire w Hwf)
              Hready)
    as (b & msgs & w1 & now & Hrun & _ & Hhist & Hwf1 & Hframe).
  exists w1, now.
  unfold start, backend_stream, open_stream. unfold_monad.
  rewrite Hinit. simpl.
  unfold active_streams_of in Hroom.
  destruct (Z.leb_spec
              (ChatManager.max_concurrent_streams (chat_manager w))
              (ChatManager.active_streams (chat_manager w))); [lia|].
  unfold acquire in *. unfold_monad. simpl in *.
  rewrite Hrun. simpl.
  split; [reflexivity|]. split; [exact Hhist|]. split; [exact Hwf1|].
  destruct Hframe as (_ & _ & Hchat & Hcap).
  split; [exact Hcap|]. unfold active_streams_of. rewrite Hchat. done.
Qed.


Lemma persist_response_run request full_response message_id w :
  store_wf w ->
  exists w' now,
    persist_response request full_response message_id w = (Ok tt, w')
    /\ history w' (ChatRequest.session_id request)
       = (if str_truthy (strip full_response)
          then bounded (cap_of w)
                 (history w (ChatRequest.session_id request)
                  ++ [assistant_message request (strip full_response)
                        message_id now])
          else history w (ChatRequest.session_id request))
    /\ active_streams_of w' = active_streams_of w.
Proof.
  intros Hwf. unfold persist_response.
  destruct (str_truthy (strip full_response)).
  - unfold_monad. simpl.
    set (w1 := set_clock (S (clock w)) w).
    assert (Hwf1 : store_wf w1) by exact Hwf.
    match goal with
    | |- context [add_message ?s ?m w1] =>
        destruct (add_message_history s m w1 Hwf1) as (Hok & Hh & _ & _);
        pose proof (add_message_frame s m w1) as (_ & _ & Hchat & _);
        destruct (add_message s m w1) as [r w2]
    end.
    simpl in *. subst r. exists w2, (clock w).
    split; [done|]. split; [exact Hh|].
    unfold active_streams_of. by rewrite Hchat.
  - exists w, O. by repeat split.
Qed.

Lemma backend_stream_call request w :
  store_wf w ->
  ModelManager.is_ready (model_manager w) = true ->
  exists backend messages temperature max_tokens,
    backend_stream generate_stream request w
    = generate_stream backend messages temperature max_tokens.
Proof.
  intros Hwf Hready.
  destruct (accept_turn_run request (acquire w).2 (store_wf_acquire w Hwf)
              Hready) as (b & msgs & w1 & now & Hrun & _).
  unfold backend_stream, open_stream. unfold_monad. rewrite Hrun. simpl.
  by eexists _, _, _, _.
Qed.

(** A request whose backend generator raises: the consumer gets the
    chunks yielded before, then the exception; the session ends with
    the user turn, and the slot is free again. *)
Lemma stream_fault request w e :
  store_wf w ->
  ChatManager.is_initialized (chat_manager w) = true ->
  active_streams_of w < ChatManager.max_concurrent_streams (chat_manager w) ->
  ModelManager.is_ready (model_manager w) = true ->
  gen_end (backend_stream generate_stream request w) = Some e ->
  exists w' now,
    consume generate_stream
      (S (gen_length (backend_stream generate_stream request w)))
      (Created request) w
    = (gen_chunks (backend_stream generate_stream request w),
       Some (Aborted e), Closed, w')
    /\ history w' (ChatRequest.session_id request)
       = bounded (cap_of w)
           (history w (ChatRequest.session_id request)
            ++ [user_message request now])
    /\ active_streams_of w' = active_streams_of w.
Proof.
  intros Hwf Hinit Hroom Hready Hend.
  destruct (start_run request w Hwf Hinit Hroom Hready)
    as (w1 & now & Hstart & Hhist & Hwf1 & Hcap & Hact).
  set (g := backend_stream generate_stream request w) in *.
  pose proof (resume_consume request g [] None w1) as Hres.
  rewrite consume_S in Hres. cbn [anext] in Hres.
  rewrite consume_S. cbn [anext]. rewrite Hstart, Hres.
  rewrite Hend. cbn [finish]. rewrite leave_run. unfold raise. simpl.
  exists (release w1).2, now. split; [done|]. split; [exact Hhist|].
  unfold active_streams_of in *. simpl. lia.
Qed.

(** C10. A streaming request that runs to its end on a backend
    generator that returns: the consumer gets every chunk, and the
    assistant turn is stored exactly when the joined chunk contents
    strip to a non-empty text, which is then its content; otherwise the
    session ends with the user turn. *)
Theorem stream_persists_stripped_text request w :
  store_wf w ->
  ChatManager.is_initialized (chat_manager w) = true ->
  active_streams_of w < ChatManager.max_concurrent_streams (chat_manager w) ->
  ModelManager.is_ready (model_manager w) = true ->
  gen_end (backend_stream generate_stream request w) = None ->
  let chunks := gen_chunks (backend_stream generate_stream request w) in
  let text := strip (full_text chunks) in
  exists w' now now',
    consume generate_stream (S (length chunks)) (Created request) w
    = (chunks, Some Exhausted, Closed, w')
    /\ history w' (ChatRequest.session_id request)
       = (if str_truthy text
          then bounded (cap_of w)
                 (history w (ChatRequest.session_id request)
                  ++ [user_message request now;
                      assistant_message request text
                        (first_message_id chunks) now'])
          else bounded (cap_of w)
                 (history w (ChatRequest.session_id request)
                  ++ [user_message request now])).
Proof.
  intros Hwf Hinit Hroom Hready Hend chunks text.
  destruct (start_run request w Hwf Hinit Hroom Hready)
    as (w1 & now & Hstart & Hhist & Hwf1 & Hcap & Hact).
  subst chunks text.
  set (g := backend_stream generate_stream request w) in *.
  assert (Hlen : length (gen_chunks g) = gen_length g).
  { clear. induction g; simpl; auto. }
  rewrite Hlen.
  pose proof (resume_consume request g [] None w1) as Hres.
  rewrite consume_S in Hres. cbn [anext] in Hres.
  rewrite consume_S. cbn [anext]. rewrite Hstart, Hres.
  rewrite Hend. cbn [finish or_else app]. rewrite leave_run.
  destruct (persist_response_run request (full_text (gen_chunks g))
              (first_message_id (gen_chunks g)) w1 Hwf1)
    as (w2 & now' & -> & Hh2 & _).
  exists (release w2).2, now, now'. split; [done|].
  change (history (release w2).2 (ChatRequest.session_id request))
    with (history w2 (ChatRequest.session_id request)).
  rewrite Hh2, Hhist, Hcap.
  destruct (str_truthy _); [|done].
  rewrite bounded_snoc. by rewrite <- app_assoc.
Qed.


(** *** The stream counter *)

Lemma accept_turn_frame request w : frame w (accept_turn request w).2.
Proof.
  unfold accept_turn. unfold_monad.
  destruct (negb (ModelManager.is_ready (model_manager w)));
    [apply frame_refl|].
  pose proof (create_session_frame (ChatRequest.session_id request) None w)
    as Hf1.
  destruct (create_session (ChatRequest.session_id request) None w)
    as [[r1|e1] w1]; simpl in *; [|exact Hf1].
  match goal with
  | |- context [add_message ?s ?m ?w0] =>
      pose proof (add_message_frame s m w0) as Hf3;
      destruct (add_message s m w0) as [[r3|e3] w3]
  end; simpl in *.
  - destruct (prepare_messages_run (ChatRequest.session_id request)
                (ChatRequest.system_prompt request) w3)
      as (msgs & now4 & ->).
    assert (Hf : frame w (set_clock now4 w3)).
    { eapply frame_trans; [exact Hf1|].
      eapply frame_trans; [apply (frame_set_clock (S (clock w1)))|].
      eapply frame_trans; [exact Hf3|]. apply frame_set_clock. }
    by destruct (ModelManager.get_backend (model_manager w)).
  - eapply frame_trans; [exact Hf1|].
    eapply frame_trans; [apply (frame_set_clock (S (clock w1)))|].
    exact Hf3.
Qed.

Lemma open_stream_frame request w :
  frame w (open_stream generate_stream request w).2.
Proof.
  unfold open_stream. unfold_monad.
  pose proof (accept_turn_frame request w) as Hf.
  by destruct (accept_turn request w) as [[[b msgs]|e] w1].
Qed.

Lemma persist_response_frame request full_response message_id w :
  frame w (persist_response request full_response message_id w).2.
Proof.
  unfold persist_response. destruct (str_truthy _); [|apply frame_refl].
  unfold_monad. simpl.
  match goal with
  | |- context [add_message ?s ?m ?w0] =>
      pose proof (add_message_frame s m w0) as Hf;
      destruct (add_message s m w0) as [[r|e] w2]
  end; simpl in *;
    (eapply frame_trans; [apply (frame_set_clock (S (clock w)))|exact Hf]).
Qed.

Lemma frame_counter w w' :
  frame w w' ->
  active_streams_of w' = active_streams_of w
  /\ max_streams_of w' = max_streams_of w.
Proof.
  intros (_ & _ & Hchat & _). unfold active_streams_of, max_streams_of.
  by rewrite Hchat.
Qed.

(** Leaving the body gives the slot back, whatever the rest of the
    body did. *)
Lemma leave_counter body w :
  frame w (body w).2 ->
  exists r w',
    leave body w = (r, Closed, w')
    /\ (forall c, r <> Yielded c)
    /\ active_streams_of w' = active_streams_of w - 1
    /\ max_streams_of w' = max_streams_of w.
Proof.
  intros Hf. apply frame_counter in Hf as [Ha Hm]. rewrite leave_run.
  destruct (body w) as [[u|e] w1]; simpl in *;
    eexists _, _; (split; [reflexivity|]);
    unfold active_streams_of, max_streams_of in *; simpl;
    rewrite Ha, Hm; by repeat split.
Qed.

Lemma resume_counter request full_response message_id rest w :
  exists r st' w',
    resume request full_response message_id rest w = (r, st', w')
    /\ active_streams_of w' - slot st' = active_streams_of w - 1
    /\ max_streams_of w' = max_streams_of w.
Proof.
  destruct rest as [c k| |e]; simpl.
  - eexists _, _, _. split; [reflexivity|]. unfold slot. simpl.
    split; [lia|done].
  - destruct (leave_counter
                (persist_response request full_response message_id) w)
      as (r & w' & -> & _ & Ha & Hm);
      [apply persist_response_frame|].
    exists r, Closed, w'. unfold slot. simpl. split; [done|]. split; [lia|done].
  - destruct (leave_counter (raise e) w) as (r & w' & -> & _ & Ha & Hm);
      [apply frame_refl|].
    exists r, Closed, w'. unfold slot. simpl. split; [done|]. split; [lia|done].
Qed.

(** At capacity the first resumption fails at once and changes
    nothing; below capacity it takes one slot, which it holds exactly
    while the generator stays suspended. *)
Lemma start_counter request w :
  exists r st' w',
    start generate_stream request w = (r, st', w')
    /\ active_streams_of w' - slot st' = active_streams_of w
    /\ max_streams_of w' = max_streams_of w
    /\ (is_active st' = true -> active_streams_of w < max_streams_of w).
Proof.
  unfold start.
  destruct (negb (ChatManager.is_initialized (chat_manager w))).
  { eexists _, _, _. split; [reflexivity|]. unfold slot. simpl.
    split; [lia|]. split; [done|]. discriminate. }
  destruct (Z.leb_spec (ChatManager.max_concurrent_streams (chat_manager w))
              (ChatManager.active_streams (chat_manager w))) as [Hfull|Hroom].
  { eexists _, _, _. split; [reflexivity|]. unfold slot. simpl.
    split; [lia|]. split; [done|]. discriminate. }
  unfold acquire at 1. unfold modify.
  set (w0 := set_chat_manager _ w).
  assert (H0 : active_streams_of w0 = active_streams_of w + 1
               /\ max_streams_of w0 = max_streams_of w) by done.
  destruct H0 as [Ha0 Hm0].
  pose proof (open_stream_frame request w0) as Hf.
  apply frame_counter in Hf as [Ha1 Hm1].
  destruct (open_stream generate_stream request w0) as [[g|e] w1];
    simpl in *.
  - destruct (resume_counter request [] None g w1)
      as (r & st' & w' & -> & Ha & Hm).
    exists r, st', w'. split; [done|]. split; [lia|].
    split; [congruence|]. intros _. exact Hroom.
  - destruct (leave_counter (raise e) w1) as (r & w' & -> & _ & Ha & Hm);
      [apply frame_refl|].
    exists r, Closed, w'. unfold slot. simpl. split; [done|].
    split; [lia|]. split; [congruence|]. discriminate.
Qed.

Lemma anext_counter st w :
  exists r st' w',
    anext generate_stream st w = (r, st', w')
    /\ active_streams_of w' - slot st' = active_streams_of w - slot st
    /\ max_streams_of w' = max_streams_of w
    /\ (is_active st = false -> is_active st' = true ->
        active_streams_of w < max_streams_of w).
Proof.
  destruct st as [request|request full mid rest|]; simpl.
  - destruct (start_counter request w) as (r & st' & w' & -> & Ha & Hm & Hr).
    exists r, st', w'. unfold slot at 2. simpl.
    split; [done|]. split; [lia|]. split; [done|]. intros _. exact Hr.
  - destruct (resume_counter request full mid rest w)
      as (r & st' & w' & -> & Ha & Hm).
    exists r, st', w'. unfold slot at 2. simpl.
    split; [done|]. split; [lia|]. split; [done|]. discriminate.
  - eexists _, _, _. split; [reflexivity|]. split; [done|].
    split; [done|]. discriminate.
Qed.

Lemma aclose_counter st w :
  (aclose st w).1 = Closed
  /\ active_streams_of (aclose st w).2 = active_streams_of w - slot st
  /\ max_streams_of (aclose st w).2 = max_streams_of w.
Proof.
  destruct st; unfold slot, active_streams_of, max_streams_of; simpl;
    repeat split; lia.
Qed.


(** *** Streams in flight *)

Lemma active_count_cons st sts :
  active_count (st :: sts) = slot st + active_count sts.
Proof.
  unfold active_count, slot, len. simpl.
  destruct (is_active st); simpl; lia.
Qed.

Lemma active_count_snoc sts st :
  active_count (sts ++ [st]) = active_count sts + slot st.
Proof.
  induction sts as [|x sts IH]; simpl.
  - rewrite active_count_cons. unfold active_count. simpl. lia.
  - rewrite !active_count_cons, IH. lia.
Qed.

Lemma active_count_insert sts : forall (i : nat) st st',
  sts !! i = Some st ->
  active_count (<[i := st']> sts) = active_count sts - slot st + slot st'.
Proof.
  induction sts as [|x sts IH]; intros [|i] st st'; simpl; try done.
  - intros [= ->]. rewrite !active_count_cons. lia.
  - intros Hi. rewrite !active_count_cons, (IH i st st' Hi). lia.
Qed.

Lemma sys_step_inv cap s ev :
  sys_inv cap s -> sys_inv cap (sys_step generate_stream s ev).
Proof.
  intros (Hcount & Hbound & Hcap).
  destruct ev as [request|i|i]; simpl.
  - split; [|done]. simpl. rewrite active_count_snoc.
    unfold slot. simpl. lia.
  - destruct (streams s !! i) as [st|] eqn:Hi; [|done].
    destruct (anext_counter st (world s))
      as (r & st' & w' & -> & Ha & Hm & Hr).
    unfold sys_inv. simpl.
    rewrite (active_count_insert _ i st st' Hi).
    split; [lia|]. split; [|congruence].
    destruct (is_active st) eqn:Hst, (is_active st') eqn:Hst';
      unfold slot in Ha; rewrite Hst, Hst' in Ha; try lia.
    all: specialize (Hr eq_refl eq_refl); lia.
  - destruct (streams s !! i) as [st|] eqn:Hi; [|done].
    destruct (aclose_counter st (world s)) as (Hst & Ha & Hm).
    destruct (aclose st (world s)) as [st' w']. simpl in *. subst st'.
    unfold sys_inv. simpl.
    rewrite (active_count_insert _ i st Closed Hi).
    unfold slot at 2. simpl.
    split; [lia|]. split; [|congruence].
    unfold slot in Ha. destruct (is_active st); lia.
Qed.

Lemma sys_run_inv cap evs : forall s,
  sys_inv cap s -> sys_inv cap (sys_run generate_stream s evs).
Proof.
  induction evs as [|ev evs IH]; intros s Hs; simpl; [done|].
  apply IH. by apply sys_step_inv.
Qed.

(** C2. (1) A request started while the counter has reached the cap
    fails on its first resumption with a [RuntimeError] and leaves the
    world as it was; on an initialized orchestrator the error is the
    capacity error.  (2) Whatever the event loop does with the
    generators, the counter equals the number of streams in flight and
    never exceeds the cap.  (3) A stream in flight gives its slot back
    on every exit: when a resumption ends it, by return or by
    exception, and when it is closed. *)
Theorem stream_capacity :
  (forall request w,
     max_streams_of w <= active_streams_of w ->
     exists e,
       anext generate_stream (Created request) w = (Raised e, Closed, w)
       /\ is_RuntimeError e = true
       /\ (ChatManager.is_initialized (chat_manager w) = true ->
           e = capacity_error (max_streams_of w)))
  /\ (forall w evs,
        active_streams_of w = 0 ->
        let s := sys_run generate_stream (mkSystem w []) evs in
        active_count (streams s) = active_streams_of (world s)
        /\ active_count (streams s) <= Z.max 0 (max_streams_of w))
  /\ (forall st w,
        is_active st = true ->
        (forall r st' w',
           anext generate_stream st w = (r, st', w') ->
           is_active st' = false ->
           active_streams_of w' = active_streams_of w - 1)
        /\ (aclose st w).1 = Closed
        /\ active_streams_of (aclose st w).2 = active_streams_of w - 1).
Proof.
  split; [|split].
  - intros request w Hfull. simpl. unfold start.
    unfold max_streams_of, active_streams_of in *.
    destruct (ChatManager.is_initialized (chat_manager w)); simpl.
    + destruct (Z.leb_spec
                  (ChatManager.max_concurrent_streams (chat_manager w))
                  (ChatManager.active_streams (chat_manager w))); [|lia].
      eexists. split; [reflexivity|]. split; [reflexivity|]. done.
    + eexists. split; [reflexivity|]. split; [reflexivity|]. discriminate.
  - intros w evs Hzero s.
    destruct (sys_run_inv (max_streams_of w) evs (mkSystem w []))
      as (Hcount & Hbound & _).
    { unfold sys_inv. simpl. rewrite Hzero. repeat split; lia. }
    subst s. split; [exact Hcount|]. by rewrite Hcount.
  - intros st w Hst. split; [|split].
    + intros r st' w' Hnext Hst'.
      destruct (anext_counter st w) as (r0 & st0 & w0 & Heq & Ha & _).
      rewrite Hnext in Heq. injection Heq as <- <- <-.
      unfold slot in Ha. rewrite Hst, Hst' in Ha. lia.
    + apply aclose_counter.
    + destruct (aclose_counter st w) as (_ & Ha & _).
      unfold slot in Ha. rewrite Hst in Ha. exact Ha.
Qed.

End OrchestratorFacts.

(** ** The orchestrator over the OpenAI backend *)

Lemma final_chunk_raises sid mid n e :
  gen_end (OpenAI.final_chunk sid mid n) = Some e ->
  gen_chunks (OpenAI.final_chunk sid mid n) = [].
Proof.
  unfold OpenAI.final_chunk, OpenAI.yield_chunk.
  by destruct sid as [sid|].
Qed.

Lemma stream_loop_raises sid mid e stream : forall n,
  gen_end (OpenAI.stream_loop sid mid n stream) = Some e ->
  Forall (fun c => StreamChunk.is_final c = false)
    (gen_chunks (OpenAI.stream_loop sid mid n stream)).
Proof.
  induction stream as [choices rest IH| |]; intros n; simpl.
  - destruct (OpenAI.chunk_content choices) as [content|].
    + unfold OpenAI.yield_chunk. destruct sid as [s|]; simpl; [|done].
      intros Hend. constructor; [done|].
      destruct (OpenAI.chunk_finished choices).
      * done.
      * by apply IH.
    + destruct (OpenAI.chunk_finished choices).
      * intros Hend. by rewrite (final_chunk_raises sid mid n e).
      * apply IH.
  - intros Hend. by rewrite (final_chunk_raises sid mid n e).
  - done.
Qed.

Lemma generate_stream_raises api uuid4 self messages temperature max_tokens
    top_p top_k e :
  gen_end (OpenAI.generate_stream api uuid4 self messages temperature
             max_tokens top_p top_k) = Some e ->
  Forall (fun c => StreamChunk.is_final c = false)
    (gen_chunks (OpenAI.generate_stream api uuid4 self messages temperature
                   max_tokens top_p top_k)).
Proof.
  unfold OpenAI.generate_stream.
  destruct (negb (ModelBackend.is_loaded self)); [done|].
  destruct (last messages) as [m|]; [|done].
  apply stream_loop_raises.
Qed.

(** C4. A streaming request over the OpenAI backend whose generator
    raises after some chunks: the consumer gets exactly the chunks
    yielded before the fault, none of them final, then the exception;
    the session ends with the user turn of the request, no assistant
    turn is stored, and the slot is given back. *)
Theorem stream_fault_stores_no_assistant api uuid4 request w e :
  store_wf w ->
  ChatManager.is_initialized (chat_manager w) = true ->
  active_streams_of w < max_streams_of w ->
  ModelManager.is_ready (model_manager w) = true ->
  let g := backend_stream (openai_backend api uuid4) request w in
  gen_end g = Some e ->
  exists w' now,
    consume (openai_backend api uuid4) (S (length (gen_chunks g)))
      (Created request) w
    = (gen_chunks g, Some (Aborted e), Closed, w')
    /\ Forall (fun c => StreamChunk.is_final c = false) (gen_chunks g)
    /\ history w' (ChatRequest.session_id request)
       = bounded (cap_of w)
           (history w (ChatRequest.session_id request)
            ++ [user_message request now])
    /\ last (history w' (ChatRequest.session_id request))
       = Some (user_message request now)
    /\ active_streams_of w' = active_streams_of w.
Proof.
  intros Hwf Hinit Hroom Hready g Hend.
  destruct (stream_fault (openai_backend api uuid4) request w e
              Hwf Hinit Hroom Hready Hend) as (w' & now & Hrun & Hhist & Hact).
  exists w', now.
  assert (Hlen : length (gen_chunks g) = gen_length g).
  { clear. induction g; simpl; auto. }
  rewrite Hlen. split; [exact Hrun|]. split.
  - destruct (backend_stream_call (openai_backend api uuid4) request w
                Hwf Hready) as (b & msgs & t & mt & Hg).
    subst g. rewrite Hg in *. by eapply generate_stream_raises.
  - split; [exact Hhist|]. split; [|exact Hact].
    rewrite Hhist. apply last_bounded.
Qed.

(** ** The properties on the sample inputs *)

Lemma store_wf_sample_ready : store_wf sample_ready_world.
Proof. intros k h. unfold sessions_of. simpl. by rewrite lookup_empty. Qed.

Lemma generate_stream_complete_witness :
  complete_stream 0 (lit "m-1")
    (gen_chunks
       (OpenAI.generate_stream sample_api (lit "m-1")
          (ModelBackend.mk OpenAIAPIBackend (lit "gpt-4") true
             (Some (lit "sk-test")) None)
          [user_message sample_request 0] 0.7%float 512 None None)).
Proof.
  apply (generate_stream_complete sample_api (lit "m-1")
           (ModelBackend.mk OpenAIAPIBackend (lit "gpt-4") true
              (Some (lit "sk-test")) None)
           [user_message sample_request 0] 0.7%float 512 None None).
  vm_compute. reflexivity.
Defined.

Example sample_stream_chunks :
  gen_chunks
    (OpenAI.generate_stream sample_api (lit "m-1")
       (ModelBackend.mk OpenAIAPIBackend (lit "gpt-4") true
          (Some (lit "sk-test")) None)
       [user_message sample_request 0] 0.7%float 512 None None)
  = [StreamChunk.mk (lit "Hel") (lit "s1") (lit "m-1") 0 false;
     StreamChunk.mk (lit "lo ") (lit "s1") (lit "m-1") 1 false;
     StreamChunk.mk [] (lit "s1") (lit "m-1") 2 true].
Proof. vm_compute. reflexivity. Qed.

Lemma user_turn_survives_failure_witness :
  exists now,
    history
      (process_chat_request failing_response sample_request
         sample_ready_world).2 (lit "s1")
    = bounded (cap_of sample_ready_world)
        (history sample_ready_world (lit "s1")
         ++ [user_message sample_request now])
    /\ last (history
               (process_chat_request failing_response sample_request
                  sample_ready_world).2 (lit "s1"))
       = Some (user_message sample_request now).
Proof.
  apply (user_turn_survives_failure failing_response sample_request
           sample_ready_world GenerationError).
  - apply store_wf_sample_ready.
  - reflexivity.
  - vm_compute. reflexivity.
  - vm_compute. reflexivity.
Defined.

Lemma stream_fault_stores_no_assistant_witness :
  let g := backend_stream (openai_backend failing_api (lit "m-1"))
             sample_request sample_ready_world in
  exists w' now,
    consume (openai_backend failing_api (lit "m-1"))
      (S (length (gen_chunks g))) (Created sample_request) sample_ready_world
    = (gen_chunks g, Some (Aborted GenerationError), Closed, w')
    /\ Forall (fun c => StreamChunk.is_final c = false) (gen_chunks g)
    /\ history w' (lit "s1")
       = bounded (cap_of sample_ready_world)
           (history sample_ready_world (lit "s1")
            ++ [user_message sample_request now])
    /\ last (history w' (lit "s1")) = Some (user_message sample_request now)
    /\ active_streams_of w' = active_streams_of sample_ready_world.
Proof.
  apply (stream_fault_stores_no_assistant failing_api (lit "m-1")
           sample_request sample_ready_world GenerationError).
  - apply store_wf_sample_ready.
  - reflexivity.
  - vm_compute. reflexivity.
  - vm_compute. reflexivity.
  - vm_compute. reflexivity.
Defined.

Example sample_fault_observed :
  (consume (openai_backend failing_api (lit "m-1")) 3
     (Created sample_request) sample_ready_world).1.1
  = ([StreamChunk.mk (lit "Hel") (lit "s1") (lit "m-1") 0 false;
      StreamChunk.mk (lit "lo ") (lit "s1") (lit "m-1") 1 false],
     Some (Aborted GenerationError)).
Proof. vm_compute. reflexivity. Qed.

Lemma stream_persists_stripped_text_witness :
  let chunks :=
    gen_chunks (backend_stream (openai_backend sample_api (lit "m-1"))
                  sample_request sample_ready_world) in
  let text := strip (full_text chunks) in
  exists w' now now',
    consume (openai_backend sample_api (lit "m-1")) (S (length chunks))
      (Created sample_request) sample_ready_world
    = (chunks, Some Exhausted, Closed, w')
    /\ history w' (lit "s1")
       = (if str_truthy text
          then bounded (cap_of sample_ready_world)
                 (history sample_ready_world (lit "s1")
                  ++ [user_message sample_request now;
                      assistant_message sample_request text
                        (first_message_id chunks) now'])
          else bounded (cap_of sample_ready_world)
                 (history sample_ready_world (lit "s1")
                  ++ [user_message sample_request now])).
Proof.
  apply (stream_persists_stripped_text
           (openai_backend sample_api (lit "m-1")) sample_request
           sample_ready_world).
  - apply store_wf_sample_ready.
  - reflexivity.
  - vm_compute. reflexivity.
  - vm_compute. reflexivity.
  - vm_compute. reflexivity.
Defined.

Example sample_stream_stored :
  map (fun m => (ChatMessage.role m, ChatMessage.content m))
    (history
       (consume (openai_backend sample_api (lit "m-1")) 4
          (Created sample_request) sample_ready_world).2 (lit "s1"))
  = [(user, lit "hi"); (assistant, lit "Hello")].
Proof. vm_compute. reflexivity. Qed.

Example sample_blank_stream_stored :
  map (fun m => (ChatMessage.role m, ChatMessage.content m))
    (history
       (consume (openai_backend blank_api (lit "m-1")) 3
          (Created sample_request) sample_ready_world).2 (lit "s1"))
  = [(user, lit "hi")].
Proof. vm_compute. reflexivity. Qed.

Lemma stream_capacity_witness :
  let s := sys_run (openai_backend sample_api (lit "m-1"))
             (mkSystem sample_ready_world [])
             [Spawn sample_request; Next 0%nat; Spawn sample_request;
              Next 1%nat; Spawn sample_request; Next 2%nat] in
  active_count (streams s) = active_streams_of (world s)
  /\ active_count (streams s) <= Z.max 0 (max_streams_of sample_ready_world).
Proof.
  destruct (stream_capacity (openai_backend sample_api (lit "m-1")))
    as (_ & H & _).
  apply (H sample_ready_world). reflexivity.
Defined.

Example sample_third_stream_refused :
  let s := sys_run (openai_backend sample_api (lit "m-1"))
             (mkSystem sample_ready_world [])
             [Spawn sample_request; Next 0%nat; Spawn sample_request;
              Next 1%nat; Spawn sample_request; Next 2%nat] in
  map is_active (streams s) = [true; true; false]
  /\ active_streams_of (world s) = 2.
Proof. vm_compute. split; reflexivity. Qed.

(** A consumer that stops at the final chunk and closes the generator,
    as the transport's loops do, never lets the code after the loop run:
    the slot is released, and no assistant turn is stored. *)
Example sample_closed_after_final :
  let '(chunks, ending, st, w) :=
    consume (openai_backend sample_api (lit "m-1")) 3
      (Created sample_request) sample_ready_world in
  map StreamChunk.is_final chunks = [false; false; true]
  /\ ending = None
  /\ map (fun m => (ChatMessage.role m, ChatMessage.content m))
       (history (aclose st w).2 (lit "s1")) = [(user, lit "hi")]
  /\ active_streams_of (aclose st w).2 = 0.
Proof. vm_compute. repeat split. Qed.

(** * Further properties *)

(** ** The session store, beyond the appends *)

Lemma get_user_sessions_run uid w :
  get_user_sessions uid w = (Ok (user_sessions uid w), w).
Proof.
  unfold user_sessions, get_user_sessions, get_active_sessions.
  unfold_monad. reflexivity.
Qed.

Lemma create_session_cases sid uid w :
  match sessions_of w !! sid with
  | Some _ => create_session sid uid w = (Ok true, w)
  | None =>
      if over_limit uid w
      then create_session sid uid w = (Ok false, w)
      else exists created_at updated_at,
        (create_session sid uid w).1 = Ok true
        /\ sessions_of (create_session sid uid w).2
           = <[sid := ConversationHistory.mk sid [] created_at updated_at 0]>
               (sessions_of w)
  end.
Proof.
  unfold create_session, session_exists, get_session, over_limit, sessions_of.
  destruct (SessionManager.sessions (session_manager w) !! sid) eqn:Hs.
  - unfold_monad. rewrite Hs. reflexivity.
  - unfold_monad. rewrite Hs. simpl.
    destruct (opt_truthy uid
              && (0 <? SessionManager.max_sessions_per_user
                         (session_manager w))); simpl.
    + unfold user_sessions, get_user_sessions, get_active_sessions.
      unfold_monad. simpl.
      destruct (_ <=? _); simpl; [reflexivity|].
      by eexists _, _.
    + by eexists _, _.
Qed.

(** X1. [create_session] never raises.  For an id that is stored it
    answers [True] and changes nothing, whatever the user id; for a new
    id it answers [False] and changes nothing when the user is over the
    limit, and otherwise stores an empty session with a count of zero
    and answers [True]. *)
Theorem create_session_outcome sid uid w :
  match sessions_of w !! sid with
  | Some _ => create_session sid uid w = (Ok true, w)
  | None =>
      if over_limit uid w
      then create_session sid uid w = (Ok false, w)
      else exists created_at updated_at,
        (create_session sid uid w).1 = Ok true
        /\ sessions_of (create_session sid uid w).2
           = <[sid := ConversationHistory.mk sid [] created_at updated_at 0]>
               (sessions_of w)
  end.
Proof. exact (create_session_cases sid uid w). Qed.

Lemma filter_length_perm {A} (f : A -> bool) (l l' : list A) :
  l ≡ₚ l' -> length (List.filter f l) = length (List.filter f l').
Proof.
  induction 1 as [|x l l' _ IH|x y l|l1 l2 l3 _ IH1 _ IH2]; simpl.
  - done.
  - destruct (f x); simpl; by rewrite IH.
  - destruct (f x), (f y); done.
  - by rewrite IH1.
Qed.

Lemma user_sessions_length uid w :
  length (user_sessions uid w)
  = length (List.filter
              (fun kv : pystr * ConversationHistory.t =>
                 startswith (uid ++ lit "-")
                   (ConversationHistory.session_id kv.2))
              (map_to_list (sessions_of w))).
Proof.
  unfold user_sessions, get_user_sessions, get_active_sessions, sessions_of.
  unfold_monad. simpl.
  induction (map_to_list (SessionManager.sessions (session_manager w)))
    as [|kv l IH]; simpl; [done|].
  destruct (startswith _ _); simpl; by rewrite IH.
Qed.

(** X2. With a user id and a positive limit, [create_session] never
    takes the number of that user's sessions above the limit: a store
    that is within the limit stays within it. *)
Theorem create_session_respects_limit sid uid w :
  str_truthy uid = true ->
  0 < SessionManager.max_sessions_per_user (session_manager w) ->
  len (user_sessions uid w)
  <= SessionManager.max_sessions_per_user (session_manager w) ->
  len (user_sessions uid (create_session sid (Some uid) w).2)
  <= SessionManager.max_sessions_per_user (session_manager w).
Proof.
  intros Huid Hpos Hle.
  pose proof (create_session_cases sid (Some uid) w) as Hout.
  destruct (sessions_of w !! sid) eqn:Hs; [by rewrite Hout|].
  destruct (over_limit (Some uid) w) eqn:Hover; [by rewrite Hout|].
  destruct Hout as (c & u & _ & Hstore).
  unfold over_limit in Hover. simpl in Hover. rewrite Huid in Hover.
  simpl in Hover.
  destruct (Z.ltb_spec 0 (SessionManager.max_sessions_per_user
                            (session_manager w))); [|lia].
  simpl in Hover. apply Z.leb_gt in Hover.
  unfold len in *. rewrite user_sessions_length, Hstore.
  rewrite (filter_length_perm _ _ _ (map_to_list_insert _ _ _ Hs)).
  rewrite user_sessions_length in Hover. simpl.
  destruct (startswith _ _); simpl; lia.
Qed.

Lemma create_session_respects_limit_witness :
  len (user_sessions (lit "ann")
         (create_session (lit "ann-3") (Some (lit "ann")) sample_world).2)
  <= SessionManager.max_sessions_per_user (session_manager sample_world).
Proof.
  apply (create_session_respects_limit (lit "ann-3") (lit "ann") sample_world).
  - reflexivity.
  - reflexivity.
  - vm_compute. discriminate.
Defined.

Lemma add_message_creates_session_aux sid m w :
  store_wf w ->
  sessions_of w !! sid = None ->
  exists h,
    sessions_of (add_message sid m w).2 !! sid = Some h
    /\ ConversationHistory.messages h = [m]
    /\ (add_message sid m w).1 = Ok true
    /\ ConversationHistory.message_count h = 1.
Proof.
  intros Hwf Hnone.
  destruct (add_message_run sid m w) as (h' & now & Hrun & Hid & Hms & Hcnt & _).
  { intros h Hh. by eapply store_wf_key. }
  rewrite Hrun. simpl. exists h'.
  unfold written, sessions_of. simpl. rewrite lookup_insert_eq.
  assert (Hm : ConversationHistory.messages h' = [m]).
  { rewrite Hms. unfold appended, history, len. rewrite Hnone. simpl.
    destruct (0 <? cap_of w) eqn:Hc; simpl; [|done].
    change (Z.of_nat 0) with 0.
    destruct (cap_of w <=? 0) eqn:Hc0; [|done].
    apply Z.ltb_lt in Hc. apply Z.leb_le in Hc0. lia. }
  split; [done|]. split; [done|]. split; [done|]. by rewrite Hcnt, Hm.
Qed.

(** X3. The first message to an unknown session creates the session and
    stores exactly that message, with a count of one: [add_message]
    passes no user id, so no session limit can refuse it. *)
Theorem add_message_creates_session sid m w :
  store_wf w ->
  sessions_of w !! sid = None ->
  (add_message sid m w).1 = Ok true
  /\ exists h,
       sessions_of (add_message sid m w).2 !! sid = Some h
       /\ ConversationHistory.messages h = [m]
       /\ ConversationHistory.message_count h = 1.
Proof.
  intros Hwf Hnone.
  destruct (add_message_creates_session_aux sid m w Hwf Hnone)
    as (h & Hh & Hm & Hok & Hcnt).
  split; [done|]. by exists h.
Qed.

Lemma add_message_creates_session_witness :
  (add_message (lit "s1") (msg user "hi") sample_world).1 = Ok true
  /\ exists h,
       sessions_of (add_message (lit "s1") (msg user "hi") sample_world).2
         !! lit "s1" = Some h
       /\ ConversationHistory.messages h = [msg user "hi"]
       /\ ConversationHistory.message_count h = 1.
Proof.
  apply (add_message_creates_session (lit "s1") (msg user "hi") sample_world).
  - apply store_wf_boot.
  - vm_compute. reflexivity.
Defined.

Lemma get_session_messages_run sid limit w :
  get_session_messages sid limit w
  = (Ok (match limit with
         | Some n => if 0 <? n then slice_from (- n) (history w sid)
                     else history w sid
         | None => history w sid
         end), w).
Proof.
  unfold get_session_messages, get_session, history, sessions_of.
  unfold_monad.
  destruct (SessionManager.sessions (session_manager w) !! sid) as [h|];
    simpl.
  - destruct limit as [n|]; [|done].
    destruct (Z.eqb_spec n 0) as [->|Hn]; simpl; [done|].
    by destruct (0 <? n).
  - destruct limit as [n|]; [|reflexivity].
    assert (Hnil : slice_from (- n) (@nil ChatMessage.t) = [])
      by (unfold slice_from; destruct (- n <? 0); apply drop_nil).
    rewrite Hnil. by destruct (0 <? n).
Qed.

(** X4. [get_session_messages] with a positive limit returns the most
    recent [limit] messages of the session in their stored order (all of
    them when there are fewer); without a limit, or with a limit of zero
    or below, it returns every message; it never changes the store. *)
Theorem get_session_messages_limit sid limit w :
  (get_session_messages sid limit w).2 = w
  /\ (get_session_messages sid limit w).1
     = Ok (match limit with
           | Some n => if 0 <? n then lastn (Z.to_nat n) (history w sid)
                       else history w sid
           | None => history w sid
           end).
Proof.
  rewrite get_session_messages_run. simpl. split; [done|]. f_equal.
  destruct limit as [n|]; [|done].
  destruct (Z.ltb_spec 0 n) as [Hn|Hn]; [|done].
  unfold slice_from, lastn.
  destruct (Z.ltb_spec (- n) 0); [|lia]. f_equal. lia.
Qed.

Lemma delete_session_run sid w :
  delete_session sid w
  = (Ok true,
     set_session_manager
       (SessionManager.set_sessions (delete sid (sessions_of w))
          (session_manager w)) w).
Proof. reflexivity. Qed.

(** X5. After [delete_session] the session is unknown: [get_session]
    finds nothing and its messages read as empty, while every other
    session is as before; a message added afterwards starts a new
    history that holds that message alone. *)
Theorem delete_session_forgets sid m w :
  store_wf w ->
  let w' := (delete_session sid w).2 in
  (get_session sid w').1 = Ok None
  /\ (get_session_messages sid None w').1 = Ok []
  /\ (forall k, k <> sid -> sessions_of w' !! k = sessions_of w !! k)
  /\ history (add_message sid m w').2 sid = [m].
Proof.
  intros Hwf w'. subst w'. rewrite delete_session_run. simpl.
  set (w' := set_session_manager _ w).
  assert (Hstore : sessions_of w' = delete sid (sessions_of w)) by done.
  assert (Hnone : sessions_of w' !! sid = None)
    by (rewrite Hstore; apply lookup_delete_eq).
  assert (Hwf' : store_wf w').
  { intros k h Hk. rewrite Hstore in Hk.
    apply lookup_delete_Some in Hk as [_ Hk]. by apply Hwf. }
  split; [|split; [|split]].
  - unfold get_session. unfold_monad. simpl. f_equal. exact Hnone.
  - rewrite get_session_messages_all. simpl. unfold history.
    by rewrite Hnone.
  - intros k Hk. rewrite Hstore. apply lookup_delete_ne. done.
  - destruct (add_message_creates_session_aux sid m w' Hwf' Hnone)
      as (h & Hh & Hm & _).
    unfold history. by rewrite Hh.
Qed.

Lemma delete_session_forgets_witness :
  let w := (add_message (lit "s1") (msg user "old") sample_world).2 in
  let w' := (delete_session (lit "s1") w).2 in
  (get_session (lit "s1") w').1 = Ok None
  /\ (get_session_messages (lit "s1") None w').1 = Ok []
  /\ (forall k, k <> lit "s1" -> sessions_of w' !! k = sessions_of w !! k)
  /\ history (add_message (lit "s1") (msg user "new") w').2 (lit "s1")
     = [msg user "new"].
Proof.
  apply (delete_session_forgets (lit "s1") (msg user "new")
           (add_message (lit "s1") (msg user "old") sample_world).2).
  apply add_message_history. apply store_wf_boot.
Defined.

(** X6. Sessions are isolated: an append to one session leaves the
    record of every other session exactly as it was. *)
Theorem add_message_other_sessions sid m w :
  store_wf w ->
  forall k, k <> sid ->
    sessions_of (add_message sid m w).2 !! k = sessions_of w !! k.
Proof.
  intros Hwf k Hk.
  destruct (add_message_run sid m w) as (h' & now & -> & _).
  { intros h Hh. by eapply store_wf_key. }
  unfold written, sessions_of. simpl. by rewrite lookup_insert_ne.
Qed.

Lemma add_message_other_sessions_witness :
  sessions_of (add_message (lit "s1") (msg user "hi") sample_world).2
    !! lit "s2"
  = sessions_of sample_world !! lit "s2".
Proof.
  apply (add_message_other_sessions (lit "s1") (msg user "hi") sample_world).
  - apply store_wf_boot.
  - discriminate.
Defined.

Lemma store_step_frame w c : frame w (store_step w c).
Proof.
  destruct c as [sid uid|sid m|sid]; simpl.
  - apply create_session_frame.
  - apply add_message_frame.
  - by repeat split.
Qed.

Lemma store_step_wf w c : store_wf w -> store_wf (store_step w c).
Proof.
  intros Hwf. destruct c as [sid uid|sid m|sid]; simpl.
  - by apply create_session_wf.
  - by apply add_message_history.
  - by apply delete_session_wf.
Qed.

Lemma store_step_bounded w c :
  store_wf w -> store_bounded w -> store_bounded (store_step w c).
Proof.
  intros Hwf Hb Hcap k h.
  destruct (store_step_frame w c) as (_ & _ & _ & Hframe).
  rewrite Hframe in *. specialize (Hb Hcap).
  destruct c as [sid uid|sid m|sid]; simpl.
  - pose proof (create_session_cases sid uid w) as Hout.
    destruct (sessions_of w !! sid) eqn:Hs; [rewrite Hout; apply Hb|].
    destruct (over_limit uid w); [rewrite Hout; apply Hb|].
    destruct Hout as (c & u & _ & ->).
    destruct (decide (sid = k)) as [->|Hne].
    + rewrite lookup_insert_eq. intros [= <-]. unfold len. simpl. lia.
    + rewrite lookup_insert_ne by done. apply Hb.
  - destruct (add_message_run sid m w) as (h' & now & -> & _ & Hms & _).
    { intros h0 Hh. by eapply store_wf_key. }
    unfold written, sessions_of. simpl.
    destruct (decide (sid = k)) as [->|Hne].
    + rewrite lookup_insert_eq. intros [= <-].
      rewrite Hms, appended_bounded. by apply bounded_length.
    + rewrite lookup_insert_ne by done. apply Hb.
  - intros Hk.
    change (delete sid (sessions_of w) !! k = Some h) in Hk.
    apply lookup_delete_Some in Hk as [_ Hk]. by eapply Hb.
Qed.

(** X7. From the freshly constructed store, whatever sessions are
    created, appended to and deleted, every stored session is filed under
    its own id, its [message_count] is the length of its history, and,
    when the cap is positive, no history is longer than the cap. *)
Theorem store_invariants settings calls :
  let w := fold_left store_step calls (boot settings) in
  store_wf w
  /\ (0 < Settings.max_messages_per_session settings ->
      forall k h, sessions_of w !! k = Some h ->
        ConversationHistory.message_count h
        <= Settings.max_messages_per_session settings).
Proof.
  intros w.
  assert (H : store_wf w /\ store_bounded w
              /\ cap_of w = Settings.max_messages_per_session settings).
  { subst w.
    assert (H0 : store_wf (boot settings) /\ store_bounded (boot settings)
                 /\ cap_of (boot settings)
                    = Settings.max_messages_per_session settings).
    { split; [apply store_wf_boot|]. split; [|done].
      intros _ k h. unfold boot, sessions_of. simpl.
      by rewrite lookup_empty. }
    revert H0. generalize (boot settings).
    induction calls as [|c calls IH]; intros w0 (Hwf & Hb & Hc); simpl;
      [done|].
    apply IH. split; [by apply store_step_wf|].
    split; [by apply store_step_bounded|].
    destruct (store_step_frame w0 c) as (_ & _ & _ & ->). done. }
  destruct H as (Hwf & Hb & Hc). split; [done|].
  intros Hcap k h Hk. destruct (Hwf k h Hk) as [_ ->].
  rewrite <- Hc. eapply (Hb ltac:(lia)); done.
Qed.

(** X8. [get_active_sessions] lists each stored session exactly once and
    nothing else: the list is as long as the store is large, every entry
    describes the session stored under its id, with that session's
    [message_count], and every stored session has its entry; the store
    is not changed. *)
Theorem get_active_sessions_lists_store w :
  store_wf w ->
  exists infos,
    get_active_sessions w = (Ok infos, w)
    /\ length infos = size (sessions_of w)
    /\ (forall info, In info infos ->
          exists h,
            sessions_of w !! SessionInfo.session_id info = Some h
            /\ info = _session_to_info (settings w) h)
    /\ (forall k h, sessions_of w !! k = Some h ->
          In (_session_to_info (settings w) h) infos).
Proof.
  intros Hwf. eexists. split; [reflexivity|].
  fold (sessions_of w). split; [|split].
  - rewrite length_map. apply length_map_to_list.
  - intros info Hin. apply in_map_iff in Hin as ([k h] & <- & Hin).
    apply list_elem_of_In, elem_of_map_to_list in Hin.
    exists h. simpl. split; [|done].
    by rewrite (store_wf_key w k h Hwf Hin).
  - intros k h Hk. apply in_map_iff. exists (k, h). split; [done|].
    by apply list_elem_of_In, elem_of_map_to_list.
Qed.

Lemma get_active_sessions_lists_store_witness :
  let w := (add_message (lit "s1") (msg user "hi") sample_world).2 in
  exists infos,
    get_active_sessions w = (Ok infos, w)
    /\ length infos = size (sessions_of w)
    /\ (forall info, In info infos ->
          exists h,
            sessions_of w !! SessionInfo.session_id info = Some h
            /\ info = _session_to_info (settings w) h)
    /\ (forall k h, sessions_of w !! k = Some h ->
          In (_session_to_info (settings w) h) infos).
Proof.
  apply (get_active_sessions_lists_store
           (add_message (lit "s1") (msg user "hi") sample_world).2).
  apply add_message_history. apply store_wf_boot.
Defined.

(** ** The backend manager, beyond the rollback *)

Lemma create_backend_supported settings m b :
  ModelManager._create_backend settings m = Some b ->
  In (ModelManager.backend_type m) supported_backend_types
  /\ ModelBackend.model_name b = ModelManager.model_name m.
Proof.
  unfold ModelManager._create_backend, supported_backend_types, str_eqb.
  cbv zeta.
  repeat (let H := fresh "Heq" in
          case_bool_decide as H;
          [rewrite H; intros [= <-]; simpl; by auto 10|]).
  discriminate.
Qed.

(** X9. [initialize] answers [True] exactly when the settings validate,
    the backend type is a known one, the credential of that backend is
    present and its probe succeeds.  It then leaves the manager ready,
    with a backend that carries the manager's model name; a known type
    is one of the six names.  When it answers [False] the manager is
    exactly as before: a backend that was active stays active. *)
Theorem initialize_outcome settings probe_ok m :
  let r := ModelManager.initialize settings probe_ok m in
  (r.1 = true <->
     Settings.validate_model_config settings = true
     /\ probe_ok = true
     /\ exists b, ModelManager._create_backend settings m = Some b
                  /\ ModelBackend.credentials_missing b = false)
  /\ (r.1 = true ->
        ModelManager.is_ready r.2 = true
        /\ In (ModelManager.backend_type m) supported_backend_types
        /\ exists b, ModelManager.get_backend r.2 = Some b
                     /\ ModelBackend.model_name b = ModelManager.model_name m)
  /\ (r.1 = false -> r.2 = m).
Proof.
  intros r. subst r.
  destruct (initialize_cases settings probe_ok m)
    as [(b & -> & Hv & Hb & Hc & Hp)
       | (-> & [Hv | [Hb | [(b & Hb & Hc) | Hp]]])]; simpl.
  - split; [|split; [|done]].
    + split; [|done]. intros _. split; [done|]. split; [done|]. by exists b.
    + intros _. destruct (create_backend_supported settings m b Hb) as [Hin Hn].
      split; [done|]. split; [done|]. eexists. split; [done|].
      by destruct b.
  - split; [|done]. split; [done|]. intros (? & _). congruence.
  - split; [|done]. split; [done|]. intros (_ & _ & b & ? & _). congruence.
  - split; [|done]. split; [done|]. intros (_ & _ & b' & ? & ?). congruence.
  - split; [|done]. split; [done|]. intros (_ & ? & _). congruence.
Qed.

Lemma shutdown_clears_aux close_ok m :
  ModelManager.get_backend (ModelManager.shutdown close_ok m).2 = None.
Proof.
  unfold ModelManager.shutdown, ModelManager.get_backend.
  by destruct (ModelManager.current_backend m) eqn:Hb.
Qed.

(** X10. [shutdown] always leaves the manager without a backend and not
    ready, also when releasing the backend failed; its result is the
    outcome of the release, and [True] when there was nothing to
    release.  A second [shutdown] answers [True] and changes nothing. *)
Theorem shutdown_clears close_ok close_ok' m :
  let r := ModelManager.shutdown close_ok m in
  ModelManager.get_backend r.2 = None
  /\ ModelManager.is_ready r.2 = false
  /\ r.1 = match ModelManager.current_backend m with
           | Some _ => close_ok
           | None => true
           end
  /\ ModelManager.shutdown close_ok' r.2 = (true, r.2).
Proof.
  unfold ModelManager.shutdown, ModelManager.is_ready,
    ModelManager.get_backend, ModelBackend.unload_model.
  destruct (ModelManager.current_backend m) as [b|] eqn:Hb; simpl.
  - by destruct close_ok.
  - rewrite Hb. simpl. by rewrite andb_false_r.
Qed.

(** X11. A [switch_model] whose new backend initializes answers [True]
    and leaves the manager ready with the new model name; the backend
    type is the lower-cased new type, or the previous type when none
    (or an empty one) is given.  The outcome of a rollback probe plays
    no part. *)
Theorem switch_model_success lower settings close_ok probe_new probe_old
    name type m :
  (ModelManager.initialize settings probe_new
     (ModelManager.retarget lower close_ok name type m)).1 = true ->
  let r := ModelManager.switch_model lower settings close_ok probe_new
             probe_old name type m in
  r.1 = true
  /\ ModelManager.is_ready r.2 = true
  /\ ModelManager.model_name r.2 = name
  /\ ModelManager.backend_type r.2
     = (if opt_truthy type then lower (default [] type)
        else ModelManager.backend_type m)
  /\ exists b, ModelManager.get_backend r.2 = Some b
               /\ ModelBackend.model_name b = name.
Proof.
  intros Hinit r. subst r. unfold ModelManager.switch_model.
  set (m1 := ModelManager.retarget lower close_ok name type m) in *.
  assert (Hname : ModelManager.model_name m1 = name).
  { unfold m1, ModelManager.retarget.
    destruct (ModelManager.current_backend m), (opt_truthy type); done. }
  assert (Htype : ModelManager.backend_type m1
                  = if opt_truthy type then lower (default [] type)
                    else ModelManager.backend_type m).
  { unfold m1, ModelManager.retarget.
    destruct (ModelManager.current_backend m), (opt_truthy type); done. }
  destruct (initialize_cases settings probe_new m1)
    as [(b & Heq & _ & Hb & _) | [Heq _]];
    rewrite Heq in *; [|discriminate].
  simpl. unfold ModelManager.is_ready, ModelManager.get_backend. simpl.
  destruct (create_backend_supported settings m1 b Hb) as [_ Hn].
  split; [done|]. split; [done|]. split; [done|]. split; [done|].
  eexists. split; [done|]. destruct b; simpl in *. congruence.
Qed.

Lemma switch_model_success_witness :
  let r := ModelManager.switch_model ascii_lower sample_settings true true
             false (lit "gpt-4o") (Some (lit "OpenAI")) sample_manager in
  r.1 = true
  /\ ModelManager.is_ready r.2 = true
  /\ ModelManager.model_name r.2 = lit "gpt-4o"
  /\ ModelManager.backend_type r.2
     = (if opt_truthy (Some (lit "OpenAI"))
        then ascii_lower (default [] (Some (lit "OpenAI")))
        else ModelManager.backend_type sample_manager)
  /\ exists b, ModelManager.get_backend r.2 = Some b
               /\ ModelBackend.model_name b = lit "gpt-4o".
Proof.
  apply (switch_model_success ascii_lower sample_settings true true false
           (lit "gpt-4o") (Some (lit "OpenAI")) sample_manager).
  vm_compute. reflexivity.
Defined.

(** X12. In every state the manager can reach, it is ready exactly when
    it holds a backend, and the backend it holds is loaded and carries
    the manager's model name and a known backend type. *)
Theorem manager_ready_iff_backend lower settings m :
  manager_reachable lower settings m ->
  (ModelManager.is_ready m = true <-> ModelManager.get_backend m <> None)
  /\ (forall b, ModelManager.get_backend m = Some b ->
        ModelBackend.is_model_loaded b = true
        /\ ModelBackend.model_name b = ModelManager.model_name m
        /\ In (ModelManager.backend_type m) supported_backend_types).
Proof.
  intros Hreach. apply manager_reachable_inv in Hreach.
  unfold manager_inv, ModelManager.is_ready, ModelManager.get_backend in *.
  destruct (ModelManager.current_backend m) as [b|].
  - destruct Hreach as (Hinit & _ & Hcreate & _ & Hloaded).
    destruct (create_backend_supported settings m _ Hcreate) as [Hin Hn].
    split.
    + rewrite Hinit. unfold ModelBackend.is_model_loaded. by rewrite Hloaded.
    + intros b' [= <-]. split; [done|]. split; [|done].
      by destruct b.
  - split; [|done]. rewrite andb_false_r. split; [discriminate|done].
Qed.

Lemma manager_ready_iff_backend_witness :
  (ModelManager.is_ready sample_manager = true
   <-> ModelManager.get_backend sample_manager <> None)
  /\ (forall b, ModelManager.get_backend sample_manager = Some b ->
        ModelBackend.is_model_loaded b = true
        /\ ModelBackend.model_name b = ModelManager.model_name sample_manager
        /\ In (ModelManager.backend_type sample_manager)
              supported_backend_types).
Proof.
  apply (manager_ready_iff_backend ascii_lower sample_settings sample_manager).
  exists [CallInitialize true]. reflexivity.
Defined.

(** X13. When the settings do not validate (the configured model type
    lacks its credential), no call ever makes the manager ready: neither
    [initialize] nor a [switch_model] to any model or backend type,
    the local one included. *)
Theorem invalid_settings_never_ready lower settings m :
  Settings.validate_model_config settings = false ->
  manager_reachable lower settings m ->
  ModelManager.is_ready m = false /\ ModelManager.get_backend m = None.
Proof.
  intros Hv Hreach. apply manager_reachable_inv in Hreach.
  unfold manager_inv, ModelManager.is_ready, ModelManager.get_backend in *.
  destruct (ModelManager.current_backend m) as [b|].
  - destruct Hreach as (_ & Hv' & _). congruence.
  - by rewrite andb_false_r.
Qed.

(** ** The orchestrator, beyond the failure paths *)

Section OrchestratorMore.
Variable generate_response :
  ModelBackend.t -> list ChatMessage.t -> float -> Z ->
  Result ChatResponse.t.
Variable generate_stream :
  ModelBackend.t -> list ChatMessage.t -> float -> Z -> gen StreamChunk.t.

(** X14. A non-streaming request that the backend answers: the response
    is returned with the request's session id, and the session gains
    the user turn followed by the assistant turn with the response text,
    whatever that text is (an empty one is stored too).  On a session
    without history, with a cap that leaves room for two messages, the
    session then holds exactly these two. *)
Theorem process_chat_request_stores_exchange request w response :
  store_wf w ->
  ChatManager.is_initialized (chat_manager w) = true ->
  ModelManager.is_ready (model_manager w) = true ->
  backend_reply generate_response request w = Ok response ->
  exists w' now now',
    process_chat_request generate_response request w
    = (Ok (ChatResponse.set_session_id (ChatRequest.session_id request)
             response), w')
    /\ history w' (ChatRequest.session_id request)
       = bounded (cap_of w)
           (history w (ChatRequest.session_id request)
            ++ [user_message request now;
                assistant_message request (ChatResponse.message response)
                  (Some (ChatResponse.message_id response)) now'])
    /\ (history w (ChatRequest.session_id request) = [] ->
        cap_of w <= 0 \/ 2 <= cap_of w ->
        exists h,
          sessions_of w' !! ChatRequest.session_id request = Some h
          /\ map ChatMessage.role (ConversationHistory.messages h)
             = [user; assistant]
          /\ ConversationHistory.message_count h = 2).
Proof.
  intros Hwf Hinit Hready Hreply.
  destruct (accept_turn_run request w Hwf Hready)
    as (b & msgs & w1 & now & Hrun & _ & Hhist & Hwf1 & Hframe).
  unfold backend_reply in Hreply. rewrite Hrun in Hreply.
  unfold process_chat_request. unfold_monad. rewrite Hinit. simpl.
  rewrite Hrun. simpl. rewrite Hreply. simpl.
  set (w2 := set_clock (S (clock w1)) w1).
  assert (Hwf2 : store_wf w2) by exact Hwf1.
  match goal with
  | |- context [add_message ?s ?m w2] =>
      destruct (add_message_history s m w2 Hwf2) as (Hok & Hh & _ & Hwf3);
      destruct (add_message s m w2) as [r w3] eqn:Hadd
  end.
  simpl in *. subst r. exists w3, now, (clock w1). split; [done|].
  assert (Hcap : cap_of w2 = cap_of w) by (by destruct Hframe as (_ & _ & _ & ?)).
  assert (Hfinal : history w3 (ChatRequest.session_id request)
                   = bounded (cap_of w)
                       (history w (ChatRequest.session_id request)
                        ++ [user_message request now;
                            assistant_message request
                              (ChatResponse.message response)
                              (Some (ChatResponse.message_id response))
                              (clock w1)])).
  { rewrite Hh, Hcap.
    change (history w2 (ChatRequest.session_id request))
      with (history w1 (ChatRequest.session_id request)).
    rewrite Hhist, bounded_snoc. by rewrite <- app_assoc. }
  split; [exact Hfinal|].
  intros Hempty Hroom. rewrite Hempty in Hfinal. simpl in Hfinal.
  assert (Hboth : history w3 (ChatRequest.session_id request)
                  = [user_message request now;
                     assistant_message request (ChatResponse.message response)
                       (Some (ChatResponse.message_id response)) (clock w1)]).
  { rewrite Hfinal. unfold bounded.
    destruct (Z.ltb_spec 0 (cap_of w)); [|done].
    apply lastn_all. simpl. lia. }
  unfold history in Hboth.
  destruct (sessions_of w3 !! ChatRequest.session_id request) as [h|] eqn:Hs;
    [|done].
  exists h. split; [done|]. destruct (Hwf3 _ _ Hs) as [_ ->].
  rewrite Hboth. done.
Qed.

(** X15. A non-streaming request is refused before anything is stored:
    on an orchestrator that is not initialized it raises [RuntimeError],
    on an initialized one whose backend manager is not ready it raises
    [ModelNotLoadedError]; in both cases the world, the session store
    included, is left exactly as it was, so the user message is not
    kept. *)
Theorem process_chat_request_refused request w :
  (ChatManager.is_initialized (chat_manager w) = false ->
   process_chat_request generate_response request w
   = (Raise (RuntimeError (lit "Chat manager not initialized")), w))
  /\ (ChatManager.is_initialized (chat_manager w) = true ->
      ModelManager.is_ready (model_manager w) = false ->
      process_chat_request generate_response request w
      = (Raise ModelNotLoadedError, w)).
Proof.
  unfold process_chat_request, accept_turn. unfold_monad. split.
  - intros Hi. rewrite Hi. reflexivity.
  - intros Hi Hr. rewrite Hi. simpl. rewrite Hr. reflexivity.
Qed.

(** X16. A streaming request on an initialized orchestrator with a free
    slot but a backend manager that is not ready: the first resumption
    raises [ModelNotLoadedError], the generator is finished, nothing is
    stored, and the slot taken for it is given back. *)
Theorem stream_refused_not_ready request w :
  ChatManager.is_initialized (chat_manager w) = true ->
  active_streams_of w < max_streams_of w ->
  ModelManager.is_ready (model_manager w) = false ->
  exists w',
    anext generate_stream (Created request) w
    = (Raised ModelNotLoadedError, Closed, w')
    /\ session_manager w' = session_manager w
    /\ active_streams_of w' = active_streams_of w.
Proof.
  intros Hinit Hroom Hready. simpl. unfold start. rewrite Hinit. simpl.
  unfold active_streams_of, max_streams_of in *.
  destruct (Z.leb_spec (ChatManager.max_concurrent_streams (chat_manager w))
              (ChatManager.active_streams (chat_manager w))); [lia|].
  unfold acquire, open_stream, accept_turn. unfold modify, bind, gets.
  simpl. rewrite Hready. simpl.
  rewrite leave_run. unfold raise, release, modify. simpl.
  eexists. split; [reflexivity|]. simpl. split; [done|]. lia.
Qed.
End OrchestratorMore.

Lemma prepare_messages_shape sid prompt w :
  exists now,
    _prepare_messages_for_model sid prompt w
    = (Ok (if str_truthy (effective_prompt prompt w)
           then ChatMessage.mk system (effective_prompt prompt w) (clock w)
                  None :: history w sid
           else history w sid),
       set_clock now w).
Proof.
  unfold _prepare_messages_for_model, effective_prompt. unfold_monad.
  rewrite get_session_messages_all. simpl.
  destruct (str_truthy _); simpl.
  - by eexists.
  - exists (clock w). by destruct w.
Qed.

Lemma accept_turn_input request w :
  store_wf w ->
  ModelManager.is_ready (model_manager w) = true ->
  exists backend messages w1 now now',
    accept_turn request w = (Ok (backend, messages), w1)
    /\ history w1 (ChatRequest.session_id request)
       = bounded (cap_of w)
           (history w (ChatRequest.session_id request)
            ++ [user_message request now])
    /\ messages
       = (if str_truthy (effective_prompt (ChatRequest.system_prompt request) w)
          then [ChatMessage.mk system
                  (effective_prompt (ChatRequest.system_prompt request) w)
                  now' None]
          else [])
         ++ history w1 (ChatRequest.session_id request)
    /\ last messages = Some (user_message request now).
Proof.
  intros Hwf Hready. unfold accept_turn. unfold_monad. rewrite Hready.
  simpl.
  destruct (create_session_ensures (ChatRequest.session_id request) w Hwf)
    as (Hok & Hhist & Hwf1).
  pose proof (create_session_frame (ChatRequest.session_id request) None w)
    as Hf1.
  destruct (create_session (ChatRequest.session_id request) None w)
    as [r1 w1]. simpl in *. subst r1.
  set (w2 := set_clock (S (clock w1)) w1).
  set (now := clock w1).
  assert (Hwf2 : store_wf w2) by exact Hwf1.
  destruct (add_message_history (ChatRequest.session_id request)
              (user_message request now) w2 Hwf2)
    as (Hok3 & Hhist3 & Hcap3 & Hwf3).
  pose proof (add_message_frame (ChatRequest.session_id request)
                (user_message request now) w2) as Hf3.
  destruct (add_message (ChatRequest.session_id request)
              (user_message request now) w2) as [r3 w3].
  simpl in *. subst r3.
  destruct (prepare_messages_shape (ChatRequest.session_id request)
              (ChatRequest.system_prompt request) w3)
    as (now4 & ->).
  unfold ModelManager.is_ready in Hready.
  unfold ModelManager.get_backend.
  destruct (ModelManager.current_backend (model_manager w)) as [b|];
    [|by rewrite andb_false_r in Hready].
  assert (Hh : history w3 (ChatRequest.session_id request)
               = bounded (cap_of w)
                   (history w (ChatRequest.session_id request)
                    ++ [user_message request now])).
  { rewrite Hhist3.
    change (history w2 (ChatRequest.session_id request))
      with (history w1 (ChatRequest.session_id request)).
    rewrite Hhist. f_equal. by destruct Hf1 as (_ & _ & _ & ?). }
  assert (Hprompt : effective_prompt (ChatRequest.system_prompt request) w3
                    = effective_prompt (ChatRequest.system_prompt request) w).
  { unfold effective_prompt.
    destruct Hf1 as (Hs1 & _), Hf3 as (Hs3 & _). simpl in Hs3.
    by rewrite Hs3, Hs1. }
  eexists b, _, (set_clock now4 w3), now, (clock w3).
  split; [reflexivity|].
  change (history (set_clock now4 w3) (ChatRequest.session_id request))
    with (history w3 (ChatRequest.session_id request)).
  split; [exact Hh|]. rewrite Hprompt. split.
  - by destruct (str_truthy _).
  - assert (Hlast : last (history w3 (ChatRequest.session_id request))
                    = Some (user_message request now))
      by (rewrite Hh; apply last_bounded).
    destruct (str_truthy _); [|exact Hlast].
    rewrite last_cons, Hlast. done.
Qed.

(** X17. The model input of a request on a ready manager: the stored
    history of the session, which now ends with the request's user
    turn, preceded by one system message when the effective system
    prompt (the request's own non-empty one, else the configured
    default) is non-empty.  The input is never empty and its last
    message is the user turn; the system message is not stored. *)
Theorem model_input_shape request w :
  store_wf w ->
  ModelManager.is_ready (model_manager w) = true ->
  exists backend messages w1 now now',
    accept_turn request w = (Ok (backend, messages), w1)
    /\ history w1 (ChatRequest.session_id request)
       = bounded (cap_of w)
           (history w (ChatRequest.session_id request)
            ++ [user_message request now])
    /\ messages
       = (if str_truthy (effective_prompt (ChatRequest.system_prompt request) w)
          then [ChatMessage.mk system
                  (effective_prompt (ChatRequest.system_prompt request) w)
                  now' None]
          else [])
         ++ history w1 (ChatRequest.session_id request)
    /\ last messages = Some (user_message request now).
Proof. apply accept_turn_input. Qed.


(** ** Streams that are not run to their end *)

Section StreamsCutShort.
Variable generate_stream :
  ModelBackend.t -> list ChatMessage.t -> float -> Z -> gen StreamChunk.t.

Lemma consume_partial request : forall k g full_response message_id w,
  (k <= gen_length g)%nat ->
  exists full_response' message_id' g',
    consume generate_stream k
      (Suspended request full_response message_id g) w
    = (take k (gen_chunks g), None,
       Suspended request full_response' message_id' g', w).
Proof.
  induction k as [|k IH]; intros g full mid w Hk.
  - by eexists _, _, _.
  - destruct g as [c g1| |e]; simpl in Hk; [|lia|lia].
    rewrite consume_S. cbn [anext resume].
    destruct (IH g1 (full ++ StreamChunk.content c)
                match mid with
                | Some _ => mid
                | None => Some (StreamChunk.message_id c)
                end w ltac:(lia)) as (full' & mid' & g' & ->).
    by eexists _, _, _.
Qed.

(** X18. A consumer that takes some but not more chunks than the backend
    yields and then closes the generator (a disconnect): it has received
    the first chunks of the backend's stream in order; after the close
    the session ends with the user turn, no assistant turn is stored
    however much text was streamed, and the slot held meanwhile is
    free again. *)
Theorem stream_cancel_discards request w k :
  store_wf w ->
  ChatManager.is_initialized (chat_manager w) = true ->
  active_streams_of w < max_streams_of w ->
  ModelManager.is_ready (model_manager w) = true ->
  (1 <= k <= gen_length (backend_stream generate_stream request w))%nat ->
  exists st w1 now,
    consume generate_stream k (Created request) w
    = (take k (gen_chunks (backend_stream generate_stream request w)),
       None, st, w1)
    /\ active_streams_of w1 = active_streams_of w + 1
    /\ (aclose st w1).1 = Closed
    /\ history (aclose st w1).2 (ChatRequest.session_id request)
       = bounded (cap_of w)
           (history w (ChatRequest.session_id request)
            ++ [user_message request now])
    /\ active_streams_of (aclose st w1).2 = active_streams_of w.
Proof.
  intros Hwf Hinit Hroom Hready Hk.
  destruct (start_run generate_stream request w Hwf Hinit Hroom Hready)
    as (w1 & now & Hstart & Hhist & Hwf1 & Hcap & Hact).
  set (g := backend_stream generate_stream request w) in *.
  destruct k as [|k]; [lia|].
  destruct (consume_partial request (S k) g [] None w1 ltac:(lia))
    as (full' & mid' & g' & Hpart).
  rewrite consume_S in Hpart. cbn [anext] in Hpart.
  rewrite consume_S. cbn [anext]. rewrite Hstart, Hpart.
  eexists _, w1, now. split; [reflexivity|]. split; [exact Hact|].
  simpl. split; [done|]. split; [exact Hhist|].
  unfold active_streams_of in *. simpl. lia.
Qed.

Lemma relay_S fuel st w :
  relay generate_stream (S fuel) st w
  = match anext generate_stream st w with
    | (Yielded chunk, st', w') =>
        if StreamChunk.is_final chunk then ([chunk], None, st', w')
        else
          match relay generate_stream fuel st' w' with
          | (chunks, e, st'', w'') => (chunk :: chunks, e, st'', w'')
          end
    | (Stopped, st', w') => ([], Some Exhausted, st', w')
    | (Raised e, st', w') => ([], Some (Aborted e), st', w')
    end.
Proof. reflexivity. Qed.

Lemma relay_until_final request final tail : forall body full mid w,
  Forall (fun c => StreamChunk.is_final c = false) body ->
  StreamChunk.is_final final = true ->
  exists full' mid',
    relay generate_stream (S (length body))
      (Suspended request full mid (yields (body ++ [final]) tail)) w
    = (body ++ [final], None, Suspended request full' mid' tail, w).
Proof.
  induction body as [|c body IH]; intros full mid w Hbody Hfinal.
  - rewrite relay_S. cbn [app yields anext resume]. rewrite Hfinal.
    by eexists _, _.
  - apply Forall_cons in Hbody as [Hc Hbody].
    cbn [length]. rewrite relay_S. cbn [app yields anext resume]. rewrite Hc.
    destruct (IH (full ++ StreamChunk.content c)
                match mid with
                | Some _ => mid
                | None => Some (StreamChunk.message_id c)
                end w Hbody Hfinal) as (full' & mid' & ->).
    by eexists _, _.
Qed.

(** X19. A streaming endpoint serving a request whose backend stream is
    some non-final chunks followed by a final one: the client is sent
    every chunk, the final one included, and the loop is left there.
    The orchestrator's generator is then never resumed past its last
    [yield], so the code that stores the assistant turn does not run:
    the session ends with the user turn, and the slot is released. *)
Theorem stream_endpoint_stores_no_reply request w body final :
  store_wf w ->
  ChatManager.is_initialized (chat_manager w) = true ->
  active_streams_of w < max_streams_of w ->
  ModelManager.is_ready (model_manager w) = true ->
  gen_chunks (backend_stream generate_stream request w) = body ++ [final] ->
  Forall (fun c => StreamChunk.is_final c = false) body ->
  StreamChunk.is_final final = true ->
  exists w' now,
    stream_endpoint generate_stream (S (length body)) request w
    = (body ++ [final], None, w')
    /\ history w' (ChatRequest.session_id request)
       = bounded (cap_of w)
           (history w (ChatRequest.session_id request)
            ++ [user_message request now])
    /\ active_streams_of w' = active_streams_of w.
Proof.
  intros Hwf Hinit Hroom Hready Hchunks Hbody Hfinal.
  destruct (start_run generate_stream request w Hwf Hinit Hroom Hready)
    as (w1 & now & Hstart & Hhist & Hwf1 & Hcap & Hact).
  set (g := backend_stream generate_stream request w) in *.
  pose proof (gen_yields g) as Hg. rewrite Hchunks in Hg.
  destruct (relay_until_final request final
              (match gen_end g with
               | Some e => GRaise e
               | None => GReturn
               end) body [] None w1 Hbody Hfinal) as (full' & mid' & Hrel).
  rewrite <- Hg in Hrel. rewrite relay_S in Hrel. cbn [anext] in Hrel.
  unfold stream_endpoint. rewrite relay_S. cbn [anext].
  rewrite Hstart, Hrel. simpl.
  eexists _, now. split; [reflexivity|]. split; [exact Hhist|].
  unfold active_streams_of in *. simpl. lia.
Qed.
End StreamsCutShort.

(** ** The OpenAI stream, beyond its numbering *)

Lemma final_chunk_chunks sid mid n :
  Forall (fun c =>
            StreamChunk.message_id c = mid
            /\ Some (StreamChunk.session_id c) = sid
            /\ StreamChunk.is_final c = true
            /\ StreamChunk.content c = [])
    (gen_chunks (OpenAI.final_chunk sid mid n))
  /\ (gen_end (OpenAI.final_chunk sid mid n) = None
      \/ gen_end (OpenAI.final_chunk sid mid n) = Some GenerationError).
Proof.
  unfold OpenAI.final_chunk, OpenAI.yield_chunk.
  destruct sid as [s|]; simpl; [|by auto].
  split; [|by left]. by repeat constructor.
Qed.

Lemma chunk_content_truthy choices content :
  OpenAI.chunk_content choices = Some content -> content <> [].
Proof.
  unfold OpenAI.chunk_content. destruct choices as [|c ?]; [done|].
  destruct (OpenAI.delta_content c) as [[|x s]|]; simpl; try done.
  by intros [= <-].
Qed.

(** What every chunk of a stream of the OpenAI backend satisfies. *)
Lemma stream_loop_chunks sid mid stream : forall n,
  Forall (fun c =>
            StreamChunk.message_id c = mid
            /\ Some (StreamChunk.session_id c) = sid
            /\ (StreamChunk.is_final c = true <-> StreamChunk.content c = []))
    (gen_chunks (OpenAI.stream_loop sid mid n stream))
  /\ (gen_end (OpenAI.stream_loop sid mid n stream) = None
      \/ gen_end (OpenAI.stream_loop sid mid n stream) = Some GenerationError).
Proof.
  assert (Hfinal : forall n,
    Forall (fun c =>
              StreamChunk.message_id c = mid
              /\ Some (StreamChunk.session_id c) = sid
              /\ (StreamChunk.is_final c = true
                  <-> StreamChunk.content c = []))
      (gen_chunks (OpenAI.final_chunk sid mid n))
    /\ (gen_end (OpenAI.final_chunk sid mid n) = None
        \/ gen_end (OpenAI.final_chunk sid mid n) = Some GenerationError)).
  { intros n. destruct (final_chunk_chunks sid mid n) as [Hf He].
    split; [|done]. eapply Forall_impl; [exact Hf|].
    intros c (? & ? & ? & ?). by repeat split. }
  induction stream as [choices rest IH| |]; intros n.
  - cbn [OpenAI.stream_loop].
    destruct (OpenAI.chunk_content choices) as [content|] eqn:Hc.
    + apply chunk_content_truthy in Hc.
      unfold OpenAI.yield_chunk. destruct sid as [s|]; [|by auto].
      cbn [gen_chunks gen_end].
      assert (Hrest :
        Forall (fun c =>
                  StreamChunk.message_id c = mid
                  /\ Some (StreamChunk.session_id c) = Some s
                  /\ (StreamChunk.is_final c = true
                      <-> StreamChunk.content c = []))
          (gen_chunks (if OpenAI.chunk_finished choices
                       then OpenAI.final_chunk (Some s) mid (n + 1)
                       else OpenAI.stream_loop (Some s) mid (n + 1) rest))
        /\ (gen_end (if OpenAI.chunk_finished choices
                     then OpenAI.final_chunk (Some s) mid (n + 1)
                     else OpenAI.stream_loop (Some s) mid (n + 1) rest)
            = None
            \/ gen_end (if OpenAI.chunk_finished choices
                        then OpenAI.final_chunk (Some s) mid (n + 1)
                        else OpenAI.stream_loop (Some s) mid (n + 1) rest)
               = Some GenerationError)).
      { destruct (OpenAI.chunk_finished choices); [apply Hfinal | apply IH]. }
      destruct Hrest as [Hall Hend]. split; [|exact Hend].
      constructor; [|exact Hall]. simpl. by repeat split.
    + destruct (OpenAI.chunk_finished choices); [apply Hfinal | apply IH].
  - apply Hfinal.
  - by auto.
Qed.

(** X20. In every stream of the OpenAI backend, complete or not, a chunk
    is final exactly when its content is empty: chunks are only made
    from non-empty pieces of text, and the final chunk carries none.
    All chunks carry the message id drawn for the call. *)
Theorem generate_stream_final_iff_empty api uuid4 self messages temperature
    max_tokens top_p top_k :
  Forall (fun c =>
            StreamChunk.message_id c = uuid4
            /\ (StreamChunk.is_final c = true <-> StreamChunk.content c = []))
    (gen_chunks (OpenAI.generate_stream api uuid4 self messages temperature
                   max_tokens top_p top_k)).
Proof.
  unfold OpenAI.generate_stream.
  destruct (negb (ModelBackend.is_loaded self)); [constructor|].
  destruct (last messages) as [m|]; [|constructor].
  eapply Forall_impl; [apply stream_loop_chunks|].
  intros c (? & _ & ?). done.
Qed.

(** X21. [generate_stream] of the OpenAI backend can end in three ways
    only: it returns, or it raises [ModelNotLoadedError], which it does
    exactly when the backend is not loaded and then before any chunk, or
    [IndexError], on an empty message list of a loaded backend, or
    [GenerationError]. *)
Theorem generate_stream_errors api uuid4 self messages temperature
    max_tokens top_p top_k :
  let g := OpenAI.generate_stream api uuid4 self messages temperature
             max_tokens top_p top_k in
  (ModelBackend.is_loaded self = false -> g = GRaise ModelNotLoadedError)
  /\ (ModelBackend.is_loaded self = true -> messages = [] ->
      g = GRaise IndexError)
  /\ (ModelBackend.is_loaded self = true -> messages <> [] ->
      gen_end g = None \/ gen_end g = Some GenerationError).
Proof.
  intros g. subst g. unfold OpenAI.generate_stream.
  split; [|split].
  - by intros ->.
  - by intros -> ->.
  - intros -> Hne. simpl.
    destruct (last messages) as [m|] eqn:Hl.
    + apply stream_loop_chunks.
    + apply last_None in Hl. done.
Qed.

Lemma stream_loop_stops sid mid chunks choices rest rest' : forall n,
  OpenAI.chunk_finished choices = true ->
  OpenAI.stream_loop sid mid n (upstream_of (chunks ++ [choices]) rest)
  = OpenAI.stream_loop sid mid n (upstream_of (chunks ++ [choices]) rest').
Proof.
  intros n Hfin. revert n.
  induction chunks as [|c chunks IH]; intros n; cbn [app upstream_of].
  - cbn [OpenAI.stream_loop]. by rewrite Hfin.
  - cbn [OpenAI.stream_loop]. by rewrite !IH.
Qed.

(** X22. The OpenAI stream stops reading the provider at the first
    chunk that carries a finish reason: two providers that agree up to
    such a chunk give the same stream of chunks and the same ending,
    whatever either would have sent, or however it would have failed,
    afterwards. *)
Theorem generate_stream_stops_at_finish api api' uuid4 self messages
    temperature max_tokens top_p top_k chunks choices rest rest' :
  OpenAI.chunk_finished choices = true ->
  (forall rq, api rq = upstream_of (chunks ++ [choices]) rest) ->
  (forall rq, api' rq = upstream_of (chunks ++ [choices]) rest') ->
  OpenAI.generate_stream api uuid4 self messages temperature max_tokens
    top_p top_k
  = OpenAI.generate_stream api' uuid4 self messages temperature max_tokens
      top_p top_k.
Proof.
  intros Hfin Hapi Hapi'. unfold OpenAI.generate_stream.
  destruct (negb (ModelBackend.is_loaded self)); [done|].
  destruct (last messages) as [m|]; [|done].
  rewrite Hapi, Hapi'. by apply stream_loop_stops.
Qed.

(** X23. A streaming request served by the OpenAI backend on a ready
    manager: every chunk of the backend's stream carries the session id
    of the request and the message id drawn for the call, and the
    stream either returns or raises [GenerationError]; it meets neither
    an unloaded backend nor an empty model input. *)
Theorem openai_stream_of_request api uuid4 request w :
  store_wf w ->
  ModelManager.is_ready (model_manager w) = true ->
  let g := backend_stream (openai_backend api uuid4) request w in
  Forall (fun c =>
            StreamChunk.session_id c = ChatRequest.session_id request
            /\ StreamChunk.message_id c = uuid4)
    (gen_chunks g)
  /\ (gen_end g = None \/ gen_end g = Some GenerationError).
Proof.
  intros Hwf Hready g. subst g.
  destruct (accept_turn_run request (acquire w).2 Hwf Hready)
    as (b & msgs & w1 & now & Hrun & Hb & _).
  destruct (accept_turn_input request (acquire w).2 Hwf Hready)
    as (b' & msgs' & w1' & now' & now'' & Hrun' & _ & _ & Hlast).
  rewrite Hrun in Hrun'. injection Hrun' as <- <- <-.
  assert (Hloaded : ModelBackend.is_loaded b = true).
  { unfold ModelManager.is_ready in Hready. simpl in Hb, Hready.
    rewrite Hb in Hready. by apply andb_prop in Hready as [_ ?]. }
  unfold backend_stream, open_stream. unfold_monad. rewrite Hrun. simpl.
  unfold openai_backend, OpenAI.generate_stream.
  rewrite Hloaded, Hlast. simpl.
  match goal with
  | |- context [OpenAI.stream_loop ?s ?m ?n ?u] =>
      destruct (stream_loop_chunks s m u n) as [Hall Hend]
  end.
  split; [|exact Hend].
  eapply Forall_impl; [exact Hall|].
  intros c (Hm & Hs & _). split; [|done].
  change (dict_get _ _ _) with (Some (ChatRequest.session_id request)) in Hs.
  by injection Hs.
Qed.

Lemma openai_stream_of_request_witness :
  let g := backend_stream (openai_backend failing_api (lit "m-1"))
             sample_request sample_ready_world in
  Forall (fun c =>
            StreamChunk.session_id c = ChatRequest.session_id sample_request
            /\ StreamChunk.message_id c = lit "m-1")
    (gen_chunks g)
  /\ (gen_end g = None \/ gen_end g = Some GenerationError).
Proof.
  apply (openai_stream_of_request failing_api (lit "m-1") sample_request
           sample_ready_world).
  - apply store_wf_sample_ready.
  - vm_compute. reflexivity.
Defined.

(** ** The life cycle of the orchestrator *)

(** X24. [ChatManager.initialize] never raises and answers what the
    backend manager's [initialize] answers.  On [True] the orchestrator
    is initialized and the backend manager ready, so requests are
    served; on [False] the flag is left as it was.  The session store is
    not touched. *)
Theorem chat_initialize_outcome probe_ok w :
  let r := ModelManager.initialize (settings w) probe_ok (model_manager w) in
  exists w',
    chat_initialize probe_ok w = (Ok r.1, w')
    /\ model_manager w' = r.2
    /\ session_manager w' = session_manager w
    /\ ChatManager.is_initialized (chat_manager w')
       = (if r.1 then true else ChatManager.is_initialized (chat_manager w))
    /\ (r.1 = true -> ModelManager.is_ready (model_manager w') = true).
Proof.
  intros r. subst r.
  unfold chat_initialize, on_model_manager, session_initialize.
  unfold_monad.
  destruct (initialize_cases (settings w) probe_ok (model_manager w))
    as [(b & Heq & _) | [Heq _]]; rewrite Heq; simpl.
  - eexists. split; [reflexivity|]. simpl.
    unfold ModelManager.is_ready. simpl. by repeat split.
  - eexists. split; [reflexivity|]. simpl. by repeat split.
Qed.

Section Shutdown.
Variable generate_response :
  ModelBackend.t -> list ChatMessage.t -> float -> Z ->
  Result ChatResponse.t.
Variable generate_stream :
  ModelBackend.t -> list ChatMessage.t -> float -> Z -> gen StreamChunk.t.

(** X25. After [ChatManager.shutdown] the orchestrator is not
    initialized and the backend manager holds no backend, while the
    stored sessions and the stream counter are as before.  Every request
    that follows, streaming or not, is refused with [RuntimeError]
    before anything is stored. *)
Theorem chat_shutdown_refuses close_ok request w :
  let w' := (chat_shutdown close_ok w).2 in
  ChatManager.is_initialized (chat_manager w') = false
  /\ ModelManager.get_backend (model_manager w') = None
  /\ session_manager w' = session_manager w
  /\ active_streams_of w' = active_streams_of w
  /\ process_chat_request generate_response request w'
     = (Raise (RuntimeError (lit "Chat manager not initialized")), w')
  /\ anext generate_stream (Created request) w'
     = (Raised (RuntimeError (lit "Chat manager not initialized")),
        Closed, w').
Proof.
  intros w'. subst w'.
  unfold chat_shutdown, on_model_manager, session_shutdown. unfold_monad.
  simpl.
  pose proof (shutdown_clears_aux close_ok (model_manager w)) as Hnone.
  destruct (ModelManager.shutdown close_ok (model_manager w)) as [r m].
  simpl in *. split; [done|]. split; [done|]. split; [done|].
  split; [done|]. split; reflexivity.
Qed.
End Shutdown.

(** ** Parameter validation, again *)

Lemma clamp_float_idem x :
  max_float 0 (min_float 1 (max_float 0 (min_float 1 x)))
  = max_float 0 (min_float 1 x).
Proof.
  assert (H : (max_float 0 (min_float 1 x) = x
               /\ (x <? 1)%float = true /\ (0 <? x)%float = true)
              \/ max_float 0 (min_float 1 x) = 0%float
              \/ max_float 0 (min_float 1 x) = 1%float).
  { unfold max_float, min_float.
    destruct (x <? 1)%float eqn:H1; [|by right; right].
    destruct (0 <? x)%float eqn:H0; [by left | by right; left]. }
  destruct H as [(Hx & H1 & H0) | [H | H]].
  - rewrite Hx. unfold max_float, min_float. by rewrite H1, H0.
  - rewrite H. reflexivity.
  - rewrite H. reflexivity.
Qed.

(** X26. [validate_parameters] is idempotent: validated parameters
    passed through it again come back unchanged. *)
Theorem validate_parameters_idempotent (kwargs : Kwargs.t) :
  let p := ModelBackend.validate_parameters kwargs in
  ModelBackend.validate_parameters
    (Kwargs.mk (Some (Params.temperature p)) (Some (Params.max_tokens p))
       (Some (Params.top_p p)) (Some (Params.top_k p)))
  = p.
Proof.
  intros p. subst p. unfold ModelBackend.validate_parameters. simpl.
  rewrite !clamp_float_idem. f_equal.
  - rewrite !clamp_int by lia. lia.
  - rewrite !floor_int. lia.
Qed.

(** ** The helpers *)

Lemma total_tokens_app a b :
  total_tokens (a ++ b) = total_tokens a + total_tokens b.
Proof.
  unfold total_tokens. induction a as [|m a IH]; simpl; [done|].
  rewrite IH. lia.
Qed.

Lemma select_recent_inv available : forall reversed current selected,
  current <= available ->
  exists older kept,
    select_recent reversed available current selected = kept ++ selected
    /\ rev reversed = older ++ kept
    /\ current + total_tokens kept <= available
    /\ (older = []
        \/ exists older' m,
             older = older' ++ [m]
             /\ available < current + total_tokens kept + message_tokens m).
Proof.
  induction reversed as [|m rest IH]; intros current selected Hcur.
  - exists [], []. simpl. repeat split; [unfold total_tokens; simpl; lia|].
    by left.
  - cbn [select_recent rev].
    destruct (Z.leb_spec (current + message_tokens m) available) as [Hfit|Hno].
    + destruct (IH (current + message_tokens m) (m :: selected) Hfit)
        as (older & kept & -> & Hrev & Hsum & Hmax).
      exists older, (kept ++ [m]). rewrite Hrev, <- !app_assoc.
      rewrite total_tokens_app.
      assert (Hm : total_tokens [m] = message_tokens m)
        by (unfold total_tokens; simpl; lia).
      rewrite Hm. split; [done|]. split; [done|]. split; [lia|].
      destruct Hmax as [->|(older' & m' & -> & Hlt)]; [by left|].
      right. exists older', m'. split; [done|]. lia.
    + exists (rev rest ++ [m]), []. rewrite app_nil_r.
      split; [done|]. split; [done|].
      split; [unfold total_tokens; simpl; lia|].
      right. exists (rev rest), m. split; [done|].
      unfold total_tokens. simpl. lia.
Qed.

Lemma filter_app_filter {A} (f : A -> bool) (l s : list A) :
  Forall (fun x => f x = false) s ->
  List.filter f (List.filter f l ++ s) = List.filter f l.
Proof.
  intros Hs. rewrite List.filter_app.
  assert (H1 : List.filter f (List.filter f l) = List.filter f l).
  { induction l as [|x l IH]; simpl; [done|].
    destruct (f x) eqn:Hx; simpl; [|done]. by rewrite Hx, IH. }
  assert (H2 : List.filter f s = []).
  { induction Hs as [|x s Hx _ IH]; simpl; [done|]. by rewrite Hx. }
  by rewrite H1, H2, app_nil_r.
Qed.

Lemma truncate_conversation_history_body messages max_tokens :
  truncate_conversation_history messages max_tokens
  = (if max_tokens
        - total_tokens (List.filter is_system_message messages) <=? 0
     then List.filter is_system_message messages
     else List.filter is_system_message messages
          ++ select_recent
               (rev (List.filter (fun m => negb (is_system_message m))
                       messages))
               (max_tokens
                - total_tokens (List.filter is_system_message messages))
               0 []).
Proof.
  destruct messages as [|m0 messages']; [|reflexivity].
  simpl. by destruct (_ <=? _).
Qed.

(** X27. [truncate_conversation_history] returns every system message
    of the input, in order, followed by the most recent of the other
    messages, in order: a tail of them.  When the system messages alone
    are within the limit, the estimated tokens of the result are within
    the limit, and the tail is as long as can be: it is all the other
    messages, or the next older message would go over.  When the system
    messages alone reach the limit, they are returned, all of them, and
    nothing else. *)
Theorem truncate_keeps_system_and_recent messages max_tokens :
  let result := truncate_conversation_history messages max_tokens in
  let system_messages := List.filter is_system_message messages in
  let other_messages :=
    List.filter (fun m => negb (is_system_message m)) messages in
  exists older kept,
    result = system_messages ++ kept
    /\ other_messages = older ++ kept
    /\ List.filter is_system_message result = system_messages
    /\ (max_tokens <= total_tokens system_messages -> kept = [])
    /\ (total_tokens system_messages < max_tokens ->
        total_tokens result <= max_tokens
        /\ (older = []
            \/ exists older' m,
                 older = older' ++ [m]
                 /\ max_tokens < total_tokens result + message_tokens m)).
Proof.
  intros result system_messages other_messages. subst result.
  assert (Hothers : forall s older,
            other_messages = older ++ s ->
            Forall (fun x => is_system_message x = false) s).
  { intros s older Heq. apply Forall_forall. intros x Hx.
    assert (Hin : In x other_messages)
      by (rewrite Heq; apply in_or_app; right; by apply list_elem_of_In).
    apply List.filter_In in Hin as [_ Hn]. by apply negb_true_iff. }
  rewrite truncate_conversation_history_body.
  fold system_messages other_messages.
  destruct (Z.leb_spec (max_tokens - total_tokens system_messages) 0)
    as [Hfull|Hroom].
  - exists other_messages, []. rewrite !app_nil_r.
    split; [done|]. split; [done|]. split.
    { rewrite <- (app_nil_r system_messages) at 1.
      by apply filter_app_filter. }
    split; [done|]. lia.
  - destruct (select_recent_inv (max_tokens - total_tokens system_messages)
                (rev other_messages) 0 [] ltac:(lia))
      as (older & kept & Hsel & Hrev & Hsum & Hmax).
    rewrite rev_involutive in Hrev. rewrite app_nil_r in Hsel.
    exists older, kept. rewrite Hsel.
    split; [done|]. split; [done|]. split.
    { apply filter_app_filter. by eapply Hothers. }
    split; [lia|]. intros _. rewrite total_tokens_app. split; [lia|].
    destruct Hmax as [->|(older' & m & -> & Hlt)]; [by left|].
    right. exists older', m. split; [done|]. lia.
Qed.

Lemma drop_id_chars_split s :
  exists body,
    s = body ++ drop_id_chars s
    /\ forallb id_char body = true
    /\ match drop_id_chars s with
       | [] => True
       | c :: _ => id_char c = false
       end.
Proof.
  induction s as [|c s IH].
  - by exists [].
  - cbn [drop_id_chars]. destruct (id_char c) eqn:Hc; [|by exists []].
    destruct IH as (body & Hs & Hall & Hrest).
    exists (c :: body). simpl. rewrite Hc, Hall. split; [by f_equal|done].
Qed.

Lemma drop_id_chars_app body rest :
  forallb id_char body = true ->
  drop_id_chars (body ++ rest) = drop_id_chars rest.
Proof.
  induction body as [|c body IH]; simpl; [done|].
  intros H. apply andb_prop in H as [-> H]. by apply IH.
Qed.

(** X28. [validate_session_id] accepts exactly the ids of 5 to 100
    characters that consist of letters, digits, hyphens and underscores,
    optionally followed by one newline: the pattern's [$] lets an id
    that ends in a newline through. *)
Theorem validate_session_id_accepts s :
  validate_session_id s = true <->
  5 <= len s <= 100
  /\ exists body,
       body <> [] /\ forallb id_char body = true
       /\ (s = body \/ s = body ++ [10%N]).
Proof.
  unfold validate_session_id, matches_id_pattern. split.
  - destruct (negb (str_truthy s) || (len s <? 5) || (100 <? len s)) eqn:Hg;
      [discriminate|].
    apply orb_false_elim in Hg as [Hg H100].
    apply orb_false_elim in Hg as [_ H5].
    apply Z.ltb_ge in H5, H100. intros Hm. split; [lia|].
    apply andb_prop in Hm as [Hne Hrest].
    destruct (drop_id_chars_split s) as (body & Hs & Hall & _).
    exists body. split.
    + intros ->. simpl in Hs. rewrite <- Hs in Hne.
      by rewrite bool_decide_eq_true_2 in Hne.
    + split; [done|]. apply orb_prop in Hrest as [Hr|Hr];
        apply bool_decide_eq_true_1 in Hr; rewrite Hr in Hs.
      * left. by rewrite app_nil_r in Hs.
      * by right.
  - intros (Hlen & body & Hne & Hall & Hs).
    assert (Htruthy : str_truthy s = true).
    { destruct s; [|done]. unfold len in Hlen. simpl in Hlen. lia. }
    rewrite Htruthy. simpl.
    destruct (Z.ltb_spec (len s) 5); [lia|].
    destruct (Z.ltb_spec 100 (len s)); [lia|]. simpl.
    assert (Hdrop : drop_id_chars s = [] /\ s = body
                    \/ drop_id_chars s = [10%N] /\ s = body ++ [10%N]).
    { destruct Hs as [->| ->].
      - left. split; [|done].
        rewrite <- (app_nil_r body). by rewrite drop_id_chars_app.
      - right. split; [|done]. by rewrite drop_id_chars_app. }
    assert (Hshort : drop_id_chars s <> s).
    { intros Heq. destruct Hdrop as [[Hd ->]|[Hd ->]]; rewrite Hd in Heq.
      - done.
      - apply (f_equal length) in Heq. rewrite length_app in Heq.
        destruct body; [done|]. simpl in Heq. lia. }
    rewrite (bool_decide_eq_false_2 _ Hshort). simpl.
    destruct Hdrop as [[-> _]|[-> _]]; done.
Qed.

Example session_id_with_newline :
  validate_session_id (lit "user-1" ++ [10%N]) = true
  /\ validate_session_id (lit "user 1") = false
  /\ validate_session_id (lit "abcd") = false.
Proof. vm_compute. repeat split. Qed.

(** ** The session routes *)

(** X29. [DELETE /sessions/{id}] answers with success for every id, a
    stored one or not; it never answers 404.  The session is gone
    afterwards, and [GET /sessions/{id}] answers 404 exactly for the ids
    that are not stored, and the stored session otherwise. *)
Theorem session_routes sid w :
  (route_clear_session sid w).1 = Respond tt
  /\ (route_get_session sid (route_clear_session sid w).2).1
     = HTTPException 404
  /\ (route_get_session sid w).2 = w
  /\ (route_get_session sid w).1
     = match sessions_of w !! sid with
       | Some h => Respond h
       | None => HTTPException 404
       end.
Proof.
  unfold route_clear_session, route_get_session, clear_conversation,
    get_conversation_history, get_session.
  unfold try_except. rewrite delete_session_run. unfold gets, ret. simpl.
  fold (sessions_of w). rewrite lookup_delete_eq.
  by destruct (sessions_of w !! sid).
Qed.

(** ** The further properties on the sample inputs *)

Lemma invalid_settings_never_ready_witness :
  let m := fold_left (manager_step ascii_lower keyless_settings)
             [CallInitialize true;
              CallSwitch true true true (lit "TinyLlama") (Some (lit "local"))]
             (ModelManager.__init__ ascii_lower keyless_settings) in
  ModelManager.is_ready m = false /\ ModelManager.get_backend m = None.
Proof.
  apply (invalid_settings_never_ready ascii_lower keyless_settings).
  - vm_compute. reflexivity.
  - by eexists.
Defined.

Lemma process_chat_request_stores_exchange_witness :
  exists w' now now',
    process_chat_request sample_response sample_request sample_ready_world
    = (Ok (ChatResponse.set_session_id (ChatRequest.session_id sample_request)
             (ChatResponse.mk (lit "Hello") (lit "unknown") (lit "m-1")
                (lit "gpt-4") 0.5%float (Some 1) (Some (lit "stop")))), w')
    /\ history w' (ChatRequest.session_id sample_request)
       = bounded (cap_of sample_ready_world)
           (history sample_ready_world (ChatRequest.session_id sample_request)
            ++ [user_message sample_request now;
                assistant_message sample_request (lit "Hello")
                  (Some (lit "m-1")) now'])
    /\ (history sample_ready_world (ChatRequest.session_id sample_request)
        = [] ->
        cap_of sample_ready_world <= 0 \/ 2 <= cap_of sample_ready_world ->
        exists h,
          sessions_of w' !! ChatRequest.session_id sample_request = Some h
          /\ map ChatMessage.role (ConversationHistory.messages h)
             = [user; assistant]
          /\ ConversationHistory.message_count h = 2).
Proof.
  apply (process_chat_request_stores_exchange sample_response sample_request
           sample_ready_world
           (ChatResponse.mk (lit "Hello") (lit "unknown") (lit "m-1")
              (lit "gpt-4") 0.5%float (Some 1) (Some (lit "stop")))).
  - apply store_wf_sample_ready.
  - reflexivity.
  - vm_compute. reflexivity.
  - vm_compute. reflexivity.
Defined.

Lemma stream_refused_not_ready_witness :
  exists w',
    anext (openai_backend sample_api (lit "m-1")) (Created sample_request)
      unready_world
    = (Raised ModelNotLoadedError, Closed, w')
    /\ session_manager w' = session_manager unready_world
    /\ active_streams_of w' = active_streams_of unready_world.
Proof.
  apply (stream_refused_not_ready (openai_backend sample_api (lit "m-1"))
           sample_request unready_world).
  - reflexivity.
  - vm_compute. reflexivity.
  - vm_compute. reflexivity.
Defined.

Lemma model_input_shape_witness :
  exists backend messages w1 now now',
    accept_turn sample_request sample_ready_world
    = (Ok (backend, messages), w1)
    /\ history w1 (ChatRequest.session_id sample_request)
       = bounded (cap_of sample_ready_world)
           (history sample_ready_world (ChatRequest.session_id sample_request)
            ++ [user_message sample_request now])
    /\ messages
       = (if str_truthy
               (effective_prompt (ChatRequest.system_prompt sample_request)
                  sample_ready_world)
          then [ChatMessage.mk system
                  (effective_prompt (ChatRequest.system_prompt sample_request)
                     sample_ready_world)
                  now' None]
          else [])
         ++ history w1 (ChatRequest.session_id sample_request)
    /\ last messages = Some (user_message sample_request now).
Proof.
  apply (model_input_shape sample_request sample_ready_world).
  - apply store_wf_sample_ready.
  - vm_compute. reflexivity.
Defined.

Lemma stream_cancel_discards_witness :
  exists st w1 now,
    consume (openai_backend sample_api (lit "m-1")) 2
      (Created sample_request) sample_ready_world
    = (take 2 (gen_chunks (backend_stream
                             (openai_backend sample_api (lit "m-1"))
                             sample_request sample_ready_world)),
       None, st, w1)
    /\ active_streams_of w1 = active_streams_of sample_ready_world + 1
    /\ (aclose st w1).1 = Closed
    /\ history (aclose st w1).2 (ChatRequest.session_id sample_request)
       = bounded (cap_of sample_ready_world)
           (history sample_ready_world (ChatRequest.session_id sample_request)
            ++ [user_message sample_request now])
    /\ active_streams_of (aclose st w1).2
       = active_streams_of sample_ready_world.
Proof.
  apply (stream_cancel_discards (openai_backend sample_api (lit "m-1"))
           sample_request sample_ready_world 2).
  - apply store_wf_sample_ready.
  - reflexivity.
  - vm_compute. reflexivity.
  - vm_compute. reflexivity.
  - vm_compute. split; repeat constructor.
Defined.

Lemma stream_endpoint_stores_no_reply_witness :
  exists w' now,
    stream_endpoint (openai_backend sample_api (lit "m-1")) 3 sample_request
      sample_ready_world
    = ([StreamChunk.mk (lit "Hel") (lit "s1") (lit "m-1") 0 false;
        StreamChunk.mk (lit "lo ") (lit "s1") (lit "m-1") 1 false]
       ++ [StreamChunk.mk [] (lit "s1") (lit "m-1") 2 true], None, w')
    /\ history w' (ChatRequest.session_id sample_request)
       = bounded (cap_of sample_ready_world)
           (history sample_ready_world (ChatRequest.session_id sample_request)
            ++ [user_message sample_request now])
    /\ active_streams_of w' = active_streams_of sample_ready_world.
Proof.
  apply (stream_endpoint_stores_no_reply
           (openai_backend sample_api (lit "m-1")) sample_request
           sample_ready_world
           [StreamChunk.mk (lit "Hel") (lit "s1") (lit "m-1") 0 false;
            StreamChunk.mk (lit "lo ") (lit "s1") (lit "m-1") 1 false]
           (StreamChunk.mk [] (lit "s1") (lit "m-1") 2 true)).
  - apply store_wf_sample_ready.
  - reflexivity.
  - vm_compute. reflexivity.
  - vm_compute. reflexivity.
  - vm_compute. reflexivity.
  - repeat constructor.
  - reflexivity.
Defined.

Lemma generate_stream_stops_at_finish_witness :
  OpenAI.generate_stream sample_api (lit "m-1")
    (ModelBackend.mk OpenAIAPIBackend (lit "gpt-4") true
       (Some (lit "sk-test")) None)
    [user_message sample_request 0] 0.7%float 512 None None
  = OpenAI.generate_stream late_failing_api (lit "m-1")
      (ModelBackend.mk OpenAIAPIBackend (lit "gpt-4") true
         (Some (lit "sk-test")) None)
      [user_message sample_request 0] 0.7%float 512 None None.
Proof.
  apply (generate_stream_stops_at_finish sample_api late_failing_api
           (lit "m-1") _ _ _ _ _ _
           [[delta "Hel"]; [delta "lo "]]
           [OpenAI.mkChoice None (Some (lit "stop"))]
           OpenAI.UpEnd OpenAI.UpFail).
  - reflexivity.
  - intros rq. reflexivity.
  - intros rq. reflexivity.
Defined.

(** ** The complete response of the OpenAI backend *)

Lemma lstrip_head s :
  match lstrip s with [] => True | c :: _ => isspace c = false end.
Proof.
  induction s as [|c s IH]; simpl; [done|].
  by destruct (isspace c) eqn:Hc.
Qed.

Lemma lstrip_snoc s c :
  isspace c = false -> lstrip (s ++ [c]) = lstrip s ++ [c].
Proof.
  intros Hc. induction s as [|x s IH]; simpl.
  - by rewrite Hc.
  - by destruct (isspace x).
Qed.

Lemma strip_trimmed s : trimmed (strip s).
Proof.
  unfold strip, rstrip, trimmed.
  pose proof (lstrip_head s) as Hhead.
  pose proof (lstrip_head (rev (lstrip s))) as Hlast.
  split.
  - destruct (lstrip s) as [|c t] eqn:Hl; [done|].
    simpl. rewrite lstrip_snoc by done. rewrite rev_app_distr. done.
  - destruct (lstrip (rev (lstrip s))) as [|c t]; [done|].
    simpl. by rewrite last_snoc.
Qed.

(** X30. [generate_response] of the OpenAI backend raises
    [ModelNotLoadedError] exactly when the backend is not loaded, and
    otherwise either raises [GenerationError] or returns a response.
    The message of a response neither starts nor ends with whitespace
    (it may be empty), and the response carries the message id drawn
    for the call and the backend's model name. *)
Theorem generate_response_outcome api uuid4 generation_time self messages
    temperature max_tokens top_p top_k :
  let r := OpenAIComplete.generate_response api uuid4 generation_time self
             messages temperature max_tokens top_p top_k in
  (r = Raise ModelNotLoadedError <-> ModelBackend.is_loaded self = false)
  /\ (ModelBackend.is_loaded self = true ->
      r = Raise GenerationError
      \/ exists response,
           r = Ok response
           /\ trimmed (ChatResponse.message response)
           /\ ChatResponse.message_id response = uuid4
           /\ ChatResponse.model_name response = ModelBackend.model_name self).
Proof.
  intros r. subst r. unfold OpenAIComplete.generate_response.
  destruct (ModelBackend.is_loaded self); simpl.
  - assert (H : forall r : Result ChatResponse.t,
               (r = Raise GenerationError
                \/ exists response,
                     r = Ok response
                     /\ trimmed (ChatResponse.message response)
                     /\ ChatResponse.message_id response = uuid4
                     /\ ChatResponse.model_name response
                        = ModelBackend.model_name self) ->
               (r = Raise ModelNotLoadedError <-> true = false)
               /\ (true = true ->
                   r = Raise GenerationError
                   \/ exists response,
                        r = Ok response
                        /\ trimmed (ChatResponse.message response)
                        /\ ChatResponse.message_id response = uuid4
                        /\ ChatResponse.model_name response
                           = ModelBackend.model_name self)).
    { intros r Hr. split; [|done]. split; [|done].
      intros ->. by destruct Hr as [?|(? & ? & _)]. }
    apply H.
    destruct (api _) as [|[|[[text|] finish] ?] tokens]; try by left.
    destruct (last messages) as [m|]; [|by left].
    assert (Hok : forall sid,
              Ok (ChatResponse.mk (strip text) sid uuid4
                    (ModelBackend.model_name self) generation_time tokens
                    finish)
              = Raise GenerationError
              \/ exists response,
                   Ok (ChatResponse.mk (strip text) sid uuid4
                         (ModelBackend.model_name self) generation_time
                         tokens finish) = Ok response
                   /\ trimmed (ChatResponse.message response)
                   /\ ChatResponse.message_id response = uuid4
                   /\ ChatResponse.model_name response
                      = ModelBackend.model_name self).
    { intros sid. right. eexists. split; [reflexivity|]. simpl.
      split; [apply strip_trimmed | done]. }
    destruct (ChatMessage.metadata m) as [[|kv md]|]; [apply Hok| |apply Hok].
    destruct (dict_get _ _ _); [apply Hok | by left].
  - split; [done|discriminate].
Qed.
